(** * hbank-api: authentication services, account handlers and the group store

    A shallow embedding of the Go code of the repository and the proofs of
    the properties its specification states about it.

    The repository's files come from three stages of its history:
    - [services] (package services): the first authentication layer, which
      talks to GORM directly (Register, SendConfirmEmail,
      VerifyConfirmEmailCode, Activate2FAOTP, VerifyOTPCode, Login);
    - [handlers] (package handlers): the later HTTP handlers, which go
      through the [models.UserStore] interface (DeleteUser, ...);
    - [db] (package db): the GORM implementation of [models.GroupStore]
      (RemoveMember, IsAdmin, GetUserBalance, CreateTransaction, ...).

    The relational database is modelled as one list of rows per table.
    What a request reads from outside the database (the clock, crypto/rand,
    the identifiers of new rows, the configuration) is an explicit argument
    of the embedded function, so that every function is total and runs.
    The database of the model does not fail: of the errors GORM reports,
    only [ErrRecordNotFound] and the refusal of a statement without a
    primary key occur. *)

From stdpp Require Import base decidable option strings numbers list.
From Stdlib Require Strings.Byte.

Local Open Scope Z_scope.

(** ** Go machine integers *)

Module Go.

(** [int64] (and [int] on the 64-bit targets the server is built for) is
    a two's complement integer; arithmetic wraps around. *)
Definition int64_min : Z := - 2 ^ 63.
Definition int64_max : Z := 2 ^ 63 - 1.

Definition is_int64 (z : Z) : Prop := int64_min <= z <= int64_max.

Definition wrap64 (z : Z) : Z := (z + 2 ^ 63) `mod` 2 ^ 64 - 2 ^ 63.

Definition add (a b : Z) : Z := wrap64 (a + b).
Definition sub (a b : Z) : Z := wrap64 (a - b).
Definition neg (a : Z) : Z := wrap64 (- a).

(** [time.Minute.Milliseconds()] *)
Definition time_Minute_Milliseconds : Z := 60000.

End Go.

(** ** Identifiers *)

(** A [uuid.UUID] is sixteen bytes, read here as the 128-bit number they
    spell; [uuid.UUID{}] is zero.  Two UUIDs have the same [String()] exactly
    when they are equal, and the database orders them as numbers. *)
Abbreviation UUID := N.

Definition uuid_zero : UUID := 0%N.

(** ** GORM statements over a table *)

Module gorm.

Section Table.
Context {T : Type} (pk : T → UUID).

(** [ORDER BY ... LIMIT 1] over the rows that satisfy [cond]: the row
    that comes before all others in the order [before]; of two rows that
    the order does not separate, the one met first. *)
Fixpoint first_by (before : T → T → bool) (cond : T → bool)
    (rows : list T) : option T :=
  match rows with
  | [] => None
  | r :: rest =>
      if cond r then
        match first_by before cond rest with
        | Some r' => if before r' r then Some r' else Some r
        | None => Some r
        end
      else first_by before cond rest
  end.

(** [db.First(&dest, cond)]: [SELECT * WHERE cond ORDER BY id LIMIT 1];
    [None] is [gorm.ErrRecordNotFound]. *)
Definition First (cond : T → bool) (rows : list T) : option T :=
  first_by (λ a b, (pk a <? pk b)%N) cond rows.

(** [db.Create(&row)] *)
Definition Create (row : T) (rows : list T) : list T := rows ++ [row].

(** [db.Delete(&row)]: [DELETE WHERE id = row.id].  A row value without
    a primary key gives a statement without conditions, which GORM
    refuses (ErrMissingWhereClause); the callers drop that error. *)
Definition Delete (id : UUID) (rows : list T) : list T :=
  if decide (id = uuid_zero) then rows
  else filter (λ r, pk r ≠ id) rows.

(** [db.Where(cond).Delete(&Model{})] *)
Definition DeleteWhere (cond : T → bool) (rows : list T) : list T :=
  filter (λ r, cond r = false) rows.

(** [db.Select(cols).Updates(&row)] and [db.Updates(&row)]:
    [UPDATE SET ... WHERE id = row.id], with [set] the assignment of the
    selected columns; refused like [Delete] without a primary key. *)
Definition Updates (id : UUID) (set : T → T) (rows : list T) : list T :=
  if decide (id = uuid_zero) then rows
  else (λ r, if decide (pk r = id) then set r else r) <$> rows.

(** The primary key constraint of a table. *)
Definition primary_key (rows : list T) : Prop :=
  NoDup (pk <$> rows) ∧ uuid_zero ∉ (pk <$> rows).

(** A key the store may give a new row: [uuid.New()] is neither zero nor
    in use. *)
Definition fresh (id : UUID) (rows : list T) : Prop :=
  id ≠ uuid_zero ∧ id ∉ (pk <$> rows).

End Table.

End gorm.

(** Go's [[]byte] is a list of bytes, compared with [bytes.Equal]. *)
#[global] Instance byte_eq_dec : EqDecision Byte.byte :=
  Strings.Byte.byte_eq_dec.

(** ** Errors *)

Inductive error : Type :=
  | ErrInvalidCredentials
  | ErrTimeout
  | ErrNotFound
  | ErrEmailAlreadyConfirmed
  | ErrRecordNotFound
  | ErrRandRead                 (* the error of crypto/rand's reader *)
  | ErrTemplate                 (* the error of ParseEmailTemplate *)
  | errors_New (msg : string).

#[global] Instance error_eq_dec : EqDecision error.
Proof. solve_decision. Defined.

(** A Go result pair [(value, err)] whose value is only used when [err] is
    nil. *)
Inductive result (A : Type) : Type :=
  | Ok (a : A)
  | Err (e : error).
Arguments Ok {A} a.
Arguments Err {A} e.

(** ** package models *)

(** Every model embeds [models.Base]; the code reads two of its columns:
    the primary key [Id] (a UUID the store assigns when the row is
    created) and, for the transaction log, the creation time [Created].
    Both appear as fields of the records below, as Go promotes them. *)

Module User.
(** The columns of [models.User] shared by the three stages.  The
    associations ([EmailCode], [LoginTokens], ...) are rows of their own
    tables, below. *)
Record t : Type := {
  Id : UUID;
  Name : string;
  Email : string;
  PasswordHash : list Byte.byte;
  ProfilePictureId : UUID;
  EmailConfirmed : bool;
  TwoFaOTPEnabled : bool;
  OtpSecret : string;
  OtpQrCode : list Byte.byte;
}.

Definition with_EmailConfirmed (v : bool) (u : t) : t :=
  {| Id := Id u; Name := Name u; Email := Email u;
     PasswordHash := PasswordHash u; ProfilePictureId := ProfilePictureId u;
     EmailConfirmed := v; TwoFaOTPEnabled := TwoFaOTPEnabled u;
     OtpSecret := OtpSecret u; OtpQrCode := OtpQrCode u |}.

Definition with_TwoFaOTPEnabled (v : bool) (u : t) : t :=
  {| Id := Id u; Name := Name u; Email := Email u;
     PasswordHash := PasswordHash u; ProfilePictureId := ProfilePictureId u;
     EmailConfirmed := EmailConfirmed u; TwoFaOTPEnabled := v;
     OtpSecret := OtpSecret u; OtpQrCode := OtpQrCode u |}.

(** the three columns [Activate2FAOTP] selects *)
Definition with_otp (enabled : bool) (secret : string)
    (qr : list Byte.byte) (u : t) : t :=
  {| Id := Id u; Name := Name u; Email := Email u;
     PasswordHash := PasswordHash u; ProfilePictureId := ProfilePictureId u;
     EmailConfirmed := EmailConfirmed u; TwoFaOTPEnabled := enabled;
     OtpSecret := secret; OtpQrCode := qr |}.
End User.

Module EmailCode.
(** [models.EmailCode] of the services stage, with the fields
    [SendConfirmEmail] fills in; [UserId] is the foreign key of the
    has-one association of [User], [None] for SQL's NULL. *)
Record t : Type := {
  Id : UUID;
  Code : string;
  ExpirationTime : Z;
  UserId : option UUID;
}.

(** the zero value a [User] carries when the join finds no row *)
Definition zero : t :=
  {| Id := uuid_zero; Code := ""; ExpirationTime := 0; UserId := None |}.

Definition with_UserId (v : option UUID) (c : t) : t :=
  {| Id := Id c; Code := Code c; ExpirationTime := ExpirationTime c;
     UserId := v |}.
End EmailCode.

Module LoginToken.
Record t : Type := {
  Id : UUID;
  Code : string;
  ExpirationTime : Z;
  UserId : UUID;
}.

Definition zero : t :=
  {| Id := uuid_zero; Code := ""; ExpirationTime := 0;
     UserId := uuid_zero |}.
End LoginToken.

Module ConfirmEmailLastSent.
Record t : Type := {
  Id : UUID;
  Email : string;
  LastSent : Z;
}.

(** [db.Updates(&s)] writes the non-zero fields of the struct [s]. *)
Definition updates_from (s : t) (r : t) : t :=
  {| Id := Id r;
     Email := if decide (Email s = "") then Email r else Email s;
     LastSent := if decide (LastSent s = 0) then LastSent r
                 else LastSent s |}.

Definition with_LastSent (v : Z) (r : t) : t :=
  {| Id := Id r; Email := Email r; LastSent := v |}.
End ConfirmEmailLastSent.

Module TwoFAToken.
(** [models.TwoFAToken] of the handlers stage *)
Record t : Type := {
  Id : UUID;
  CodeHash : list Byte.byte;
  ExpirationTime : Z;
  UserId : UUID;
}.
End TwoFAToken.

Module RecoveryCode.
(** [models.RecoveryCode] of the services stage, with the field
    [generateRecoveryCodes] fills in; [UserId] is the foreign key of the
    has-many association of [User]. *)
Record t : Type := {
  Id : UUID;
  Code : string;
  UserId : UUID;
}.
End RecoveryCode.

(** ** What the code calls outside the repository *)

(** bcrypt, the TOTP library, the mail template and the token hash are
    functions of other packages; the development is parametric in them. *)
Class Externals : Type := {
  (** [bcrypt.CompareHashAndPassword(hash, password) == nil] *)
  bcrypt_CompareHashAndPassword : list Byte.byte → list Byte.byte → bool;
  (** [totp.Validate(passcode, secret)], at the time of the call *)
  totp_Validate : Z → string → string → bool;
  (** [ParseEmailTemplate(file, templateData{Name, Content})]; [None]
      when it returns an error *)
  ParseEmailTemplate : string → string → string → option string;
  (** [services.HashToken(token)] *)
  HashToken : string → list Byte.byte;
}.

(** [config.Data] *)
Record Config : Type := {
  EmailEnabled : bool;
  DomainName : string;
}.

(** crypto/rand: the [k]-th call of [rand.Int(rand.Reader, max)] reads
    [rnd k] from the reader ([None]: the reader fails) and returns a number
    below [max]. *)
Definition Entropy : Type := nat → option N.

Definition rand_Int (rnd : Entropy) (k : nat) (max : N) : result N :=
  match rnd k with
  | Some raw => Ok (raw `mod` max)%N
  | None => Err ErrRandRead
  end.

(** a mail handed to [go SendEmail(to, subject, body)] *)
Record Mail : Type := {
  To : list string;
  Subject : string;
  Body : string;
}.

(** ** package services *)

Module services.

Definition emailCodeLifetime : Z := Go.time_Minute_Milliseconds * 5.
Definition confirmEmailTimeout : Z := Go.time_Minute_Milliseconds * 2.
Definition loginTokenLifetime : Z := Go.time_Minute_Milliseconds * 5.

(** The tables the services read and write. *)
Record DB : Type := {
  users : list User.t;
  email_codes : list EmailCode.t;
  login_tokens : list LoginToken.t;
  confirm_email_last_sents : list ConfirmEmailLastSent.t;
}.

Definition with_users (v : list User.t) (d : DB) : DB :=
  {| users := v; email_codes := email_codes d;
     login_tokens := login_tokens d;
     confirm_email_last_sents := confirm_email_last_sents d |}.

Definition with_email_codes (v : list EmailCode.t) (d : DB) : DB :=
  {| users := users d; email_codes := v;
     login_tokens := login_tokens d;
     confirm_email_last_sents := confirm_email_last_sents d |}.

Definition with_login_tokens (v : list LoginToken.t) (d : DB) : DB :=
  {| users := users d; email_codes := email_codes d;
     login_tokens := v;
     confirm_email_last_sents := confirm_email_last_sents d |}.

Definition with_confirm_email_last_sents
    (v : list ConfirmEmailLastSent.t) (d : DB) : DB :=
  {| users := users d; email_codes := email_codes d;
     login_tokens := login_tokens d;
     confirm_email_last_sents := v |}.

(** *** Helper functions *)

Definition letters : string :=
  "0123456789ABCDEFGHIJKLMNOPQRSTUVWXYZabcdefghijklmnopqrstuvwxyz".

(** [letters[i]]; the index is always in range, see [rand_Int]. *)
Definition letter (i : N) : Ascii.ascii :=
  default Ascii.zero (String.get (N.to_nat i) letters).

(** [generateRandomString(length)], drawing from position [pos] of the
    reader on. *)
Fixpoint generateRandomString (rnd : Entropy) (pos : nat) (length : nat)
    : result string :=
  match length with
  | O => Ok ""
  | S n =>
      match rand_Int rnd pos (N.of_nat (String.length letters)) with
      | Err e => Err e
      | Ok num =>
          match generateRandomString rnd (S pos) n with
          | Err e => Err e
          | Ok ret => Ok (String (letter num) ret)
          end
      end
  end.

(** The strings over the alphabet of [generateRandomString]. *)
Definition from_letters (s : string) : Prop :=
  Forall (λ c, c ∈ String.list_ascii_of_string letters)
    (String.list_ascii_of_string s).

(** [generateRecoveryCodes()]: the [n] codes from position [pos] of the
    reader on; the error of the reader is replaced. *)
Fixpoint generateRecoveryCodes_loop (rnd : Entropy) (pos : nat) (n : nat)
    : result (list RecoveryCode.t) :=
  match n with
  | O => Ok []
  | S n =>
      match generateRandomString rnd pos 64 with
      | Err _ => Err (errors_New "Couldn't generate recovery codes")
      | Ok code =>
          match generateRecoveryCodes_loop rnd (pos + 64)%nat n with
          | Err e => Err e
          | Ok codes =>
              Ok ({| RecoveryCode.Id := uuid_zero;
                     RecoveryCode.Code := code;
                     RecoveryCode.UserId := uuid_zero |} :: codes)
          end
      end
  end.

Definition generateRecoveryCodes (rnd : Entropy)
    : result (list RecoveryCode.t) :=
  generateRecoveryCodes_loop rnd 0 10.

(** *** Queries shared by the services *)

(** [db.First(&user, "email = ?", email)] *)
Definition user_by_email (d : DB) (email : string) : option User.t :=
  gorm.First User.Id (λ u, bool_decide (User.Email u = email)) (users d).

(** The [EmailCode] field that [db.Joins("EmailCode")] fills in: the row
    of [email_codes] that points to the user, the zero value if there is
    none. *)
Definition email_code_row (d : DB) (user : User.t) : option EmailCode.t :=
  gorm.First EmailCode.Id
    (λ c, bool_decide (EmailCode.UserId c = Some (User.Id user)))
    (email_codes d).

Definition joined_EmailCode (d : DB) (user : User.t) : EmailCode.t :=
  default EmailCode.zero (email_code_row d user).

(** [db.First(&confirmEmailLastSent, "email = ?", email)] *)
Definition last_sent_by_email (d : DB) (email : string)
    : option ConfirmEmailLastSent.t :=
  gorm.First ConfirmEmailLastSent.Id
    (λ r, bool_decide (ConfirmEmailLastSent.Email r = email))
    (confirm_email_last_sents d).

(** [db.Model(&user).Association("EmailCode").Replace(&code)]: the new
    row is saved with the user's key, and every other row that pointed to
    the user loses its foreign key. *)
Definition replace_EmailCode (user : User.t) (code : EmailCode.t)
    (rows : list EmailCode.t) : list EmailCode.t :=
  ((λ c, if decide (EmailCode.UserId c = Some (User.Id user)
                    ∧ EmailCode.Id c ≠ EmailCode.Id code)
         then EmailCode.with_UserId None c else c) <$> rows)
  ++ [EmailCode.with_UserId (Some (User.Id user)) code].

Section WithExternals.
Context `{Externals}.

(** *** SendConfirmEmail *)

(** The readings of [time.Now().UnixMilli()] a call of
    [SendConfirmEmail] takes: the first one (into the new marker, or
    for the comparison with the stored one), the one written into an
    existing marker, and the one the expiration time is computed
    from. *)
Record Clock : Type := {
  t_first : Z;
  t_update : Z;
  t_issue : Z;
}.

(** The first block of [SendConfirmEmail]: the rate-limit marker of
    the address is created, or compared with the clock and moved
    forward. *)
Definition mark_last_sent (clk : Clock) (markerId : UUID) (d : DB)
    (email : string) : result DB :=
  match last_sent_by_email d email with
  | None =>
      let confirmEmailLastSent :=
        {| ConfirmEmailLastSent.Id := markerId;
           ConfirmEmailLastSent.Email := email;
           ConfirmEmailLastSent.LastSent := t_first clk |} in
      Ok (with_confirm_email_last_sents
            (gorm.Create confirmEmailLastSent
               (confirm_email_last_sents d)) d)
  | Some confirmEmailLastSent =>
      if Go.sub (t_first clk)
           (ConfirmEmailLastSent.LastSent confirmEmailLastSent)
         <? confirmEmailTimeout
      then Err ErrTimeout
      else
        let confirmEmailLastSent :=
          ConfirmEmailLastSent.with_LastSent (t_update clk)
            confirmEmailLastSent in
        Ok (with_confirm_email_last_sents
              (gorm.Updates ConfirmEmailLastSent.Id
                 (ConfirmEmailLastSent.Id confirmEmailLastSent)
                 (ConfirmEmailLastSent.updates_from confirmEmailLastSent)
                 (confirm_email_last_sents d)) d)
  end.

(** [markerId] and [codeId] are the keys the store gives the rows the
    call creates.  [Replace] also puts the new row into [user.EmailCode],
    so the mail quotes the new code.  The third component lists the mails
    handed to [go SendEmail]. *)
Definition SendConfirmEmail (cfg : Config) (clk : Clock) (rnd : Entropy)
    (markerId codeId : UUID) (d : DB) (email : string)
    : option error * DB * list Mail :=
  match mark_last_sent clk markerId d email with
  | Err e => (Some e, d, [])
  | Ok d =>
      match user_by_email d email with
      | None => (Some ErrNotFound, d, [])
      | Some user =>
          if negb (User.EmailConfirmed user) then
            match generateRandomString rnd 0 6 with
            | Err e => (Some e, d, [])
            | Ok code =>
                let d := with_email_codes
                           (gorm.Delete EmailCode.Id
                              (EmailCode.Id (joined_EmailCode d user))
                              (email_codes d)) d in
                let emailCode :=
                  {| EmailCode.Id := codeId;
                     EmailCode.Code := code;
                     EmailCode.ExpirationTime :=
                       Go.add (t_issue clk) emailCodeLifetime;
                     EmailCode.UserId := Some (User.Id user) |} in
                let d := with_email_codes
                           (replace_EmailCode user emailCode
                              (email_codes d)) d in
                if EmailEnabled cfg then
                  match ParseEmailTemplate "template.html"
                          (User.Name user)
                          ("der Code lautet: " +:+ EmailCode.Code emailCode)
                  with
                  | None => (Some ErrTemplate, d, [])
                  | Some body =>
                      (None, d,
                       [ {| To := [User.Email user];
                            Subject := "H-Bank Bestätigungscode";
                            Body := body |} ])
                  end
                else (None, d, [])
            end
          else (Some ErrEmailAlreadyConfirmed, d, [])
      end
  end.

(** *** VerifyConfirmEmailCode *)

Definition VerifyConfirmEmailCode (now : Z) (d : DB)
    (email code : string) : bool * DB :=
  match user_by_email d email with
  | None => (false, d)
  | Some user =>
      let emailCode := joined_EmailCode d user in
      if bool_decide (EmailCode.Code emailCode = code) then
        let '(success, d) :=
          if EmailCode.ExpirationTime emailCode >? now then
            (true,
             with_users
               (gorm.Updates User.Id (User.Id user)
                  (User.with_EmailConfirmed true) (users d)) d)
          else (false, d) in
        (success,
         with_email_codes
           (gorm.Delete EmailCode.Id (EmailCode.Id emailCode)
              (email_codes d)) d)
      else (false, d)
  end.

(** *** Activate2FAOTP and VerifyOTPCode *)

(** What [totp.Generate] hands back: the secret of the key and the
    bytes [png.Encode] writes for [key.Image(200, 200)] ([None]: Image
    fails). *)
Record OtpKey : Type := {
  Secret : string;
  Image : option (list Byte.byte);
}.

(** [generated] is the outcome of [totp.Generate] for the issuer
    [config.Data.DomainName] and the account [user.Email] ([None]: it
    fails); the call is made only on the path that reaches it. *)
Definition Activate2FAOTP (generated : string → string → option OtpKey)
    (cfg : Config) (d : DB) (email password : string)
    : list Byte.byte * option error * DB :=
  match user_by_email d email with
  | None => ([], Some ErrInvalidCredentials, d)
  | Some user =>
      if negb (bcrypt_CompareHashAndPassword (User.PasswordHash user)
                 (String.list_byte_of_string password))
      then ([], Some ErrInvalidCredentials, d)
      else if negb (User.TwoFaOTPEnabled user) then
        match generated (DomainName cfg) (User.Email user) with
        | None => ([], Some (errors_New "Failed to generate OTP"), d)
        | Some key =>
            match Image key with
            | None =>
                ([], Some (errors_New "Failed to generate OTP QR code"), d)
            | Some qr =>
                let secret := Secret key in
                (qr, None,
                 with_users
                   (gorm.Updates User.Id (User.Id user)
                      (User.with_otp (User.TwoFaOTPEnabled user) secret qr)
                      (users d)) d)
            end
        end
      else (User.OtpQrCode user, None, d)
  end.

Definition VerifyOTPCode (now : Z) (d : DB) (email code : string)
    : bool * DB :=
  match user_by_email d email with
  | None => (false, d)
  | Some user =>
      if totp_Validate now code (User.OtpSecret user) then
        (true,
         with_users
           (gorm.Updates User.Id (User.Id user)
              (User.with_TwoFaOTPEnabled true) (users d)) d)
      else (false, d)
  end.

(** *** Login *)

(** [db.First(&existingLoginToken, "code = ?", code)]: once an earlier
    round of the loop has loaded a row into [existingLoginToken], GORM
    adds the primary key of that value to the conditions. *)
Definition login_token_by_code (d : DB) (existingLoginToken : LoginToken.t)
    (code : string) : option LoginToken.t :=
  gorm.First LoginToken.Id
    (λ t, bool_decide (LoginToken.Code t = code)
          && (bool_decide (LoginToken.Id existingLoginToken = uuid_zero)
              || bool_decide (LoginToken.Id t
                              = LoginToken.Id existingLoginToken)))
    (login_tokens d).

(** The loop [for code == "" || First(...) != ErrRecordNotFound]: each
    round draws the next 64 numbers of the reader.  [fuel] bounds the
    number of rounds; [None] when it does not suffice. *)
Fixpoint login_code (fuel : nat) (rnd : Entropy) (pos : nat) (d : DB)
    (code : string) (existingLoginToken : LoginToken.t)
    : option (result string) :=
  let again :=
    if bool_decide (code = "") then Some existingLoginToken
    else login_token_by_code d existingLoginToken code in
  match again with
  | None => Some (Ok code)
  | Some existingLoginToken =>
      match fuel with
      | O => None
      | S fuel =>
          match generateRandomString rnd pos 64 with
          | Err e => Some (Err e)
          | Ok code =>
              login_code fuel rnd (pos + 64)%nat d code existingLoginToken
          end
      end
  end.

(** [db.Updates(&user)] after the append to [user.LoginTokens]: the
    columns of the user are written back as they were read, and the new
    token is saved with the user's key. *)
Definition save_LoginToken (user : User.t) (token : LoginToken.t)
    (d : DB) : DB :=
  if decide (User.Id user = uuid_zero) then d
  else with_login_tokens (gorm.Create token (login_tokens d)) d.

(** [tokenId] is the key the store gives the new token.  The
    [fmt.Println(err)] of the first branch writes to the standard output
    only. *)
Definition Login (fuel : nat) (rnd : Entropy) (now : Z) (tokenId : UUID)
    (d : DB) (email password : string)
    : option (string * option error * DB) :=
  match user_by_email d email with
  | None => Some ("", Some ErrInvalidCredentials, d)
  | Some user =>
      if negb (bcrypt_CompareHashAndPassword (User.PasswordHash user)
                 (String.list_byte_of_string password))
      then Some ("", Some ErrInvalidCredentials, d)
      else
        match login_code fuel rnd 0 d "" LoginToken.zero with
        | None => None
        | Some (Err e) => Some ("", Some e, d)
        | Some (Ok code) =>
            let token :=
              {| LoginToken.Id := tokenId;
                 LoginToken.Code := code;
                 LoginToken.ExpirationTime :=
                   Go.add now loginTokenLifetime;
                 LoginToken.UserId := User.Id user |} in
            Some (code, None, save_LoginToken user token d)
        end
  end.

End WithExternals.

(** *** What the database guarantees *)

(** The primary keys of the tables, and the has-one association between
    a user and its email code: at most one row of [email_codes] points to
    a given user. *)
Definition has_one_EmailCode (rows : list EmailCode.t) : Prop :=
  ∀ c1 c2 uid, c1 ∈ rows → c2 ∈ rows →
    EmailCode.UserId c1 = Some uid → EmailCode.UserId c2 = Some uid →
    EmailCode.Id c1 = EmailCode.Id c2.

Record consistent (d : DB) : Prop := {
  users_pk : gorm.primary_key User.Id (users d);
  email_codes_pk : gorm.primary_key EmailCode.Id (email_codes d);
  login_tokens_pk : gorm.primary_key LoginToken.Id (login_tokens d);
  confirm_email_last_sents_pk :
    gorm.primary_key ConfirmEmailLastSent.Id (confirm_email_last_sents d);
  email_codes_has_one : has_one_EmailCode (email_codes d);
}.

(** A reading of [time.Now().UnixMilli()]: a positive [int64]. *)
Definition is_time (t : Z) : Prop := 0 < t ≤ Go.int64_max.

Definition clock_ok (clk : Clock) : Prop :=
  is_time (t_first clk) ∧ is_time (t_update clk) ∧ is_time (t_issue clk).

(** *** Register *)

Definition bcryptCost : Z := 10.

(** What [Register] returns as its error: [ErrEmailExists], the error of
    [bcrypt.GenerateFromPassword], or the error of
    [generateRecoveryCodes]. *)
Inductive register_error : Type :=
  | ErrEmailExists
  | ErrGenerateFromPassword
  | ErrRegister (e : error).

#[global] Instance register_error_eq_dec : EqDecision register_error.
Proof. solve_decision. Defined.

(** The rows [db.Create(&user)] writes for [user.RecoveryCodes]: each
    code gets a key of its own and the key of the user. *)
Definition saved_RecoveryCodes (codeId : nat → UUID) (userId : UUID)
    (codes : list RecoveryCode.t) : list RecoveryCode.t :=
  imap (λ i c, {| RecoveryCode.Id := codeId i;
                   RecoveryCode.Code := RecoveryCode.Code c;
                   RecoveryCode.UserId := userId |}) codes.

(** [generate] is [bcrypt.GenerateFromPassword] ([None]: it fails);
    [userId] and [codeId i] are the keys the store gives the new user and
    its [i]-th recovery code, [profilePictureId] the outcome of
    [uuid.New()].  The recovery codes have a table of their own, the
    second component of the state. *)
Definition Register (generate : list Byte.byte → Z → option (list Byte.byte))
    (rnd : Entropy) (userId profilePictureId : UUID) (codeId : nat → UUID)
    (d : DB) (recovery_codes : list RecoveryCode.t)
    (email name password : string)
    : UUID * option register_error * (DB * list RecoveryCode.t) :=
  match user_by_email d email with
  | Some _ => (uuid_zero, Some ErrEmailExists, (d, recovery_codes))
  | None =>
      match generate (String.list_byte_of_string password) bcryptCost with
      | None =>
          (uuid_zero, Some ErrGenerateFromPassword, (d, recovery_codes))
      | Some passwordHash =>
          match generateRecoveryCodes rnd with
          | Err e => (uuid_zero, Some (ErrRegister e), (d, recovery_codes))
          | Ok codes =>
              let user :=
                {| User.Id := userId;
                   User.Name := name;
                   User.Email := email;
                   User.PasswordHash := passwordHash;
                   User.ProfilePictureId := profilePictureId;
                   User.EmailConfirmed := false;
                   User.TwoFaOTPEnabled := false;
                   User.OtpSecret := "";
                   User.OtpQrCode := [] |} in
              (User.Id user, None,
               (with_users (gorm.Create user (users d)) d,
                recovery_codes
                ++ saved_RecoveryCodes codeId (User.Id user) codes))
          end
      end
  end.

(** No two accounts share an address: [Register] looks the address up
    before it creates the user. *)
Definition emails_unique (d : DB) : Prop :=
  ∀ u1 u2, u1 ∈ users d → u2 ∈ users d →
    User.Email u1 = User.Email u2 → u1 = u2.

End services.

(** ** package handlers *)

Module handlers.

(** [bindings.DeleteUser] *)
Record DeleteUserBody : Type := {
  Password : string;
  TwoFAToken : string;
}.

(** What a handler answers: [c.JSON(status, body)]. *)
Inductive body : Type :=
  | NewUnexpectedError
  | NewUserNoLongerExists
  | NewInvalidRequestBody
  | NewInvalidCredentials
  | New (success : bool) (message : string).

#[global] Instance body_eq_dec : EqDecision body.
Proof. solve_decision. Defined.

Record response : Type := JSON { status : Z; payload : body }.

#[global] Instance response_eq_dec : EqDecision response.
Proof. solve_decision. Defined.

Definition StatusOK : Z := 200.
Definition StatusBadRequest : Z := 400.
Definition StatusUnauthorized : Z := 401.
Definition StatusForbidden : Z := 403.
Definition StatusInternalServerError : Z := 500.

(** The tables behind [h.userStore]. *)
Record Store : Type := {
  users : list User.t;
  two_fa_tokens : list TwoFAToken.t;
}.

Section WithExternals.
Context `{Externals}.

(** The handlers reach the database through the interface
    [models.UserStore] only.  The four methods [DeleteUser] calls are
    given here by what the interface in models/user.go and the
    specification of the credential store say about them.  The store of
    the model never fails, so the handler's answers to a store error are
    not reached. *)

(** Modelled from the spec: [UserStore.GetById], the user with this id
    (section 3: the id is unique), [None] for Go's nil. *)
Definition GetById (s : Store) (id : UUID) : option User.t :=
  gorm.First User.Id (λ u, bool_decide (User.Id u = id)) (users s).

(** Modelled from the spec: [UserStore.GetTwoFATokenByCode], the token of
    the user whose stored hash is the hash of the presented value
    (section 4.6: lookup always compares by hash; section 3: a token
    belongs to one user). *)
Definition GetTwoFATokenByCode (s : Store) (user : User.t)
    (code : string) : option TwoFAToken.t :=
  gorm.First TwoFAToken.Id
    (λ t, bool_decide (TwoFAToken.UserId t = User.Id user)
          && bool_decide (TwoFAToken.CodeHash t = HashToken code))
    (two_fa_tokens s).

(** Modelled from the spec: [UserStore.DeleteTwoFAToken], the row of the
    token is removed (section 3: consumption deletes the credential). *)
Definition DeleteTwoFAToken (s : Store) (token : TwoFAToken.t) : Store :=
  {| users := users s;
     two_fa_tokens :=
       gorm.Delete TwoFAToken.Id (TwoFAToken.Id token) (two_fa_tokens s) |}.

(** Modelled from the spec: [UserStore.Delete], the row of the user is
    removed. *)
Definition Delete (s : Store) (user : User.t) : Store :=
  {| users := gorm.Delete User.Id (User.Id user) (users s);
     two_fa_tokens := two_fa_tokens s |}.

(** [DeleteUser]: [userId] is what the JWT middleware put into the
    context, [bound] the outcome of [c.Bind(&body)] ([None]: it fails),
    [now] the reading of [time.Now().Unix()]. *)
Definition DeleteUser (now : Z) (s : Store) (userId : UUID)
    (bound : option DeleteUserBody) : response * Store :=
  match GetById s userId with
  | None => (JSON StatusUnauthorized NewUserNoLongerExists, s)
  | Some user =>
      match bound with
      | None => (JSON StatusBadRequest NewInvalidRequestBody, s)
      | Some body =>
          if negb (bcrypt_CompareHashAndPassword (User.PasswordHash user)
                     (String.list_byte_of_string (Password body)))
          then (JSON StatusForbidden NewInvalidCredentials, s)
          else
            match GetTwoFATokenByCode s user (TwoFAToken body) with
            | None => (JSON StatusForbidden NewInvalidCredentials, s)
            | Some twoFAToken =>
                let s := DeleteTwoFAToken s twoFAToken in
                if TwoFAToken.ExpirationTime twoFAToken <? now
                then (JSON StatusForbidden NewInvalidCredentials, s)
                else
                  (JSON StatusOK (New true "Successfully deleted account"),
                   Delete s user)
            end
      end
  end.

End WithExternals.

(** Modelled from the spec: what the credential store guarantees about
    the tokens it issues.  It keeps the primary key of the table and never
    holds two tokens of one user with the same hash (section 3: a
    single-use credential is consumed by its first match). *)
Record consistent (s : Store) : Prop := {
  two_fa_tokens_pk : gorm.primary_key TwoFAToken.Id (two_fa_tokens s);
  two_fa_tokens_distinct :
    ∀ t1 t2, t1 ∈ two_fa_tokens s → t2 ∈ two_fa_tokens s →
      TwoFAToken.UserId t1 = TwoFAToken.UserId t2 →
      TwoFAToken.CodeHash t1 = TwoFAToken.CodeHash t2 →
      TwoFAToken.Id t1 = TwoFAToken.Id t2;
}.

End handlers.

(** ** package db: the group store *)

Module Group.
Record t : Type := {
  Id : UUID;
  Name : string;
  Description : string;
  GroupPictureId : UUID;
}.
End Group.

Module GroupMembership.
Record t : Type := {
  Id : UUID;
  GroupName : string;
  GroupId : UUID;
  UserName : string;
  UserId : UUID;
  IsMember : bool;
  IsAdmin : bool;
}.

Definition with_IsMember (v : bool) (m : t) : t :=
  {| Id := Id m; GroupName := GroupName m; GroupId := GroupId m;
     UserName := UserName m; UserId := UserId m;
     IsMember := v; IsAdmin := IsAdmin m |}.

Definition with_IsAdmin (v : bool) (m : t) : t :=
  {| Id := Id m; GroupName := GroupName m; GroupId := GroupId m;
     UserName := UserName m; UserId := UserId m;
     IsMember := IsMember m; IsAdmin := v |}.

(** [db.Updates(&s)] writes the non-zero fields of the struct [s]. *)
Definition updates_from (s : t) (r : t) : t :=
  {| Id := Id r;
     GroupName := if decide (GroupName s = "") then GroupName r
                  else GroupName s;
     GroupId := if decide (GroupId s = uuid_zero) then GroupId r
                else GroupId s;
     UserName := if decide (UserName s = "") then UserName r
                 else UserName s;
     UserId := if decide (UserId s = uuid_zero) then UserId r else UserId s;
     IsMember := if IsMember s then true else IsMember r;
     IsAdmin := if IsAdmin s then true else IsAdmin r |}.

#[global] Instance eq_dec : EqDecision t.
Proof. solve_decision. Defined.
End GroupMembership.

Module TransactionLogEntry.
Record t : Type := {
  Id : UUID;
  Created : Z;
  Title : string;
  Description : string;
  Amount : Z;
  GroupId : UUID;
  SenderIsBank : bool;
  SenderId : UUID;
  NewBalanceSender : Z;
  BalanceDifferenceSender : Z;
  ReceiverIsBank : bool;
  ReceiverId : UUID;
  NewBalanceReceiver : Z;
  BalanceDifferenceReceiver : Z;
  PaymentPlanId : UUID;
}.

Definition with_PaymentPlanId (v : UUID) (e : t) : t :=
  {| Id := Id e; Created := Created e; Title := Title e;
     Description := Description e; Amount := Amount e;
     GroupId := GroupId e;
     SenderIsBank := SenderIsBank e; SenderId := SenderId e;
     NewBalanceSender := NewBalanceSender e;
     BalanceDifferenceSender := BalanceDifferenceSender e;
     ReceiverIsBank := ReceiverIsBank e; ReceiverId := ReceiverId e;
     NewBalanceReceiver := NewBalanceReceiver e;
     BalanceDifferenceReceiver := BalanceDifferenceReceiver e;
     PaymentPlanId := v |}.
End TransactionLogEntry.

Module PaymentPlan.
Record t : Type := {
  Id : UUID;
  Name : string;
  Description : string;
  Amount : Z;
  PaymentCount : Z;
  NextExecute : Z;
  Schedule : Z;
  ScheduleUnit : string;
  SenderIsBank : bool;
  SenderId : UUID;
  ReceiverIsBank : bool;
  ReceiverId : UUID;
  GroupId : UUID;
}.
End PaymentPlan.

Module db.

(** The tables behind [gs.db]. *)
Record DB : Type := {
  group_memberships : list GroupMembership.t;
  payment_plans : list PaymentPlan.t;
  transaction_log_entries : list TransactionLogEntry.t;
}.

Definition with_group_memberships (v : list GroupMembership.t) (d : DB)
    : DB :=
  {| group_memberships := v; payment_plans := payment_plans d;
     transaction_log_entries := transaction_log_entries d |}.

Definition with_payment_plans (v : list PaymentPlan.t) (d : DB) : DB :=
  {| group_memberships := group_memberships d; payment_plans := v;
     transaction_log_entries := transaction_log_entries d |}.

Definition with_transaction_log_entries (v : list TransactionLogEntry.t)
    (d : DB) : DB :=
  {| group_memberships := group_memberships d;
     payment_plans := payment_plans d;
     transaction_log_entries := v |}.

(** [First(&membership, "group_id = ? AND user_id = ?", ...)] *)
Definition membership_of (d : DB) (group : Group.t) (user : User.t)
    : option GroupMembership.t :=
  gorm.First GroupMembership.Id
    (λ m, bool_decide (GroupMembership.GroupId m = Group.Id group)
          && bool_decide (GroupMembership.UserId m = User.Id user))
    (group_memberships d).

Definition RemoveMember (d : DB) (group : Group.t) (user : User.t)
    : option error * DB :=
  match membership_of d group user with
  | None => (Some ErrRecordNotFound, d)
  | Some membership =>
      let d :=
        with_payment_plans
          (gorm.DeleteWhere
             (λ p, (bool_decide (PaymentPlan.GroupId p = Group.Id group)
                    && bool_decide (PaymentPlan.SenderId p = User.Id user))
                   || (bool_decide (PaymentPlan.GroupId p = Group.Id group)
                       && bool_decide
                            (PaymentPlan.ReceiverId p = User.Id user)))
             (payment_plans d)) d in
      if GroupMembership.IsAdmin membership then
        let membership := GroupMembership.with_IsMember false membership in
        (None,
         with_group_memberships
           (gorm.Updates GroupMembership.Id (GroupMembership.Id membership)
              (GroupMembership.with_IsMember
                 (GroupMembership.IsMember membership))
              (group_memberships d)) d)
      else
        (None,
         with_group_memberships
           (gorm.Delete GroupMembership.Id (GroupMembership.Id membership)
              (group_memberships d)) d)
  end.

Definition IsAdmin (d : DB) (group : Group.t) (user : User.t)
    : bool * option error :=
  match gorm.First GroupMembership.Id
          (λ m, bool_decide (GroupMembership.GroupId m = Group.Id group)
                && bool_decide (GroupMembership.UserId m = User.Id user)
                && bool_decide (GroupMembership.IsAdmin m = true))
          (group_memberships d)
  with
  | None => (false, None)
  | Some _ => (true, None)
  end.

(** [ORDER BY created DESC], then by primary key as [First] adds it. *)
Definition created_desc (a b : TransactionLogEntry.t) : bool :=
  (TransactionLogEntry.Created b <? TransactionLogEntry.Created a)
  || ((TransactionLogEntry.Created a =? TransactionLogEntry.Created b)
      && (TransactionLogEntry.Id a <? TransactionLogEntry.Id b)%N).

(** [Where("group_id = ? AND sender_id = ?").Or("group_id = ? AND
    receiver_id = ?")] *)
Definition entry_of (group : Group.t) (user : User.t)
    (e : TransactionLogEntry.t) : bool :=
  (bool_decide (TransactionLogEntry.GroupId e = Group.Id group)
   && bool_decide (TransactionLogEntry.SenderId e = User.Id user))
  || (bool_decide (TransactionLogEntry.GroupId e = Group.Id group)
      && bool_decide (TransactionLogEntry.ReceiverId e = User.Id user)).

Definition GetLastTransactionLogEntry (d : DB) (group : Group.t)
    (user : User.t) : option TransactionLogEntry.t :=
  gorm.first_by created_desc (entry_of group user)
    (transaction_log_entries d).

Definition GetUserBalance (d : DB) (group : Group.t) (user : User.t) : Z :=
  match GetLastTransactionLogEntry d group user with
  | None => 0
  | Some lastLogEntry =>
      if bool_decide (TransactionLogEntry.SenderId lastLogEntry
                      = User.Id user)
      then TransactionLogEntry.NewBalanceSender lastLogEntry
      else TransactionLogEntry.NewBalanceReceiver lastLogEntry
  end.

(** [newId] and [created] are the [Base] columns the store gives the new
    row.  [sender] and [receiver] are read only when their side is not
    the bank. *)
Definition CreateTransactionFromPaymentPlan (newId : UUID) (created : Z)
    (d : DB) (group : Group.t) (senderIsBank receiverIsBank : bool)
    (sender receiver : User.t) (title description : string) (amount : Z)
    (paymentPlanId : UUID) : option error * DB :=
  let newBalanceSender :=
    if negb senderIsBank
    then Go.sub (GetUserBalance d group sender) amount else 0 in
  let newBalanceReceiver :=
    if negb receiverIsBank
    then Go.add (GetUserBalance d group receiver) amount else 0 in
  let senderId := if negb senderIsBank then User.Id sender else uuid_zero in
  let receiverId :=
    if negb receiverIsBank then User.Id receiver else uuid_zero in
  let transaction :=
    {| TransactionLogEntry.Id := newId;
       TransactionLogEntry.Created := created;
       TransactionLogEntry.Title := title;
       TransactionLogEntry.Description := description;
       TransactionLogEntry.Amount := amount;
       TransactionLogEntry.GroupId := Group.Id group;
       TransactionLogEntry.SenderIsBank := senderIsBank;
       TransactionLogEntry.SenderId := senderId;
       TransactionLogEntry.BalanceDifferenceSender := Go.neg amount;
       TransactionLogEntry.NewBalanceSender := newBalanceSender;
       TransactionLogEntry.ReceiverIsBank := receiverIsBank;
       TransactionLogEntry.ReceiverId := receiverId;
       TransactionLogEntry.BalanceDifferenceReceiver := amount;
       TransactionLogEntry.NewBalanceReceiver := newBalanceReceiver;
       TransactionLogEntry.PaymentPlanId := paymentPlanId |} in
  (None,
   with_transaction_log_entries
     (gorm.Create transaction (transaction_log_entries d)) d).

Definition CreateTransaction (newId : UUID) (created : Z) (d : DB)
    (group : Group.t) (senderIsBank receiverIsBank : bool)
    (sender receiver : User.t) (title description : string) (amount : Z)
    : option error * DB :=
  CreateTransactionFromPaymentPlan newId created d group senderIsBank
    receiverIsBank sender receiver title description amount uuid_zero.

(** *** The other methods of the group store *)

Definition IsMember (d : DB) (group : Group.t) (user : User.t)
    : bool * option error :=
  match gorm.First GroupMembership.Id
          (λ m, bool_decide (GroupMembership.GroupId m = Group.Id group)
                && bool_decide (GroupMembership.UserId m = User.Id user)
                && bool_decide (GroupMembership.IsMember m = true))
          (group_memberships d)
  with
  | None => (false, None)
  | Some _ => (true, None)
  end.

(** [newId] is the key the store gives a new membership.  The
    [Select("is_member")] in front of [Association("Memberships")] names
    no column of the association, so the appended row is saved whole. *)
Definition AddMember (newId : UUID) (d : DB) (group : Group.t)
    (user : User.t) : option error * DB :=
  match membership_of d group user with
  | None =>
      (None,
       with_group_memberships
         (gorm.Create
            {| GroupMembership.Id := newId;
               GroupMembership.GroupName := Group.Name group;
               GroupMembership.GroupId := Group.Id group;
               GroupMembership.UserName := User.Name user;
               GroupMembership.UserId := User.Id user;
               GroupMembership.IsMember := true;
               GroupMembership.IsAdmin := false |}
            (group_memberships d)) d)
  | Some membership =>
      let membership := GroupMembership.with_IsMember true membership in
      (None,
       with_group_memberships
         (gorm.Updates GroupMembership.Id (GroupMembership.Id membership)
            (GroupMembership.updates_from membership)
            (group_memberships d)) d)
  end.

Definition AddAdmin (newId : UUID) (d : DB) (group : Group.t)
    (user : User.t) : option error * DB :=
  match membership_of d group user with
  | None =>
      (None,
       with_group_memberships
         (gorm.Create
            {| GroupMembership.Id := newId;
               GroupMembership.GroupName := Group.Name group;
               GroupMembership.GroupId := Group.Id group;
               GroupMembership.UserName := User.Name user;
               GroupMembership.UserId := User.Id user;
               GroupMembership.IsMember := false;
               GroupMembership.IsAdmin := true |}
            (group_memberships d)) d)
  | Some membership =>
      let membership := GroupMembership.with_IsAdmin true membership in
      (None,
       with_group_memberships
         (gorm.Updates GroupMembership.Id (GroupMembership.Id membership)
            (GroupMembership.with_IsAdmin
               (GroupMembership.IsAdmin membership))
            (group_memberships d)) d)
  end.

Definition RemoveAdmin (d : DB) (group : Group.t) (user : User.t)
    : option error * DB :=
  match membership_of d group user with
  | None => (Some ErrRecordNotFound, d)
  | Some membership =>
      if GroupMembership.IsMember membership then
        let membership := GroupMembership.with_IsAdmin false membership in
        (None,
         with_group_memberships
           (gorm.Updates GroupMembership.Id (GroupMembership.Id membership)
              (GroupMembership.with_IsAdmin
                 (GroupMembership.IsAdmin membership))
              (group_memberships d)) d)
      else
        (None,
         with_group_memberships
           (gorm.Delete GroupMembership.Id (GroupMembership.Id membership)
              (group_memberships d)) d)
  end.

(** [Where("group_id = ? AND user_id = ? AND is_member = ?").Or("group_id
    = ? AND user_id = ? AND is_admin = ?")] *)
Definition in_group (group : Group.t) (user : User.t)
    (m : GroupMembership.t) : bool :=
  (bool_decide (GroupMembership.GroupId m = Group.Id group)
   && bool_decide (GroupMembership.UserId m = User.Id user)
   && bool_decide (GroupMembership.IsMember m = true))
  || (bool_decide (GroupMembership.GroupId m = Group.Id group)
      && bool_decide (GroupMembership.UserId m = User.Id user)
      && bool_decide (GroupMembership.IsAdmin m = true)).

Definition IsInGroup (d : DB) (group : Group.t) (user : User.t)
    : bool * option error :=
  match gorm.First GroupMembership.Id (in_group group user)
          (group_memberships d)
  with
  | None => (false, None)
  | Some _ => (true, None)
  end.

(** [Model(&GroupMembership{}).Where(...).Or(...).Count(&count)] *)
Definition GetUserCount (d : DB) (group : Group.t) : Z * option error :=
  (Z.of_nat
     (length
        (filter
           (λ m, (bool_decide (GroupMembership.GroupId m = Group.Id group)
                  && bool_decide (GroupMembership.IsMember m = true))
                 || (bool_decide (GroupMembership.GroupId m = Group.Id group)
                     && bool_decide (GroupMembership.IsAdmin m = true))
                 = true)
           (group_memberships d))),
   None).

(** the rows [GetUserCount] counts *)
Definition counted (group : Group.t) (m : GroupMembership.t) : Prop :=
  (bool_decide (GroupMembership.GroupId m = Group.Id group)
   && bool_decide (GroupMembership.IsMember m = true))
  || (bool_decide (GroupMembership.GroupId m = Group.Id group)
      && bool_decide (GroupMembership.IsAdmin m = true))
  = true.

#[global] Instance counted_dec group m : Decision (counted group m).
Proof. unfold counted. apply _. Defined.

(** [First(&entry, "group_id = ? AND id = ?", group.Id, id)]; [None] for
    the nil the method returns when there is no such row. *)
Definition GetTransactionLogEntryById (d : DB) (group : Group.t) (id : UUID)
    : option TransactionLogEntry.t * option error :=
  (gorm.First TransactionLogEntry.Id
     (λ e, bool_decide (TransactionLogEntry.GroupId e = Group.Id group)
           && bool_decide (TransactionLogEntry.Id e = id))
     (transaction_log_entries d),
   None).

Definition GetPaymentPlanById (d : DB) (group : Group.t) (id : UUID)
    : option PaymentPlan.t * option error :=
  (gorm.First PaymentPlan.Id
     (λ p, bool_decide (PaymentPlan.GroupId p = Group.Id group)
           && bool_decide (PaymentPlan.Id p = id))
     (payment_plans d),
   None).

(** [newId] is the key the store gives the new plan.  [sender] and
    [receiver] are read only when their side is not the bank. *)
Definition CreatePaymentPlan (newId : UUID) (d : DB) (group : Group.t)
    (senderIsBank receiverIsBank : bool) (sender receiver : User.t)
    (name description : string) (amount paymentCount schedule : Z)
    (scheduleUnit : string) (firstPayment : Z) : option error * DB :=
  let paymentPlan :=
    {| PaymentPlan.Id := newId;
       PaymentPlan.Name := name;
       PaymentPlan.Description := description;
       PaymentPlan.Amount := amount;
       PaymentPlan.PaymentCount := paymentCount;
       PaymentPlan.NextExecute := firstPayment;
       PaymentPlan.Schedule := schedule;
       PaymentPlan.ScheduleUnit := scheduleUnit;
       PaymentPlan.SenderIsBank := senderIsBank;
       PaymentPlan.SenderId :=
         if negb senderIsBank then User.Id sender else uuid_zero;
       PaymentPlan.ReceiverIsBank := receiverIsBank;
       PaymentPlan.ReceiverId :=
         if negb receiverIsBank then User.Id receiver else uuid_zero;
       PaymentPlan.GroupId := Group.Id group |} in
  (None, with_payment_plans (gorm.Create paymentPlan (payment_plans d)) d).

(** [Model(&TransactionLogEntry{}).Where("payment_plan_id = ?",
    id).Update("payment_plan_id", uuid.UUID{})], then
    [Delete(paymentPlan)]. *)
Definition DeletePaymentPlan (d : DB) (paymentPlan : PaymentPlan.t)
    : option error * DB :=
  let d :=
    with_transaction_log_entries
      ((λ e, if decide (TransactionLogEntry.PaymentPlanId e
                        = PaymentPlan.Id paymentPlan)
             then TransactionLogEntry.with_PaymentPlanId uuid_zero e
             else e) <$> transaction_log_entries d) d in
  (None,
   with_payment_plans
     (gorm.Delete PaymentPlan.Id (PaymentPlan.Id paymentPlan)
        (payment_plans d)) d).

(** [Find(&paymentPlans, "next_execute <= ?", time.Now().Unix())] *)
Definition GetPaymentPlansThatNeedToBeExecuted (now : Z) (d : DB)
    : list PaymentPlan.t * option error :=
  (filter (λ p, PaymentPlan.NextExecute p ≤ now) (payment_plans d), None).

(** *** What the membership table guarantees *)

(** The primary key; at most one record per group and user, as
    [AddMember] and [AddAdmin] look the record up before they create one;
    and no record without a role, as [RemoveMember] and [RemoveAdmin]
    delete the record that would lose its last one. *)
Record memberships_ok (d : DB) : Prop := {
  memberships_pk :
    gorm.primary_key GroupMembership.Id (group_memberships d);
  memberships_one :
    ∀ m1 m2, m1 ∈ group_memberships d → m2 ∈ group_memberships d →
      GroupMembership.GroupId m1 = GroupMembership.GroupId m2 →
      GroupMembership.UserId m1 = GroupMembership.UserId m2 → m1 = m2;
  memberships_role :
    ∀ m, m ∈ group_memberships d →
      GroupMembership.IsMember m || GroupMembership.IsAdmin m = true;
}.

(** *** The balance a participant had before a transaction *)

(** The balance of [user] that the log entry [l] records. *)
Definition balance_in (l : TransactionLogEntry.t) (user : User.t) : Z :=
  if decide (TransactionLogEntry.SenderId l = User.Id user)
  then TransactionLogEntry.NewBalanceSender l
  else TransactionLogEntry.NewBalanceReceiver l.

(** [b] is the prior balance of [user] in [group]: what a most recent
    log entry of the user in the group records, or 0 when the user has
    no entry in the group. *)
Definition prior_balance (d : DB) (group : Group.t) (user : User.t)
    (b : Z) : Prop :=
  (b = 0
   ∧ ∀ l, l ∈ transaction_log_entries d → entry_of group user l = false)
  ∨ ∃ l, l ∈ transaction_log_entries d
      ∧ entry_of group user l = true
      ∧ (∀ l', l' ∈ transaction_log_entries d →
           entry_of group user l' = true →
           TransactionLogEntry.Created l' ≤ TransactionLogEntry.Created l)
      ∧ b = balance_in l user.

End db.

(** ** Sample data *)

(** Stand-ins for the external functions and a small database, to run the
    embedded functions on. *)
Module sample.

(** A stand-in where the "hash" of a password or token is its bytes and
    the valid one-time code is the secret itself. *)
Definition externals : Externals :=
  {| bcrypt_CompareHashAndPassword := λ hash password,
       bool_decide (hash = password);
     totp_Validate := λ _ passcode secret, bool_decide (passcode = secret);
     ParseEmailTemplate := λ _ name content, Some (name +:+ ", " +:+ content);
     HashToken := String.list_byte_of_string |}.

Definition cfg : Config :=
  {| EmailEnabled := true; DomainName := "hbank.example" |}.

Definition ann : User.t :=
  {| User.Id := 1%N; User.Name := "Ann"; User.Email := "a@x.com";
     User.PasswordHash := String.list_byte_of_string "pw1";
     User.ProfilePictureId := 100%N;
     User.EmailConfirmed := false; User.TwoFaOTPEnabled := false;
     User.OtpSecret := ""; User.OtpQrCode := [] |}.

(** the database right after Ann registered *)
Definition registered : services.DB :=
  {| services.users := [ann]; services.email_codes := [];
     services.login_tokens := [];
     services.confirm_email_last_sents := [] |}.

(** a database without accounts *)
Definition empty : services.DB :=
  {| services.users := []; services.email_codes := [];
     services.login_tokens := [];
     services.confirm_email_last_sents := [] |}.

(** a reader of crypto/rand that always delivers [n] *)
Definition constant (n : N) : Entropy := λ _, Some n.

(** 2026-01-01T00:00:00Z in milliseconds *)
Definition t0 : Z := 1767225600000.

Definition at_time (t : Z) : services.Clock :=
  {| services.t_first := t; services.t_update := t;
     services.t_issue := t |}.

(** the database after Ann asked for a confirmation code at [t0] *)
Definition code_row : EmailCode.t :=
  {| EmailCode.Id := 60%N; EmailCode.Code := "AAAAAA";
     EmailCode.ExpirationTime := t0 + 300000;
     EmailCode.UserId := Some 1%N |}.

Definition marker_row : ConfirmEmailLastSent.t :=
  {| ConfirmEmailLastSent.Id := 50%N;
     ConfirmEmailLastSent.Email := "a@x.com";
     ConfirmEmailLastSent.LastSent := t0 |}.

Definition pending : services.DB :=
  {| services.users := [ann]; services.email_codes := [code_row];
     services.login_tokens := [];
     services.confirm_email_last_sents := [marker_row] |}.

(** a [totp.Generate] that always hands out the same key *)
Definition generated : string → string → option services.OtpKey :=
  λ _ _, Some {| services.Secret := "JBSWY3DPEHPK3PXP";
                 services.Image :=
                   Some [Byte.x89; Byte.x50; Byte.x4e; Byte.x47] |}.

(** Ann with the second factor enabled *)
Definition ann_2fa : User.t :=
  User.with_otp true "JBSWY3DPEHPK3PXP"
    [Byte.x89; Byte.x50; Byte.x4e; Byte.x47] ann.

Definition enrolled : services.DB :=
  {| services.users := [ann_2fa]; services.email_codes := [];
     services.login_tokens := [];
     services.confirm_email_last_sents := [] |}.

(** the store of the handlers, with a 2FA token of Ann that expires at
    [t0] (in seconds) *)
Definition token_row : TwoFAToken.t :=
  {| TwoFAToken.Id := 80%N;
     TwoFAToken.CodeHash := String.list_byte_of_string "tok";
     TwoFAToken.ExpirationTime := 1767225600;
     TwoFAToken.UserId := 1%N |}.

Definition store : handlers.Store :=
  {| handlers.users := [ann]; handlers.two_fa_tokens := [token_row] |}.

Definition delete_body : handlers.DeleteUserBody :=
  {| handlers.Password := "pw1"; handlers.TwoFAToken := "tok" |}.

(** a group with an admin, Ann, and a plain member, Bob; the bank has
    paid Ann 500 *)
Definition bob : User.t :=
  {| User.Id := 2%N; User.Name := "Bob"; User.Email := "b@x.com";
     User.PasswordHash := String.list_byte_of_string "pw2";
     User.ProfilePictureId := 101%N;
     User.EmailConfirmed := true; User.TwoFaOTPEnabled := false;
     User.OtpSecret := ""; User.OtpQrCode := [] |}.

Definition family : Group.t :=
  {| Group.Id := 7%N; Group.Name := "Family"; Group.Description := "";
     Group.GroupPictureId := 102%N |}.

Definition ann_membership : GroupMembership.t :=
  {| GroupMembership.Id := 30%N; GroupMembership.GroupName := "Family";
     GroupMembership.GroupId := 7%N; GroupMembership.UserName := "Ann";
     GroupMembership.UserId := 1%N; GroupMembership.IsMember := true;
     GroupMembership.IsAdmin := true |}.

Definition bob_membership : GroupMembership.t :=
  {| GroupMembership.Id := 31%N; GroupMembership.GroupName := "Family";
     GroupMembership.GroupId := 7%N; GroupMembership.UserName := "Bob";
     GroupMembership.UserId := 2%N; GroupMembership.IsMember := true;
     GroupMembership.IsAdmin := false |}.

Definition allowance : TransactionLogEntry.t :=
  {| TransactionLogEntry.Id := 40%N;
     TransactionLogEntry.Created := 1767225600;
     TransactionLogEntry.Title := "Allowance";
     TransactionLogEntry.Description := "";
     TransactionLogEntry.Amount := 500;
     TransactionLogEntry.GroupId := 7%N;
     TransactionLogEntry.SenderIsBank := true;
     TransactionLogEntry.SenderId := uuid_zero;
     TransactionLogEntry.NewBalanceSender := 0;
     TransactionLogEntry.BalanceDifferenceSender := -500;
     TransactionLogEntry.ReceiverIsBank := false;
     TransactionLogEntry.ReceiverId := 1%N;
     TransactionLogEntry.NewBalanceReceiver := 500;
     TransactionLogEntry.BalanceDifferenceReceiver := 500;
     TransactionLogEntry.PaymentPlanId := uuid_zero |}.

Definition ledger : db.DB :=
  {| db.group_memberships := [ann_membership; bob_membership];
     db.payment_plans := [];
     db.transaction_log_entries := [allowance] |}.

(** Carl has an account and no record in the group *)
Definition carl : User.t :=
  {| User.Id := 3%N; User.Name := "Carl"; User.Email := "c@x.com";
     User.PasswordHash := String.list_byte_of_string "pw3";
     User.ProfilePictureId := 103%N;
     User.EmailConfirmed := true; User.TwoFaOTPEnabled := false;
     User.OtpSecret := ""; User.OtpQrCode := [] |}.

(** a weekly payment of 50 from Ann to Bob, and the ledger after its
    first run *)
Definition weekly : PaymentPlan.t :=
  {| PaymentPlan.Id := 90%N; PaymentPlan.Name := "Weekly";
     PaymentPlan.Description := ""; PaymentPlan.Amount := 50;
     PaymentPlan.PaymentCount := 10;
     PaymentPlan.NextExecute := 1767830400;
     PaymentPlan.Schedule := 1; PaymentPlan.ScheduleUnit := "week";
     PaymentPlan.SenderIsBank := false; PaymentPlan.SenderId := 1%N;
     PaymentPlan.ReceiverIsBank := false; PaymentPlan.ReceiverId := 2%N;
     PaymentPlan.GroupId := 7%N |}.

Definition weekly_payment : TransactionLogEntry.t :=
  {| TransactionLogEntry.Id := 41%N;
     TransactionLogEntry.Created := 1767225700;
     TransactionLogEntry.Title := "Weekly";
     TransactionLogEntry.Description := "";
     TransactionLogEntry.Amount := 50;
     TransactionLogEntry.GroupId := 7%N;
     TransactionLogEntry.SenderIsBank := false;
     TransactionLogEntry.SenderId := 1%N;
     TransactionLogEntry.NewBalanceSender := 450;
     TransactionLogEntry.BalanceDifferenceSender := -50;
     TransactionLogEntry.ReceiverIsBank := false;
     TransactionLogEntry.ReceiverId := 2%N;
     TransactionLogEntry.NewBalanceReceiver := 50;
     TransactionLogEntry.BalanceDifferenceReceiver := 50;
     TransactionLogEntry.PaymentPlanId := 90%N |}.

Definition planned : db.DB :=
  {| db.group_memberships := [ann_membership; bob_membership];
     db.payment_plans := [weekly];
     db.transaction_log_entries := [allowance; weekly_payment] |}.

(** a [bcrypt.GenerateFromPassword] to go with [externals] *)
Definition hash_as_bytes : list Byte.byte → Z → option (list Byte.byte) :=
  λ password _, Some password.

(** the keys of the recovery codes of a new user *)
Definition recovery_key : nat → UUID := λ i, (200 + N.of_nat i)%N.

End sample.

(** * Proofs *)

(** ** Facts about the GORM statements *)

Section TableFacts.
Context {T : Type} (pk : T → UUID).
Implicit Types (rows : list T) (cond : T → bool) (before : T → T → bool).

Lemma first_by_Some before cond rows r :
  gorm.first_by before cond rows = Some r → r ∈ rows ∧ cond r = true.
Proof.
  revert r. induction rows as [|x rows IH]; intros r; simpl; [done|].
  destruct (cond x) eqn:Hx.
  - destruct (gorm.first_by before cond rows) as [r'|] eqn:Hrest.
    + destruct (IH r' eq_refl) as [Hin Hc].
      destruct (before r' x); intros [= <-]; split; auto; constructor; auto.
    + intros [= <-]. split; [constructor | done].
  - intros Hr. destruct (IH r Hr). split; [by constructor | done].
Qed.

Lemma first_by_None before cond rows :
  gorm.first_by before cond rows = None ↔ ∀ r, r ∈ rows → cond r = false.
Proof.
  induction rows as [|x rows IH]; simpl.
  - split; [intros _ r Hr; by apply elem_of_nil in Hr | done].
  - destruct (cond x) eqn:Hx.
    + split.
      * destruct (gorm.first_by before cond rows) as [r'|]; [|done].
        by destruct (before r' x).
      * intros Hall. specialize (Hall x (list_elem_of_here _ _)). congruence.
    + rewrite IH. split.
      * intros Hall r [->|Hr]%elem_of_cons; auto.
      * intros Hall r Hr. apply Hall. by constructor.
Qed.

Lemma first_by_fmap before cond (f : T → T) rows :
  (∀ r, r ∈ rows → cond (f r) = cond r) →
  (∀ a b, a ∈ rows → b ∈ rows → before (f a) (f b) = before a b) →
  gorm.first_by before cond (f <$> rows)
  = f <$> gorm.first_by before cond rows.
Proof.
  induction rows as [|x rows IH]; intros Hc Hb; csimpl; [done|].
  rewrite Hc by constructor.
  rewrite IH.
  2:{ intros r Hr. apply Hc. by constructor. }
  2:{ intros a b Ha Hb'. apply Hb; by constructor. }
  destruct (cond x); [|done].
  destruct (gorm.first_by before cond rows) as [r'|] eqn:E; simpl; [|done].
  apply first_by_Some in E as [Hin _].
  rewrite Hb; [|by constructor|constructor].
  by destruct (before r' x).
Qed.

Lemma first_by_filter before cond (P : T → Prop) `{∀ r, Decision (P r)}
    rows :
  (∀ r, r ∈ rows → cond r = true → P r) →
  gorm.first_by before cond (filter P rows)
  = gorm.first_by before cond rows.
Proof.
  induction rows as [|x rows IH]; intros Hall; simpl; [done|].
  assert (IH' := IH (λ r Hr, Hall r (list_elem_of_further _ _ _ Hr))).
  rewrite filter_cons. destruct (decide (P x)) as [HP|HP]; simpl.
  - by rewrite IH'.
  - destruct (cond x) eqn:Hx; [|done].
    exfalso. apply HP, Hall; [constructor | done].
Qed.

Lemma first_by_filter_None before cond (P : T → Prop)
    `{∀ r, Decision (P r)} rows :
  (∀ r, r ∈ rows → cond r = true → ¬ P r) →
  gorm.first_by before cond (filter P rows) = None.
Proof.
  intros Hall. apply first_by_None. intros r [HP Hr]%list_elem_of_filter.
  destruct (cond r) eqn:Hc; [|done]. by destruct (Hall r Hr Hc).
Qed.

(** The row [ORDER BY key DESC] puts first has the greatest key. *)
Lemma first_by_greatest (key : T → Z) before cond rows r :
  (∀ a b, before a b = true → key b ≤ key a) →
  (∀ a b, before a b = false → key a ≤ key b) →
  gorm.first_by before cond rows = Some r →
  ∀ r', r' ∈ rows → cond r' = true → key r' ≤ key r.
Proof.
  intros Ht Hf. revert r.
  induction rows as [|x rows IH]; intros r; simpl; [done|].
  destruct (cond x) eqn:Hx.
  - destruct (gorm.first_by before cond rows) as [r0|] eqn:E.
    + specialize (IH r0 eq_refl).
      destruct (before r0 x) eqn:Hb; intros [= <-] r' Hin Hc;
        apply elem_of_cons in Hin as [->|Hin].
      * by apply Ht.
      * by apply IH.
      * lia.
      * specialize (IH r' Hin Hc). apply Hf in Hb. lia.
    + intros [= <-] r' Hin Hc. apply elem_of_cons in Hin as [->|Hin]; [lia|].
      rewrite first_by_None in E. specialize (E r' Hin). congruence.
  - intros Hr r' Hin Hc. apply elem_of_cons in Hin as [->|Hin];
      [congruence | by eapply IH].
Qed.

Lemma First_Some cond rows r :
  gorm.First pk cond rows = Some r → r ∈ rows ∧ cond r = true.
Proof. apply first_by_Some. Qed.

Lemma First_None cond rows :
  gorm.First pk cond rows = None ↔ ∀ r, r ∈ rows → cond r = false.
Proof. apply first_by_None. Qed.

Lemma Delete_subseteq id rows r : r ∈ gorm.Delete pk id rows → r ∈ rows.
Proof.
  unfold gorm.Delete. case_decide; [done|].
  by intros [_ ?]%list_elem_of_filter.
Qed.

Lemma Delete_gone id rows r :
  id ≠ uuid_zero → r ∈ gorm.Delete pk id rows → pk r ≠ id.
Proof.
  intros Hid. unfold gorm.Delete. case_decide; [done|].
  by intros [? _]%list_elem_of_filter.
Qed.

Lemma First_Delete_None cond id rows :
  id ≠ uuid_zero →
  (∀ r, r ∈ rows → cond r = true → pk r = id) →
  gorm.First pk cond (gorm.Delete pk id rows) = None.
Proof.
  intros Hid Hall. unfold gorm.Delete, gorm.First. case_decide; [done|].
  apply first_by_filter_None. intros r Hr Hc Hne. by apply Hne, Hall.
Qed.

Lemma First_Delete_other cond id rows :
  (∀ r, r ∈ rows → cond r = true → pk r ≠ id) →
  gorm.First pk cond (gorm.Delete pk id rows) = gorm.First pk cond rows.
Proof.
  intros Hall. unfold gorm.Delete, gorm.First. case_decide; [done|].
  by apply first_by_filter.
Qed.

Lemma First_Updates cond id (set : T → T) rows :
  id ≠ uuid_zero →
  (∀ r, pk (set r) = pk r) →
  (∀ r, r ∈ rows → pk r = id → cond (set r) = cond r) →
  gorm.First pk cond (gorm.Updates pk id set rows)
  = (λ r, if decide (pk r = id) then set r else r)
      <$> gorm.First pk cond rows.
Proof.
  intros Hid Hpk Hc. unfold gorm.Updates, gorm.First.
  case_decide; [done|].
  apply first_by_fmap.
  - intros r Hr. case_decide; [by apply Hc | done].
  - intros a b _ _. by repeat case_decide; rewrite ?Hpk.
Qed.

End TableFacts.

Section KeyFacts.
Context {T : Type} (pk : T → UUID).

Lemma primary_key_nonzero (rows : list T) r :
  gorm.primary_key pk rows → r ∈ rows → pk r ≠ uuid_zero.
Proof.
  intros [_ Hz] Hr Heq. apply Hz. rewrite <- Heq.
  by apply list_elem_of_fmap_2.
Qed.

Lemma primary_key_inj (rows : list T) r1 r2 :
  gorm.primary_key pk rows → r1 ∈ rows → r2 ∈ rows → pk r1 = pk r2 →
  r1 = r2.
Proof.
  intros [Hnd _]. induction rows as [|x rows IH]; csimpl in *.
  - by intros ?%elem_of_nil.
  - pose proof (NoDup_cons_1_1 _ _ Hnd) as Hx.
    apply NoDup_cons_1_2 in Hnd.
    intros [->|H1]%elem_of_cons [->|H2]%elem_of_cons Heq; auto.
    + destruct Hx. rewrite Heq. by apply list_elem_of_fmap_2.
    + destruct Hx. rewrite <- Heq. by apply list_elem_of_fmap_2.
Qed.

Lemma First_snoc_hit (cond : T → bool) (rows : list T) x :
  gorm.First pk cond rows = None → cond x = true →
  gorm.First pk cond (rows ++ [x]) = Some x.
Proof.
  unfold gorm.First. intros Hnone Hx.
  induction rows as [|y rows IH]; simpl in *; [by rewrite Hx|].
  destruct (cond y); [|by apply IH].
  destruct (gorm.first_by _ cond rows) as [r'|]; [|done].
  by destruct (pk r' <? pk y)%N.
Qed.
End KeyFacts.

(** ** Go arithmetic without overflow *)

Lemma wrap64_id z : Go.is_int64 z → Go.wrap64 z = z.
Proof.
  unfold Go.is_int64, Go.int64_min, Go.int64_max, Go.wrap64. intros Hz.
  rewrite Z.mod_small; lia.
Qed.

Lemma sub_times a b :
  services.is_time a → services.is_time b → Go.sub a b = a - b.
Proof.
  unfold services.is_time, Go.int64_max. intros Ha Hb.
  apply wrap64_id. unfold Go.is_int64, Go.int64_min, Go.int64_max. lia.
Qed.

(** ** The services *)

Section ServicesFacts.
Import services.
Context `{Externals}.

Lemma user_by_email_Some d email u :
  user_by_email d email = Some u → u ∈ users d ∧ User.Email u = email.
Proof.
  intros [Hin Hc]%First_Some. by apply bool_decide_eq_true in Hc.
Qed.

Lemma email_code_row_Some d u c :
  email_code_row d u = Some c →
  c ∈ email_codes d ∧ EmailCode.UserId c = Some (User.Id u).
Proof.
  intros [Hin Hc]%First_Some. by apply bool_decide_eq_true in Hc.
Qed.

(** Once the row the join found is deleted, the user has no code left. *)
Lemma email_code_row_Delete d u c users' :
  consistent d → email_code_row d u = Some c →
  email_code_row
    {| users := users';
       email_codes :=
         gorm.Delete EmailCode.Id (EmailCode.Id c) (email_codes d);
       login_tokens := login_tokens d;
       confirm_email_last_sents := confirm_email_last_sents d |} u = None
  ∧ c ∉ gorm.Delete EmailCode.Id (EmailCode.Id c) (email_codes d).
Proof.
  intros Hd [Hin Hu]%email_code_row_Some.
  assert (EmailCode.Id c ≠ uuid_zero) as Hnz
    by (eapply primary_key_nonzero; [apply Hd | done]).
  split.
  - apply First_Delete_None; [done|]. intros c' Hin' Hc'.
    apply bool_decide_eq_true in Hc'.
    by apply (email_codes_has_one d Hd c' c (User.Id u)).
  - intros Hc. by apply Delete_gone in Hc.
Qed.

Lemma user_by_email_Updates d email u (set : User.t → User.t) :
  User.Id u ≠ uuid_zero → user_by_email d email = Some u →
  (∀ r, User.Id (set r) = User.Id r) →
  (∀ r, User.Email (set r) = User.Email r) →
  gorm.First User.Id (λ u, bool_decide (User.Email u = email))
    (gorm.Updates User.Id (User.Id u) set (users d)) = Some (set u).
Proof.
  intros Hnz Hu Hid Hem. rewrite First_Updates; [| done | done |].
  - unfold user_by_email in Hu. rewrite Hu. simpl. by rewrite decide_True.
  - intros r _ _. by rewrite Hem.
Qed.

(** *** VerifyConfirmEmailCode, case by case *)

Lemma VerifyConfirmEmailCode_valid d now email u c :
  user_by_email d email = Some u → email_code_row d u = Some c →
  now < EmailCode.ExpirationTime c →
  VerifyConfirmEmailCode now d email (EmailCode.Code c)
  = (true,
     {| users := gorm.Updates User.Id (User.Id u)
                   (User.with_EmailConfirmed true) (users d);
        email_codes :=
          gorm.Delete EmailCode.Id (EmailCode.Id c) (email_codes d);
        login_tokens := login_tokens d;
        confirm_email_last_sents := confirm_email_last_sents d |}).
Proof.
  intros Hu Hc Hexp. unfold VerifyConfirmEmailCode.
  rewrite Hu. unfold joined_EmailCode. rewrite Hc. simpl.
  rewrite bool_decide_eq_true_2 by done.
  by rewrite (proj2 (Z.gtb_gt _ _)) by lia.
Qed.

Lemma VerifyConfirmEmailCode_expired d now email u c :
  user_by_email d email = Some u → email_code_row d u = Some c →
  EmailCode.ExpirationTime c ≤ now →
  VerifyConfirmEmailCode now d email (EmailCode.Code c)
  = (false,
     {| users := users d;
        email_codes :=
          gorm.Delete EmailCode.Id (EmailCode.Id c) (email_codes d);
        login_tokens := login_tokens d;
        confirm_email_last_sents := confirm_email_last_sents d |}).
Proof.
  intros Hu Hc Hexp. unfold VerifyConfirmEmailCode.
  rewrite Hu. unfold joined_EmailCode. rewrite Hc. simpl.
  rewrite bool_decide_eq_true_2 by done.
  destruct (EmailCode.ExpirationTime c >? now) eqn:E; [|done].
  apply Z.gtb_gt in E. lia.
Qed.

Lemma VerifyConfirmEmailCode_mismatch d now email code u c :
  user_by_email d email = Some u → email_code_row d u = Some c →
  EmailCode.Code c ≠ code →
  VerifyConfirmEmailCode now d email code = (false, d).
Proof.
  intros Hu Hc Hcode. unfold VerifyConfirmEmailCode.
  rewrite Hu. unfold joined_EmailCode. rewrite Hc. simpl.
  by rewrite bool_decide_eq_false_2.
Qed.

(** A user without a code row cannot be confirmed, whatever is
    presented, once the clock is past its origin. *)
Lemma VerifyConfirmEmailCode_no_code d now email code u :
  user_by_email d email = Some u → email_code_row d u = None →
  0 ≤ now →
  VerifyConfirmEmailCode now d email code = (false, d).
Proof.
  intros Hu Hc Hnow. unfold VerifyConfirmEmailCode.
  rewrite Hu. unfold joined_EmailCode. rewrite Hc. simpl.
  case_bool_decide; [|done].
  destruct (0 >? now) eqn:E; [apply Z.gtb_gt in E; lia|].
  unfold gorm.Delete. simpl. by destruct d.
Qed.

(** C1.  For a user with an outstanding confirmation code,
    [VerifyConfirmEmailCode] does one of three things: the presented
    code matches and is not expired: the account is marked confirmed,
    the code is deleted, the answer is [true]; the presented code matches
    but is expired: the code is deleted, the account is left as it was,
    the answer is [false]; the presented code does not match: nothing is
    changed, the answer is [false]. *)
Theorem VerifyConfirmEmailCode_three_ways
    (d : DB) (now : Z) (email code : string) (u : User.t)
    (c : EmailCode.t) :
  consistent d →
  user_by_email d email = Some u →
  email_code_row d u = Some c →
  let r := VerifyConfirmEmailCode now d email code in
  (EmailCode.Code c = code ∧ now < EmailCode.ExpirationTime c →
     r.1 = true
     ∧ user_by_email r.2 email = Some (User.with_EmailConfirmed true u)
     ∧ email_code_row r.2 u = None ∧ c ∉ email_codes r.2)
  ∧ (EmailCode.Code c = code ∧ EmailCode.ExpirationTime c ≤ now →
     r.1 = false ∧ users r.2 = users d
     ∧ email_code_row r.2 u = None ∧ c ∉ email_codes r.2)
  ∧ (EmailCode.Code c ≠ code → r = (false, d)).
Proof.
  intros Hd Hu Hc r. subst r. split; [|split].
  - intros [<- Hexp]. rewrite (VerifyConfirmEmailCode_valid d now email u c)
      by done. simpl.
    split; [done|]. split; [|by apply (email_code_row_Delete d u c)].
    apply user_by_email_Updates; [|done..].
    apply user_by_email_Some in Hu as [Hin _].
    eapply primary_key_nonzero; [apply Hd | done].
  - intros [<- Hexp].
    rewrite (VerifyConfirmEmailCode_expired d now email u c) by done.
    simpl. split; [done|]. split; [done|].
    by apply (email_code_row_Delete d u c).
  - intros Hcode. by eapply VerifyConfirmEmailCode_mismatch.
Qed.

End ServicesFacts.

(** ** The handlers *)

Section HandlersFacts.
Import handlers.
Context `{Externals}.

Lemma GetTwoFATokenByCode_Some s user code t :
  GetTwoFATokenByCode s user code = Some t →
  t ∈ two_fa_tokens s ∧ TwoFAToken.UserId t = User.Id user
  ∧ TwoFAToken.CodeHash t = HashToken code.
Proof.
  intros [Hin Hc]%First_Some. apply andb_true_iff in Hc as [H1 H2].
  apply bool_decide_eq_true in H1, H2. done.
Qed.

(** The token the handler found cannot be found again after
    [DeleteTwoFAToken]. *)
Lemma GetTwoFATokenByCode_deleted s user code t :
  consistent s → GetTwoFATokenByCode s user code = Some t →
  GetTwoFATokenByCode (DeleteTwoFAToken s t) user code = None.
Proof.
  intros Hs (Hin & Hu & Hh)%GetTwoFATokenByCode_Some.
  unfold GetTwoFATokenByCode, DeleteTwoFAToken. simpl.
  apply First_Delete_None.
  - eapply primary_key_nonzero; [apply Hs | done].
  - intros t' Hin' Hc. apply andb_true_iff in Hc as [H1 H2].
    apply bool_decide_eq_true in H1, H2.
    apply (two_fa_tokens_distinct s Hs); congruence.
Qed.

Lemma DeleteUser_expired_token now s userId body user t :
  GetById s userId = Some user →
  bcrypt_CompareHashAndPassword (User.PasswordHash user)
    (String.list_byte_of_string (Password body)) = true →
  GetTwoFATokenByCode s user (TwoFAToken body) = Some t →
  TwoFAToken.ExpirationTime t < now →
  DeleteUser now s userId (Some body)
  = (JSON StatusForbidden NewInvalidCredentials, DeleteTwoFAToken s t).
Proof.
  intros Hu Hpw Ht Hexp. unfold DeleteUser. rewrite Hu, Hpw, Ht. simpl.
  by rewrite (proj2 (Z.ltb_lt _ _)).
Qed.

Lemma DeleteUser_unknown_token now s userId body user :
  GetById s userId = Some user →
  GetTwoFATokenByCode s user (TwoFAToken body) = None →
  DeleteUser now s userId (Some body)
  = (JSON StatusForbidden NewInvalidCredentials, s).
Proof.
  intros Hu Ht. unfold DeleteUser. rewrite Hu, Ht.
  by destruct (negb _).
Qed.

End HandlersFacts.

Section Expiry.
Context `{Externals}.

(** C5.  A code or token that is presented after its expiration time
    has passed, and matches, is refused and removed, so that presenting
    the same value again is refused too: for the email confirmation
    code in [VerifyConfirmEmailCode], and for the 2FA token in the
    [DeleteUser] handler (once the request has passed the password
    check that precedes the token). *)
Theorem expired_credential_refused_and_removed :
  (∀ (d : services.DB) (now : Z) (email : string) (u : User.t)
     (c : EmailCode.t),
     services.consistent d →
     services.user_by_email d email = Some u →
     services.email_code_row d u = Some c →
     EmailCode.ExpirationTime c < now →
     let r :=
       services.VerifyConfirmEmailCode now d email (EmailCode.Code c) in
     r.1 = false
     ∧ services.email_code_row r.2 u = None
     ∧ (c ∉ services.email_codes r.2)
     ∧ ∀ later, 0 ≤ later →
         fst (services.VerifyConfirmEmailCode later r.2 email
                (EmailCode.Code c)) = false)
  ∧ (∀ (s : handlers.Store) (now : Z) (userId : UUID)
       (body : handlers.DeleteUserBody) (user : User.t) (t : TwoFAToken.t),
     handlers.consistent s →
     handlers.GetById s userId = Some user →
     bcrypt_CompareHashAndPassword (User.PasswordHash user)
       (String.list_byte_of_string (handlers.Password body)) = true →
     handlers.GetTwoFATokenByCode s user (handlers.TwoFAToken body)
     = Some t →
     TwoFAToken.ExpirationTime t < now →
     let r := handlers.DeleteUser now s userId (Some body) in
     r.1 = handlers.JSON handlers.StatusForbidden
             handlers.NewInvalidCredentials
     ∧ handlers.users r.2 = handlers.users s
     ∧ handlers.GetTwoFATokenByCode r.2 user (handlers.TwoFAToken body)
       = None
     ∧ (t ∉ handlers.two_fa_tokens r.2)
     ∧ ∀ later,
         fst (handlers.DeleteUser later r.2 userId (Some body))
         = handlers.JSON handlers.StatusForbidden
             handlers.NewInvalidCredentials).
Proof.
  split.
  - intros d now email u c Hd Hu Hc Hexp r. subst r.
    rewrite (VerifyConfirmEmailCode_expired d now email u c) by (done || lia).
    simpl.
    destruct (email_code_row_Delete d u c (services.users d) Hd Hc)
      as [Hnone Hgone].
    split; [done|]. split; [done|]. split; [done|].
    intros later Hlater.
    by rewrite (VerifyConfirmEmailCode_no_code _ later email _ u).
  - intros s now userId body user t Hs Hu Hpw Ht Hexp r. subst r.
    rewrite (DeleteUser_expired_token now s userId body user t) by done.
    simpl.
    pose proof (GetTwoFATokenByCode_deleted s user _ t Hs Ht) as Hnone.
    split; [done|]. split; [done|]. split; [done|]. split.
    + intros Hin. apply Delete_gone in Hin; [done|].
      apply GetTwoFATokenByCode_Some in Ht as (Hin' & _).
      eapply primary_key_nonzero; [apply Hs | done].
    + intros later.
      by rewrite (DeleteUser_unknown_token later _ userId body user).
Qed.

End Expiry.

(** ** The rate limit of SendConfirmEmail *)

Section RateLimit.
Import services.
Context `{Externals}.

Lemma last_sent_by_email_Some d email row :
  last_sent_by_email d email = Some row →
  row ∈ confirm_email_last_sents d ∧ ConfirmEmailLastSent.Email row = email.
Proof.
  intros [Hin Hc]%First_Some. by apply bool_decide_eq_true in Hc.
Qed.

(** The marker is refused only for the rate limit. *)
Lemma mark_last_sent_Err clk markerId d email e :
  mark_last_sent clk markerId d email = Err e →
  e = ErrTimeout
  ∧ ∃ row, last_sent_by_email d email = Some row
      ∧ Go.sub (t_first clk) (ConfirmEmailLastSent.LastSent row)
        < confirmEmailTimeout.
Proof.
  unfold mark_last_sent.
  destruct (last_sent_by_email d email) as [row|]; [|done].
  destruct (_ <? _) eqn:E; [|done].
  intros [= <-]. split; [done|]. exists row. split; [done|]. lia.
Qed.

Lemma mark_last_sent_limited clk markerId d email row :
  last_sent_by_email d email = Some row →
  Go.sub (t_first clk) (ConfirmEmailLastSent.LastSent row)
  < confirmEmailTimeout →
  mark_last_sent clk markerId d email = Err ErrTimeout.
Proof.
  intros Hrow Hlt. unfold mark_last_sent. rewrite Hrow.
  by rewrite (proj2 (Z.ltb_lt _ _)).
Qed.

Lemma mark_last_sent_passes clk markerId d email row :
  last_sent_by_email d email = Some row →
  confirmEmailTimeout
  ≤ Go.sub (t_first clk) (ConfirmEmailLastSent.LastSent row) →
  ∃ d', mark_last_sent clk markerId d email = Ok d'.
Proof.
  intros Hrow Hge. unfold mark_last_sent. rewrite Hrow.
  destruct (_ <? _) eqn:E; [apply Z.ltb_lt in E; lia|]. eauto.
Qed.

(** When the marker is accepted, only its table changes, and the marker
    of the address then holds a reading of the clock of this call. *)
Lemma mark_last_sent_Ok clk markerId d email d' :
  gorm.primary_key ConfirmEmailLastSent.Id (confirm_email_last_sents d) →
  clock_ok clk →
  mark_last_sent clk markerId d email = Ok d' →
  users d' = users d ∧ email_codes d' = email_codes d
  ∧ login_tokens d' = login_tokens d
  ∧ ∃ sent, (sent = t_first clk ∨ sent = t_update clk)
      ∧ ConfirmEmailLastSent.LastSent <$> last_sent_by_email d' email
        = Some sent.
Proof.
  intros Hpk (Hfirst & Hupdate & _). unfold mark_last_sent.
  destruct (last_sent_by_email d email) as [row|] eqn:Hrow.
  - destruct (_ <? _); [done|]. intros [= <-]. simpl.
    do 3 (split; [done|]). exists (t_update clk). split; [by right|].
    pose proof Hrow as [Hin Hem]%last_sent_by_email_Some.
    assert (ConfirmEmailLastSent.Id row ≠ uuid_zero) as Hnz
      by by eapply primary_key_nonzero.
    unfold last_sent_by_email. simpl.
    rewrite First_Updates; [| done | done |].
    + unfold last_sent_by_email in Hrow. rewrite Hrow. simpl.
      rewrite decide_True by done. simpl.
      rewrite decide_False; [done|]. unfold is_time in Hupdate. lia.
    + intros r Hr Hid. simpl.
      assert (r = row) as -> by by eapply primary_key_inj.
      by destruct (decide (ConfirmEmailLastSent.Email row = "")).
  - intros [= <-]. simpl. do 3 (split; [done|]).
    exists (t_first clk). split; [by left|].
    unfold last_sent_by_email, gorm.Create. simpl.
    rewrite (First_snoc_hit ConfirmEmailLastSent.Id); [done | done |].
    by apply bool_decide_eq_true_2.
Qed.

(** The marker table after an accepted marker does not depend on the
    other tables. *)
Lemma mark_last_sent_table clk markerId d1 d2 email d1' d2' :
  confirm_email_last_sents d1 = confirm_email_last_sents d2 →
  mark_last_sent clk markerId d1 email = Ok d1' →
  mark_last_sent clk markerId d2 email = Ok d2' →
  confirm_email_last_sents d1' = confirm_email_last_sents d2'.
Proof.
  unfold mark_last_sent, last_sent_by_email. intros ->.
  destruct (gorm.First _ _ _) as [row|].
  - destruct (_ <? _); [done|]. by intros [= <-] [= <-].
  - by intros [= <-] [= <-].
Qed.

Lemma generateRandomString_Err rnd pos length e :
  generateRandomString rnd pos length = Err e → e = ErrRandRead.
Proof.
  revert pos. induction length as [|n IH]; intros pos; simpl; [done|].
  unfold rand_Int. destruct (rnd pos); [|by intros [= <-]].
  destruct (generateRandomString rnd (S pos) n) eqn:E; [done|].
  intros [= <-]. by eapply IH.
Qed.

(** What [SendConfirmEmail] answers and leaves behind once the marker
    is accepted: never the rate limit, and the marker table of the
    first block. *)
Lemma SendConfirmEmail_marked cfg clk rnd markerId codeId d email d' :
  mark_last_sent clk markerId d email = Ok d' →
  let r := SendConfirmEmail cfg clk rnd markerId codeId d email in
  r.1.1 ≠ Some ErrTimeout
  ∧ confirm_email_last_sents r.1.2 = confirm_email_last_sents d'.
Proof.
  intros Hm r. subst r. unfold SendConfirmEmail. rewrite Hm.
  destruct (user_by_email d' email) as [user|]; [|done].
  destruct (negb _); [|done].
  destruct (generateRandomString rnd 0 6) as [code|e] eqn:Hgen.
  - destruct (EmailEnabled cfg); [|done].
    by destruct (ParseEmailTemplate _ _ _).
  - apply generateRandomString_Err in Hgen as ->. done.
Qed.

Lemma SendConfirmEmail_limited cfg clk rnd markerId codeId d email :
  mark_last_sent clk markerId d email = Err ErrTimeout →
  SendConfirmEmail cfg clk rnd markerId codeId d email
  = (Some ErrTimeout, d, []).
Proof. intros Hm. unfold SendConfirmEmail. by rewrite Hm. Qed.

(** A request that reads the clock less than two minutes after the
    time the marker holds is turned down and changes nothing. *)
Lemma SendConfirmEmail_again cfg clk rnd markerId codeId d email sent :
  ConfirmEmailLastSent.LastSent <$> last_sent_by_email d email = Some sent →
  is_time sent → clock_ok clk →
  let r := SendConfirmEmail cfg clk rnd markerId codeId d email in
  (t_first clk - sent < 2 * 60 * 1000 → r = (Some ErrTimeout, d, []))
  ∧ (2 * 60 * 1000 ≤ t_first clk - sent → r.1.1 ≠ Some ErrTimeout).
Proof.
  intros Hrow Hsent Hclk r.
  destruct (last_sent_by_email d email) as [row|] eqn:Hrow'; [|done].
  injection Hrow as Hrow.
  assert (Go.sub (t_first clk) (ConfirmEmailLastSent.LastSent row)
          = t_first clk - sent) as Hsub.
  { rewrite Hrow. apply sub_times; [apply Hclk | done]. }
  split.
  - intros Hlt. subst r. apply SendConfirmEmail_limited.
    eapply mark_last_sent_limited; [done|].
    rewrite Hsub. unfold confirmEmailTimeout, Go.time_Minute_Milliseconds.
    lia.
  - intros Hge.
    destruct (mark_last_sent_passes clk markerId d email row)
      as [d2 Hd2]; [done | |].
    { rewrite Hsub.
      unfold confirmEmailTimeout, Go.time_Minute_Milliseconds. lia. }
    by apply (SendConfirmEmail_marked cfg clk rnd markerId codeId d email d2).
Qed.

(** A request that is not turned down by the rate limit leaves the
    marker of the address at a reading of its clock. *)
Lemma SendConfirmEmail_marks cfg clk rnd markerId codeId d email :
  gorm.primary_key ConfirmEmailLastSent.Id (confirm_email_last_sents d) →
  clock_ok clk →
  let r := SendConfirmEmail cfg clk rnd markerId codeId d email in
  r.1.1 ≠ Some ErrTimeout →
  ∃ d1 sent, mark_last_sent clk markerId d email = Ok d1
    ∧ confirm_email_last_sents r.1.2 = confirm_email_last_sents d1
    ∧ (sent = t_first clk ∨ sent = t_update clk) ∧ is_time sent
    ∧ ConfirmEmailLastSent.LastSent <$> last_sent_by_email r.1.2 email
      = Some sent.
Proof.
  intros Hpk Hclk r Hr.
  destruct (mark_last_sent clk markerId d email) as [d1|e] eqn:Hm.
  2:{ destruct Hr. subst r. apply mark_last_sent_Err in Hm as Hm'.
      destruct Hm' as [-> _]. by rewrite SendConfirmEmail_limited. }
  destruct (SendConfirmEmail_marked cfg clk rnd markerId codeId d email d1 Hm)
    as [_ Htable]. fold r in Htable.
  destruct (mark_last_sent_Ok clk markerId d email d1 Hpk Hclk Hm)
    as (_ & _ & _ & sent & Hsent & Hrow).
  exists d1, sent. do 3 (split; [done|]). split.
  - destruct Hclk as (? & ? & ?). by destruct Hsent as [->| ->].
  - unfold last_sent_by_email. by rewrite Htable.
Qed.

(** C6.  After a request for a confirmation code that was not itself
    turned down by the rate limit, the marker of the address holds the
    time [sent] of that request; a further request whose clock reads
    less than two minutes after [sent] fails with [ErrTimeout], changes
    nothing and sends no mail, and a request two minutes after [sent]
    or later is not turned down by the rate limit. *)
Theorem SendConfirmEmail_rate_limit
    (cfg : Config) (clk : Clock) (rnd : Entropy) (markerId codeId : UUID)
    (d : DB) (email : string) :
  gorm.primary_key ConfirmEmailLastSent.Id (confirm_email_last_sents d) →
  clock_ok clk →
  let r := SendConfirmEmail cfg clk rnd markerId codeId d email in
  r.1.1 ≠ Some ErrTimeout →
  ∃ sent, (sent = t_first clk ∨ sent = t_update clk)
    ∧ ConfirmEmailLastSent.LastSent <$> last_sent_by_email r.1.2 email
      = Some sent
    ∧ ∀ cfg' clk' rnd' markerId' codeId', clock_ok clk' →
        let r' :=
          SendConfirmEmail cfg' clk' rnd' markerId' codeId' r.1.2 email in
        (t_first clk' - sent < 2 * 60 * 1000 →
           r' = (Some ErrTimeout, r.1.2, []))
        ∧ (2 * 60 * 1000 ≤ t_first clk' - sent →
           r'.1.1 ≠ Some ErrTimeout).
Proof.
  intros Hpk Hclk r Hr.
  destruct (SendConfirmEmail_marks cfg clk rnd markerId codeId d email
              Hpk Hclk Hr) as (d1 & sent & _ & _ & Hsent & Htime & Hrow).
  exists sent. do 2 (split; [done|]).
  intros cfg' clk' rnd' markerId' codeId' Hclk'.
  by apply SendConfirmEmail_again.
Qed.

(** C7.  A request for an address that no account has, when it is not
    turned down by the rate limit, answers [ErrNotFound] and sends
    nothing, yet leaves the marker table exactly as a successful request
    with the same clock would; a repeated request for the address less
    than two minutes later fails with [ErrTimeout], not with
    [ErrNotFound]. *)
Theorem SendConfirmEmail_unknown_email
    (cfg : Config) (clk : Clock) (rnd : Entropy) (markerId codeId : UUID)
    (d : DB) (email : string) :
  gorm.primary_key ConfirmEmailLastSent.Id (confirm_email_last_sents d) →
  clock_ok clk →
  user_by_email d email = None →
  let r := SendConfirmEmail cfg clk rnd markerId codeId d email in
  r.1.1 ≠ Some ErrTimeout →
  r.1.1 = Some ErrNotFound ∧ r.2 = []
  ∧ users r.1.2 = users d ∧ email_codes r.1.2 = email_codes d
  ∧ (∀ cfg' rnd' codeId' d',
       confirm_email_last_sents d' = confirm_email_last_sents d →
       let r' := SendConfirmEmail cfg' clk rnd' markerId codeId' d' email in
       r'.1.1 = None →
       confirm_email_last_sents r'.1.2 = confirm_email_last_sents r.1.2)
  ∧ ∃ sent, (sent = t_first clk ∨ sent = t_update clk)
      ∧ ConfirmEmailLastSent.LastSent <$> last_sent_by_email r.1.2 email
        = Some sent
      ∧ ∀ cfg' clk' rnd' markerId' codeId', clock_ok clk' →
          t_first clk' - sent < 2 * 60 * 1000 →
          SendConfirmEmail cfg' clk' rnd' markerId' codeId' r.1.2 email
          = (Some ErrTimeout, r.1.2, []).
Proof.
  intros Hpk Hclk Hu r Hr.
  destruct (SendConfirmEmail_marks cfg clk rnd markerId codeId d email
              Hpk Hclk Hr)
    as (d1 & sent & Hm & Htable & Hsent & Htime & Hrow).
  destruct (mark_last_sent_Ok clk markerId d email d1 Hpk Hclk Hm)
    as (Husers & Hcodes & _ & _).
  assert (SendConfirmEmail cfg clk rnd markerId codeId d email
          = (Some ErrNotFound, d1, [])) as Hres.
  { unfold SendConfirmEmail. rewrite Hm.
    unfold user_by_email in *. by rewrite Husers, Hu. }
  subst r. rewrite Hres in *. simpl in *.
  do 4 (split; [done|]). split.
  - intros cfg' rnd' codeId' d' Hsame Hr'.
    destruct (mark_last_sent clk markerId d' email) as [d1'|e] eqn:Hm'.
    + destruct (SendConfirmEmail_marked cfg' clk rnd' markerId codeId' d'
                  email d1' Hm') as [_ ->].
      by eapply mark_last_sent_table.
    + unfold SendConfirmEmail in Hr'. by rewrite Hm' in Hr'.
  - exists sent. do 2 (split; [done|]).
    intros cfg' clk' rnd' markerId' codeId' Hclk' Hlt.
    by apply (SendConfirmEmail_again cfg' clk' rnd' markerId' codeId' d1
                email sent).
Qed.

End RateLimit.

(** ** Passwords, one-time passwords and login *)

Section Credentials.
Import services.
Context `{Externals}.

Lemma generateRandomString_nonempty rnd pos n code :
  generateRandomString rnd pos (S n) = Ok code → code ≠ "".
Proof.
  simpl. destruct (rand_Int _ _ _); [|done].
  destruct (generateRandomString _ _ _); [|done]. by intros [= <-].
Qed.

Lemma generateRandomString_length rnd pos n code :
  generateRandomString rnd pos n = Ok code → String.length code = n.
Proof.
  revert pos code. induction n as [|n IH]; intros pos code; simpl.
  - by intros [= <-].
  - destruct (rand_Int _ _ _); [|done].
    destruct (generateRandomString rnd (S pos) n) eqn:E; [|done].
    intros [= <-]. simpl. f_equal. by eapply IH.
Qed.

(** The loop of [Login] stops at once with a code no stored token
    has. *)
Lemma login_code_fresh fuel rnd pos d code existing :
  code ≠ "" →
  (∀ t, t ∈ login_tokens d → LoginToken.Code t ≠ code) →
  login_code fuel rnd pos d code existing = Some (Ok code).
Proof.
  intros Hne Hfresh.
  assert (login_token_by_code d existing code = None) as Hnone.
  { apply First_None. intros t Ht. apply andb_false_iff. left.
    apply bool_decide_eq_false_2. by apply Hfresh. }
  destruct fuel; simpl; by rewrite bool_decide_eq_false_2, Hnone.
Qed.

Lemma login_code_start fuel rnd pos d existing :
  login_code (S fuel) rnd pos d "" existing
  = match generateRandomString rnd pos 64 with
    | Err e => Some (Err e)
    | Ok code => login_code fuel rnd (pos + 64)%nat d code existing
    end.
Proof. reflexivity. Qed.

(** C4.  [Login] gives the same answer, the empty token with
    [ErrInvalidCredentials], for an address without an account and for
    an account whose stored hash the password does not verify against;
    so does [Activate2FAOTP].  Neither changes the database. *)
Theorem Login_same_error
    (fuel fuel' : nat) (rnd rnd' : Entropy) (now now' : Z)
    (tokenId tokenId' : UUID) (generated : string → string → option OtpKey)
    (cfg : Config) (d1 d2 : DB) (email password : string) (u : User.t) :
  user_by_email d1 email = None →
  user_by_email d2 email = Some u →
  bcrypt_CompareHashAndPassword (User.PasswordHash u)
    (String.list_byte_of_string password) = false →
  Login fuel rnd now tokenId d1 email password
  = Some ("", Some ErrInvalidCredentials, d1)
  ∧ Login fuel' rnd' now' tokenId' d2 email password
    = Some ("", Some ErrInvalidCredentials, d2)
  ∧ Activate2FAOTP generated cfg d1 email password
    = ([], Some ErrInvalidCredentials, d1)
  ∧ Activate2FAOTP generated cfg d2 email password
    = ([], Some ErrInvalidCredentials, d2).
Proof.
  intros H1 H2 Hpw. unfold Login, Activate2FAOTP.
  by rewrite H1, H2, Hpw.
Qed.

(** C8.  For a user whose two-factor state is enabled,
    [Activate2FAOTP] with the right password returns the stored QR image
    and changes nothing, whatever [totp.Generate] would have produced,
    so that a second call returns the same image; with a password that
    does not verify it fails with [ErrInvalidCredentials] whether the
    two-factor state is enabled or not. *)
Theorem Activate2FAOTP_idempotent
    (generated generated' : string → string → option OtpKey)
    (cfg : Config) (d : DB) (email password : string) (u : User.t) :
  user_by_email d email = Some u →
  (User.TwoFaOTPEnabled u = true →
   bcrypt_CompareHashAndPassword (User.PasswordHash u)
     (String.list_byte_of_string password) = true →
   let r := Activate2FAOTP generated cfg d email password in
   r = (User.OtpQrCode u, None, d)
   ∧ Activate2FAOTP generated' cfg r.2 email password = r)
  ∧ (bcrypt_CompareHashAndPassword (User.PasswordHash u)
       (String.list_byte_of_string password) = false →
     Activate2FAOTP generated cfg d email password
     = ([], Some ErrInvalidCredentials, d)).
Proof.
  intros Hu. unfold Activate2FAOTP. rewrite Hu. split.
  - intros Hen Hpw. rewrite Hpw, Hen. simpl. by rewrite Hu, Hpw, Hen.
  - by intros ->.
Qed.

(** C3, as the code has it.  [Activate2FAOTP] with the right password,
    for a user whose two-factor state is not enabled, writes the new
    secret and its QR image to the user record at once and leaves the
    two-factor flag false; the flag is set by the first [VerifyOTPCode]
    whose code validates against that stored secret, and a code that
    does not validate changes nothing. *)
Theorem Activate2FAOTP_stores_secret
    (generated : string → string → option OtpKey) (cfg : Config) (d : DB)
    (email password : string) (u : User.t) (key : OtpKey)
    (qr : list Byte.byte) :
  User.Id u ≠ uuid_zero →
  user_by_email d email = Some u →
  User.TwoFaOTPEnabled u = false →
  bcrypt_CompareHashAndPassword (User.PasswordHash u)
    (String.list_byte_of_string password) = true →
  generated (DomainName cfg) (User.Email u) = Some key →
  Image key = Some qr →
  let r := Activate2FAOTP generated cfg d email password in
  let stored := User.with_otp false (Secret key) qr u in
  r.1 = (qr, None)
  ∧ user_by_email r.2 email = Some stored
  ∧ User.OtpSecret stored = Secret key
  ∧ User.TwoFaOTPEnabled stored = false
  ∧ ∀ now code,
      let v := VerifyOTPCode now r.2 email code in
      (totp_Validate now code (Secret key) = true →
         v.1 = true
         ∧ user_by_email v.2 email
           = Some (User.with_TwoFaOTPEnabled true stored))
      ∧ (totp_Validate now code (Secret key) = false → v = (false, r.2)).
Proof.
  intros Hnz Hu Hen Hpw Hgen Himg r stored.
  assert (r = (qr, None,
               with_users (gorm.Updates User.Id (User.Id u)
                             (User.with_otp false (Secret key) qr)
                             (users d)) d)) as ->.
  { subst r. unfold Activate2FAOTP. by rewrite Hu, Hpw, Hen, Hgen, Himg. }
  simpl.
  assert (user_by_email
            (with_users (gorm.Updates User.Id (User.Id u)
                           (User.with_otp false (Secret key) qr)
                           (users d)) d) email = Some stored) as Hstored
    by by apply user_by_email_Updates.
  do 4 (split; [done|]). intros now code. unfold VerifyOTPCode.
  rewrite Hstored. simpl. split.
  - intros ->. simpl. split; [done|].
    exact (user_by_email_Updates _ email stored
             (User.with_TwoFaOTPEnabled true) Hnz Hstored
             (λ _, eq_refl) (λ _, eq_refl)).
  - by intros ->.
Qed.

(** What the services write for every input: the row [SendConfirmEmail]
    stores for the user holds the string [generateRandomString] returned,
    the one the mail quotes; the row [Login] stores holds the string it
    returns to the caller.  No hash is applied on the way.  [Login] does
    return such a token as soon as the reader delivers a string that no
    stored token has. *)
Lemma stored_as_generated :
  (∀ cfg clk rnd markerId codeId d email,
     let r := SendConfirmEmail cfg clk rnd markerId codeId d email in
     r.1.1 = None →
     ∃ code u,
       generateRandomString rnd 0 6 = Ok code
       ∧ user_by_email d email = Some u
       ∧ last (email_codes r.1.2)
         = Some {| EmailCode.Id := codeId;
                   EmailCode.Code := code;
                   EmailCode.ExpirationTime :=
                     Go.add (t_issue clk) emailCodeLifetime;
                   EmailCode.UserId := Some (User.Id u) |}
       ∧ (EmailEnabled cfg = true →
          ∃ body,
            ParseEmailTemplate "template.html" (User.Name u)
              ("der Code lautet: " +:+ code) = Some body
            ∧ Body <$> r.2 = [body]))
  ∧ (∀ fuel rnd now tokenId d email password code d',
       gorm.primary_key User.Id (users d) →
       Login fuel rnd now tokenId d email password = Some (code, None, d') →
       ∃ u, user_by_email d email = Some u
         ∧ login_tokens d'
           = login_tokens d
             ++ [ {| LoginToken.Id := tokenId;
                     LoginToken.Code := code;
                     LoginToken.ExpirationTime :=
                       Go.add now loginTokenLifetime;
                     LoginToken.UserId := User.Id u |} ])
  ∧ (∀ fuel rnd now tokenId d email password u code,
       user_by_email d email = Some u →
       bcrypt_CompareHashAndPassword (User.PasswordHash u)
         (String.list_byte_of_string password) = true →
       generateRandomString rnd 0 64 = Ok code →
       (∀ t, t ∈ login_tokens d → LoginToken.Code t ≠ code) →
       ∃ d', Login (S fuel) rnd now tokenId d email password
             = Some (code, None, d')).
Proof.
  split; [|split].
  - intros cfg clk rnd markerId codeId d email r. subst r.
    unfold SendConfirmEmail.
    destruct (mark_last_sent clk markerId d email) as [d1|e] eqn:Hm;
      [|done].
    assert (users d1 = users d) as Husers.
    { revert Hm. unfold mark_last_sent.
      destruct (last_sent_by_email d email); [|by intros [= <-]].
      destruct (_ <? _); [done|]. by intros [= <-]. }
    assert (user_by_email d1 email = user_by_email d email) as ->
      by (unfold user_by_email; by rewrite Husers).
    destruct (user_by_email d email) as [u|]; [|done].
    destruct (negb _); [|done].
    destruct (generateRandomString rnd 0 6) as [code|]; [|done].
    simpl.
    destruct (EmailEnabled cfg).
    + destruct (ParseEmailTemplate _ _ _) as [body|] eqn:Hbody; [|done].
      intros _. exists code, u. do 2 (split; [done|]). simpl. split.
      * unfold replace_EmailCode. by rewrite last_snoc.
      * intros _. by exists body.
    + intros _. exists code, u. do 2 (split; [done|]). simpl. split.
      * unfold replace_EmailCode. by rewrite last_snoc.
      * done.
  - intros fuel rnd now tokenId d email password code d' Hpk.
    unfold Login.
    destruct (user_by_email d email) as [u|] eqn:Hu; [|done].
    destruct (negb _); [done|].
    destruct (login_code _ _ _ _ _ _) as [[code'|e]|]; [|done..].
    intros [= -> <-]. exists u. split; [done|].
    unfold save_LoginToken. rewrite decide_False; [done|].
    apply user_by_email_Some in Hu as [Hin _].
    by eapply primary_key_nonzero.
  - intros fuel rnd now tokenId d email password u code Hu Hpw Hgen Hfresh.
    unfold Login. rewrite Hu, Hpw. cbn [negb].
    rewrite login_code_start, Hgen.
    rewrite login_code_fresh; [by eexists | | done].
    by eapply generateRandomString_nonempty.
Qed.

End Credentials.

(** ** The group store *)

Section GroupStoreFacts.
Import db.

Lemma membership_of_Some d group user m :
  membership_of d group user = Some m →
  m ∈ group_memberships d
  ∧ GroupMembership.GroupId m = Group.Id group
  ∧ GroupMembership.UserId m = User.Id user.
Proof.
  intros [Hin Hc]%First_Some. apply andb_true_iff in Hc as [H1 H2].
  by apply bool_decide_eq_true in H1, H2.
Qed.

Lemma RemoveMember_admin d group user m :
  membership_of d group user = Some m →
  GroupMembership.IsAdmin m = true →
  group_memberships (RemoveMember d group user).2
  = gorm.Updates GroupMembership.Id (GroupMembership.Id m)
      (GroupMembership.with_IsMember false) (group_memberships d).
Proof. intros Hm Ha. unfold RemoveMember. by rewrite Hm, Ha. Qed.

Lemma RemoveMember_plain d group user m :
  membership_of d group user = Some m →
  GroupMembership.IsAdmin m = false →
  group_memberships (RemoveMember d group user).2
  = gorm.Delete GroupMembership.Id (GroupMembership.Id m)
      (group_memberships d).
Proof. intros Hm Ha. unfold RemoveMember. by rewrite Hm, Ha. Qed.

(** C10.  For a user with a membership record in the group,
    [RemoveMember] succeeds and does not change whether the user is an
    admin: the record of an admin is kept, with the member flag cleared
    and the admin flag still set; the record of a user who is not an
    admin is deleted; no other record is touched; and [IsAdmin] answers
    after the call what it answered before. *)
Theorem RemoveMember_keeps_admin_status
    (d : DB) (group : Group.t) (user : User.t) (m : GroupMembership.t) :
  gorm.primary_key GroupMembership.Id (group_memberships d) →
  membership_of d group user = Some m →
  let r := RemoveMember d group user in
  r.1 = None
  ∧ (GroupMembership.IsAdmin m = true →
     IsAdmin d group user = (true, None)
     ∧ membership_of r.2 group user
       = Some (GroupMembership.with_IsMember false m)
     ∧ GroupMembership.IsAdmin (GroupMembership.with_IsMember false m)
       = true)
  ∧ (GroupMembership.IsAdmin m = false →
     (m ∉ group_memberships r.2)
     ∧ ∀ x, x ∈ group_memberships r.2 → x ∈ group_memberships d)
  ∧ (∀ x, x ∈ group_memberships d → x ≠ m → x ∈ group_memberships r.2)
  ∧ IsAdmin r.2 group user = IsAdmin d group user.
Proof.
  intros Hpk Hm r.
  pose proof Hm as (Hin & Hg & Hu)%membership_of_Some.
  assert (GroupMembership.Id m ≠ uuid_zero) as Hnz
    by by eapply primary_key_nonzero.
  assert (∀ x, x ∈ group_memberships d →
            GroupMembership.Id x = GroupMembership.Id m → x = m) as Hinj
    by (intros x Hx Hid; by eapply primary_key_inj).
  split; [|split; [|split; [|split]]].
  - subst r. unfold RemoveMember. rewrite Hm.
    by destruct (GroupMembership.IsAdmin m).
  - intros Ha. split; [|split; [|done]].
    { unfold IsAdmin.
      destruct (gorm.First _ _ (group_memberships d)) eqn:E; [done|].
      rewrite First_None in E. specialize (E m Hin).
      rewrite Hg, Hu, Ha, !bool_decide_eq_true_2 in E by done. done. }
    subst r. unfold membership_of.
    rewrite (RemoveMember_admin d group user m) by done.
    rewrite First_Updates; [| done | done | done].
    unfold membership_of in Hm. rewrite Hm. simpl. by rewrite decide_True.
  - intros Ha. subst r.
    rewrite (RemoveMember_plain d group user m) by done. split.
    + intros Hgone. by apply Delete_gone in Hgone.
    + intros x. apply Delete_subseteq.
  - intros x Hx Hne. subst r.
    destruct (GroupMembership.IsAdmin m) eqn:Ha.
    + rewrite (RemoveMember_admin d group user m) by done.
      unfold gorm.Updates. rewrite decide_False by done.
      apply list_elem_of_fmap. exists x. split; [|done].
      rewrite decide_False; [done|]. intros Hid. by apply Hne, Hinj.
    + rewrite (RemoveMember_plain d group user m) by done.
      unfold gorm.Delete. rewrite decide_False by done.
      apply list_elem_of_filter. split; [|done].
      intros Hid. by apply Hne, Hinj.
  - subst r. unfold IsAdmin.
    destruct (GroupMembership.IsAdmin m) eqn:Ha.
    + rewrite (RemoveMember_admin d group user m) by done.
      rewrite First_Updates; [| done | done | done].
      by destruct (gorm.First _ _ (group_memberships d)).
    + rewrite (RemoveMember_plain d group user m) by done.
      rewrite First_Delete_other; [done|].
      intros x Hx Hc Hid. apply Hinj in Hid as ->; [|done].
      apply andb_true_iff in Hc as [_ Hc].
      apply bool_decide_eq_true in Hc. congruence.
Qed.

(** *** Balances *)

Lemma created_desc_true a b :
  created_desc a b = true →
  TransactionLogEntry.Created b ≤ TransactionLogEntry.Created a.
Proof.
  unfold created_desc. intros [Hlt|[Heq _]%andb_true_iff]%orb_true_iff; lia.
Qed.

Lemma created_desc_false a b :
  created_desc a b = false →
  TransactionLogEntry.Created a ≤ TransactionLogEntry.Created b.
Proof.
  unfold created_desc. intros [Hlt _]%orb_false_iff. lia.
Qed.

(** [GetUserBalance] returns the prior balance. *)
Lemma GetUserBalance_prior d group user :
  prior_balance d group user (GetUserBalance d group user).
Proof.
  unfold GetUserBalance, GetLastTransactionLogEntry.
  destruct (gorm.first_by _ _ _) as [l|] eqn:E.
  - right. exists l. pose proof E as [Hin Hc]%first_by_Some.
    do 2 (split; [done|]). split.
    + eapply (first_by_greatest TransactionLogEntry.Created);
        [apply created_desc_true | apply created_desc_false | done].
    + unfold balance_in. by case_bool_decide; case_decide.
  - left. split; [done|]. by eapply first_by_None.
Qed.

(** C9.  [CreateTransactionFromPaymentPlan] appends one log entry.  In
    Go's [int] arithmetic its sender difference is [-amount] and its
    receiver difference is [amount]; for a participant that is not the
    bank the entry carries the participant's id and the prior balance
    minus [amount] (sender) or plus [amount] (receiver); for the bank it
    carries the zero UUID and the balance 0.  Whenever the exact result
    fits into an [int], it is the value recorded. *)
Theorem CreateTransaction_log_entry
    (newId : UUID) (created : Z) (d : DB) (group : Group.t)
    (senderIsBank receiverIsBank : bool) (sender receiver : User.t)
    (title description : string) (amount : Z) (paymentPlanId : UUID) :
  let r :=
    CreateTransactionFromPaymentPlan newId created d group senderIsBank
      receiverIsBank sender receiver title description amount
      paymentPlanId in
  r.1 = None
  ∧ ∃ e,
      transaction_log_entries r.2 = transaction_log_entries d ++ [e]
      ∧ TransactionLogEntry.GroupId e = Group.Id group
      ∧ TransactionLogEntry.Amount e = amount
      ∧ TransactionLogEntry.BalanceDifferenceSender e = Go.neg amount
      ∧ (Go.is_int64 (- amount) →
         TransactionLogEntry.BalanceDifferenceSender e = - amount)
      ∧ TransactionLogEntry.BalanceDifferenceReceiver e = amount
      ∧ (senderIsBank = false →
         TransactionLogEntry.SenderId e = User.Id sender
         ∧ ∃ b, prior_balance d group sender b
             ∧ TransactionLogEntry.NewBalanceSender e = Go.sub b amount
             ∧ (Go.is_int64 (b - amount) →
                TransactionLogEntry.NewBalanceSender e = b - amount))
      ∧ (receiverIsBank = false →
         TransactionLogEntry.ReceiverId e = User.Id receiver
         ∧ ∃ b, prior_balance d group receiver b
             ∧ TransactionLogEntry.NewBalanceReceiver e = Go.add b amount
             ∧ (Go.is_int64 (b + amount) →
                TransactionLogEntry.NewBalanceReceiver e = b + amount))
      ∧ (senderIsBank = true →
         TransactionLogEntry.SenderId e = uuid_zero
         ∧ TransactionLogEntry.NewBalanceSender e = 0)
      ∧ (receiverIsBank = true →
         TransactionLogEntry.ReceiverId e = uuid_zero
         ∧ TransactionLogEntry.NewBalanceReceiver e = 0).
Proof.
  intros r. subst r. unfold CreateTransactionFromPaymentPlan. simpl.
  split; [done|]. eexists. split; [reflexivity|]. simpl.
  do 3 (split; [done|]).
  split; [intros Hfit; by apply wrap64_id|]. split; [done|].
  split; [|split; [|split]].
  - intros ->. simpl. split; [done|].
    exists (GetUserBalance d group sender).
    split; [apply GetUserBalance_prior|]. split; [done|].
    intros Hfit. by apply wrap64_id.
  - intros ->. simpl. split; [done|].
    exists (GetUserBalance d group receiver).
    split; [apply GetUserBalance_prior|]. split; [done|].
    intros Hfit. by apply wrap64_id.
  - by intros ->.
  - by intros ->.
Qed.

End GroupStoreFacts.

(** ** The guarantees of the database are kept by the services *)

Section KeyPreservation.
Context {T : Type} (pk : T → UUID).

Lemma primary_key_Delete id (rows : list T) :
  gorm.primary_key pk rows → gorm.primary_key pk (gorm.Delete pk id rows).
Proof.
  unfold gorm.Delete. case_decide; [done|]. intros [Hnd Hz].
  assert (pk <$> filter (λ r, pk r ≠ id) rows `sublist_of` pk <$> rows)
    as Hsub by (apply fmap_sublist, sublist_filter).
  split.
  - by eapply sublist_NoDup.
  - intros Hin. apply Hz. by eapply elem_of_sublist.
Qed.

Lemma primary_key_fmap (f : T → T) (rows : list T) :
  (∀ r, pk (f r) = pk r) →
  gorm.primary_key pk rows → gorm.primary_key pk (f <$> rows).
Proof.
  intros Hf. unfold gorm.primary_key.
  assert (pk <$> (f <$> rows) = pk <$> rows) as ->; [|done].
  rewrite <- list_fmap_compose. apply list_fmap_ext. intros i r _. apply Hf.
Qed.

Lemma primary_key_Updates id (set : T → T) (rows : list T) :
  (∀ r, pk (set r) = pk r) →
  gorm.primary_key pk rows → gorm.primary_key pk (gorm.Updates pk id set rows).
Proof.
  intros Hset. unfold gorm.Updates. case_decide; [done|].
  apply primary_key_fmap. intros r. by case_decide.
Qed.

Lemma primary_key_Create row (rows : list T) :
  gorm.fresh pk (pk row) rows →
  gorm.primary_key pk rows → gorm.primary_key pk (gorm.Create row rows).
Proof.
  intros [Hnz Hnew] [Hnd Hz]. unfold gorm.Create, gorm.primary_key.
  rewrite fmap_app. simpl. split.
  - apply NoDup_app. split; [done|]. split; [|apply NoDup_singleton].
    intros x Hx ->%list_elem_of_singleton. done.
  - apply not_elem_of_app. split; [done|].
    intros ?%list_elem_of_singleton. done.
Qed.
End KeyPreservation.

Section ServicesInvariant.
Import services.
Context `{Externals}.

Lemma has_one_Delete id rows :
  has_one_EmailCode rows →
  has_one_EmailCode (gorm.Delete EmailCode.Id id rows).
Proof.
  intros Hone c1 c2 uid H1%Delete_subseteq H2%Delete_subseteq. by apply Hone.
Qed.

Lemma replace_EmailCode_consistent user code rows :
  gorm.fresh EmailCode.Id (EmailCode.Id code) rows →
  gorm.primary_key EmailCode.Id rows → has_one_EmailCode rows →
  gorm.primary_key EmailCode.Id (replace_EmailCode user code rows)
  ∧ has_one_EmailCode (replace_EmailCode user code rows).
Proof.
  intros Hfresh Hpk Hone. unfold replace_EmailCode.
  set (f := λ c, if decide (EmailCode.UserId c = Some (User.Id user)
                            ∧ EmailCode.Id c ≠ EmailCode.Id code)
                 then EmailCode.with_UserId None c else c).
  assert (∀ c, EmailCode.Id (f c) = EmailCode.Id c) as Hid
    by (intros c; unfold f; by case_decide).
  assert (∀ c uid, c ∈ rows → EmailCode.UserId (f c) = Some uid →
            uid ≠ User.Id user ∧ EmailCode.UserId c = Some uid) as Hkept.
  { intros c uid Hc. unfold f. case_decide as Hd; simpl; [done|].
    intros Hu. split; [|done]. intros ->. apply Hd. split; [done|].
    intros Heq. apply Hfresh. rewrite <- Heq. by apply list_elem_of_fmap_2. }
  split.
  - apply (primary_key_Create EmailCode.Id
             (EmailCode.with_UserId (Some (User.Id user)) code) (f <$> rows)).
    + destruct Hfresh as [Hnz Hnew]. split; [done|]. simpl.
      rewrite <- list_fmap_compose.
      rewrite (list_fmap_ext (EmailCode.Id ∘ f) EmailCode.Id); [done|].
      intros i c _. apply Hid.
    + by apply primary_key_fmap.
  - intros c1 c2 uid H1 H2 Hu1 Hu2.
    apply elem_of_app in H1 as [(c1' & -> & H1)%list_elem_of_fmap
                               | ->%list_elem_of_singleton];
    apply elem_of_app in H2 as [(c2' & -> & H2)%list_elem_of_fmap
                               | ->%list_elem_of_singleton].
    + rewrite !Hid. destruct (Hkept _ _ H1 Hu1), (Hkept _ _ H2 Hu2).
      by apply (Hone c1' c2' uid).
    + destruct (Hkept _ _ H1 Hu1) as [Hne _]. simpl in Hu2. congruence.
    + destruct (Hkept _ _ H2 Hu2) as [Hne _]. simpl in Hu1. congruence.
    + done.
Qed.

Lemma mark_last_sent_consistent clk markerId d email d' :
  consistent d →
  gorm.fresh ConfirmEmailLastSent.Id markerId (confirm_email_last_sents d) →
  mark_last_sent clk markerId d email = Ok d' → consistent d'.
Proof.
  intros Hd Hfresh. unfold mark_last_sent.
  destruct (last_sent_by_email d email) as [row|].
  - destruct (_ <? _); [done|]. intros [= <-].
    destruct Hd. split; simpl; try done.
    by apply primary_key_Updates.
  - intros [= <-]. destruct Hd. split; simpl; try done.
    by apply primary_key_Create.
Qed.

(** Whatever [SendConfirmEmail] answers, it leaves a consistent database,
    given fresh keys for the rows it may create. *)
Lemma SendConfirmEmail_consistent cfg clk rnd markerId codeId d email :
  consistent d →
  gorm.fresh ConfirmEmailLastSent.Id markerId (confirm_email_last_sents d) →
  gorm.fresh EmailCode.Id codeId (email_codes d) →
  consistent (SendConfirmEmail cfg clk rnd markerId codeId d email).1.2.
Proof.
  intros Hd Hmarker Hcode. unfold SendConfirmEmail.
  destruct (mark_last_sent clk markerId d email) as [d1|e] eqn:Hm; [|done].
  pose proof (mark_last_sent_consistent _ _ _ _ _ Hd Hmarker Hm) as Hd1.
  assert (email_codes d1 = email_codes d) as Hcodes.
  { revert Hm. unfold mark_last_sent.
    destruct (last_sent_by_email d email); [|by intros [= <-]].
    destruct (_ <? _); [done|]. by intros [= <-]. }
  destruct (user_by_email d1 email) as [user|]; [|done].
  destruct (negb _); [|done].
  destruct (generateRandomString rnd 0 6) as [code|]; [|done].
  set (rows := gorm.Delete EmailCode.Id _ (email_codes d1)).
  set (new := {| EmailCode.Id := codeId; EmailCode.Code := code;
                 EmailCode.ExpirationTime := _; EmailCode.UserId := _ |}).
  assert (consistent
            (with_email_codes (replace_EmailCode user new rows)
               (with_email_codes rows d1))) as Hd2.
  { destruct (replace_EmailCode_consistent user new rows) as [Hpk Hone].
    - destruct Hcode as [Hnz Hnew]. split; [done|]. simpl.
      intros (c & Hc & Hin%Delete_subseteq)%list_elem_of_fmap.
      apply Hnew. rewrite <- Hcodes, Hc. by apply list_elem_of_fmap_2.
    - apply primary_key_Delete, Hd1.
    - apply has_one_Delete, Hd1.
    - destruct Hd1. by split. }
  destruct (EmailEnabled cfg); [|done].
  by destruct (ParseEmailTemplate _ _ _).
Qed.

Lemma VerifyConfirmEmailCode_consistent now d email code :
  consistent d → consistent (VerifyConfirmEmailCode now d email code).2.
Proof.
  intros Hd. unfold VerifyConfirmEmailCode.
  destruct (user_by_email d email) as [user|]; [|done].
  case_bool_decide; [|done].
  destruct (_ >? _); destruct Hd; split; simpl; try done;
    try (by apply primary_key_Delete); try (by apply has_one_Delete).
  by apply primary_key_Updates.
Qed.

Lemma Activate2FAOTP_consistent generated cfg d email password :
  consistent d →
  consistent (Activate2FAOTP generated cfg d email password).2.
Proof.
  intros Hd. unfold Activate2FAOTP.
  destruct (user_by_email d email) as [user|]; [|done].
  destruct (negb (bcrypt_CompareHashAndPassword _ _)); [done|].
  destruct (negb (User.TwoFaOTPEnabled user)); [|done].
  destruct (generated _ _) as [key|]; [|done].
  destruct (Image key); [|done].
  destruct Hd. split; simpl; try done. by apply primary_key_Updates.
Qed.

Lemma VerifyOTPCode_consistent now d email code :
  consistent d → consistent (VerifyOTPCode now d email code).2.
Proof.
  intros Hd. unfold VerifyOTPCode.
  destruct (user_by_email d email) as [user|]; [|done].
  destruct (totp_Validate _ _ _); [|done].
  destruct Hd. split; simpl; try done. by apply primary_key_Updates.
Qed.

Lemma Login_consistent fuel rnd now tokenId d email password token err d' :
  consistent d →
  gorm.fresh LoginToken.Id tokenId (login_tokens d) →
  Login fuel rnd now tokenId d email password = Some (token, err, d') →
  consistent d'.
Proof.
  intros Hd Hfresh. unfold Login.
  destruct (user_by_email d email) as [user|]; [|by intros [= _ _ <-]].
  destruct (negb _); [by intros [= _ _ <-]|].
  destruct (login_code _ _ _ _ _ _) as [[code|e]|];
    [|by intros [= _ _ <-]|done].
  intros [= _ _ <-]. unfold save_LoginToken. case_decide; [done|].
  destruct Hd. split; simpl; try done. by apply primary_key_Create.
Qed.

End ServicesInvariant.

(** ** The theorems at work on the sample data *)

Section Samples.
Import sample.

Lemma pending_consistent : services.consistent pending.
Proof.
  split; try (split; compute_done).
  intros c1 c2 uid Hc1%list_elem_of_singleton Hc2%list_elem_of_singleton.
  by subst.
Qed.

Lemma store_consistent : handlers.consistent store.
Proof.
  split; [split; compute_done|].
  intros t1 t2 H1%list_elem_of_singleton H2%list_elem_of_singleton.
  by subst.
Qed.

Lemma at_time_ok t : 0 < t ≤ Go.int64_max → services.clock_ok (at_time t).
Proof. intros Ht. by split; [|split]. Qed.

Lemma t0_ok : services.clock_ok (at_time t0).
Proof. apply at_time_ok. compute_done. Qed.

Lemma registered_markers_pk :
  gorm.primary_key ConfirmEmailLastSent.Id
    (services.confirm_email_last_sents registered).
Proof. split; compute_done. Qed.

Lemma VerifyConfirmEmailCode_three_ways_witness :
  services.consistent pending
  ∧ services.user_by_email pending "a@x.com" = Some ann
  ∧ services.email_code_row pending ann = Some code_row
  ∧ (let r :=
       services.VerifyConfirmEmailCode (t0 + 1) pending "a@x.com" "AAAAAA"
     in r.1 = true
        ∧ services.user_by_email r.2 "a@x.com"
          = Some (User.with_EmailConfirmed true ann)
        ∧ services.email_code_row r.2 ann = None
        ∧ code_row ∉ services.email_codes r.2).
Proof.
  split; [exact pending_consistent|]. do 2 (split; [reflexivity|]).
  apply (VerifyConfirmEmailCode_three_ways pending (t0 + 1) "a@x.com"
           "AAAAAA" ann code_row pending_consistent eq_refl eq_refl).
  split; [reflexivity | vm_compute; reflexivity].
Defined.

Lemma expired_credential_refused_and_removed_witness :
  (EmailCode.ExpirationTime code_row < t0 + 300001
   ∧ let r :=
       services.VerifyConfirmEmailCode (t0 + 300001) pending "a@x.com"
         "AAAAAA" in
     r.1 = false
     ∧ fst (services.VerifyConfirmEmailCode (t0 + 300002) r.2 "a@x.com"
              "AAAAAA") = false)
  ∧ (TwoFAToken.ExpirationTime token_row < 1767225601
     ∧ let r :=
         @handlers.DeleteUser externals 1767225601 store 1%N
           (Some delete_body) in
       r.1 = handlers.JSON handlers.StatusForbidden
               handlers.NewInvalidCredentials
       ∧ fst (@handlers.DeleteUser externals 1767225602 r.2 1%N
                (Some delete_body))
         = handlers.JSON handlers.StatusForbidden
             handlers.NewInvalidCredentials).
Proof.
  destruct (@expired_credential_refused_and_removed externals)
    as [Hcode Htoken].
  split.
  - split; [by vm_compute|].
    destruct (Hcode pending (t0 + 300001) "a@x.com" ann code_row
                pending_consistent eq_refl eq_refl)
      as (Hfail & _ & _ & Hlater); [by vm_compute|].
    split; [exact Hfail|]. apply Hlater. by vm_compute.
  - split; [by vm_compute|].
    destruct (Htoken store 1767225601 1%N delete_body ann token_row
                store_consistent eq_refl eq_refl eq_refl)
      as (Hfail & _ & _ & _ & Hlater); [by vm_compute|].
    split; [exact Hfail | apply Hlater].
Defined.

Lemma SendConfirmEmail_rate_limit_witness :
  let r :=
    @services.SendConfirmEmail externals cfg (at_time t0) (constant 10)
      50%N 60%N registered "a@x.com" in
  r.1.1 = None
  ∧ @services.SendConfirmEmail externals cfg (at_time (t0 + 119999))
      (constant 11) 51%N 61%N r.1.2 "a@x.com"
    = (Some ErrTimeout, r.1.2, [])
  ∧ (@services.SendConfirmEmail externals cfg (at_time (t0 + 120000))
       (constant 11) 51%N 61%N r.1.2 "a@x.com").1.1 ≠ Some ErrTimeout.
Proof.
  intros r. split; [reflexivity|].
  destruct (@SendConfirmEmail_rate_limit externals cfg (at_time t0)
              (constant 10) 50%N 60%N registered "a@x.com"
              registered_markers_pk t0_ok)
    as (sent & _ & Hsent & Hnext); [by vm_compute|].
  injection Hsent as <-. split.
  - apply (Hnext cfg (at_time (t0 + 119999)) (constant 11) 51%N 61%N).
    + apply at_time_ok. compute_done.
    + by vm_compute.
  - apply (Hnext cfg (at_time (t0 + 120000)) (constant 11) 51%N 61%N).
    + apply at_time_ok. compute_done.
    + by vm_compute.
Defined.

Lemma SendConfirmEmail_unknown_email_witness :
  let r :=
    @services.SendConfirmEmail externals cfg (at_time t0) (constant 10)
      50%N 60%N registered "nobody@x.com" in
  services.user_by_email registered "nobody@x.com" = None
  ∧ r.1.1 = Some ErrNotFound
  ∧ @services.SendConfirmEmail externals cfg (at_time (t0 + 1))
      (constant 10) 51%N 61%N r.1.2 "nobody@x.com"
    = (Some ErrTimeout, r.1.2, []).
Proof.
  intros r. split; [reflexivity|].
  destruct (@SendConfirmEmail_unknown_email externals cfg (at_time t0)
              (constant 10) 50%N 60%N registered "nobody@x.com"
              registered_markers_pk t0_ok eq_refl)
    as (Herr & _ & _ & _ & _ & sent & _ & Hsent & Hnext); [by vm_compute|].
  split; [exact Herr|]. injection Hsent as <-.
  apply (Hnext cfg (at_time (t0 + 1)) (constant 10) 51%N 61%N).
  - apply at_time_ok. compute_done.
  - by vm_compute.
Defined.

Lemma Login_same_error_witness :
  services.user_by_email empty "a@x.com" = None
  ∧ services.user_by_email registered "a@x.com" = Some ann
  ∧ @services.Login externals 1 (constant 10) t0 70%N empty "a@x.com"
      "guess"
    = Some ("", Some ErrInvalidCredentials, empty)
  ∧ @services.Login externals 1 (constant 10) t0 70%N registered
      "a@x.com" "guess"
    = Some ("", Some ErrInvalidCredentials, registered).
Proof.
  do 2 (split; [reflexivity|]).
  destruct (@Login_same_error externals 1%nat 1%nat (constant 10)
              (constant 10) t0 t0 70%N 70%N generated cfg empty registered
              "a@x.com" "guess" ann eq_refl eq_refl eq_refl)
    as (H1 & H2 & _).
  by split.
Defined.

Lemma Activate2FAOTP_idempotent_witness :
  services.user_by_email enrolled "a@x.com" = Some ann_2fa
  ∧ User.TwoFaOTPEnabled ann_2fa = true
  ∧ (let r :=
       @services.Activate2FAOTP externals generated cfg enrolled "a@x.com"
         "pw1" in
     r = (User.OtpQrCode ann_2fa, None, enrolled)
     ∧ @services.Activate2FAOTP externals (λ _ _, None) cfg r.2 "a@x.com"
         "pw1" = r)
  ∧ @services.Activate2FAOTP externals generated cfg enrolled "a@x.com"
      "guess" = ([], Some ErrInvalidCredentials, enrolled).
Proof.
  do 2 (split; [reflexivity|]).
  destruct (@Activate2FAOTP_idempotent externals generated (λ _ _, None)
              cfg enrolled "a@x.com" "pw1" ann_2fa eq_refl) as [Hok _].
  destruct (@Activate2FAOTP_idempotent externals generated (λ _ _, None)
              cfg enrolled "a@x.com" "guess" ann_2fa eq_refl) as [_ Hbad].
  split; [by apply Hok | by apply Hbad].
Defined.

Lemma Activate2FAOTP_stores_secret_witness :
  let r :=
    @services.Activate2FAOTP externals generated cfg registered "a@x.com"
      "pw1" in
  User.TwoFaOTPEnabled ann = false
  ∧ services.user_by_email r.2 "a@x.com"
    = Some (User.with_otp false "JBSWY3DPEHPK3PXP"
              [Byte.x89; Byte.x50; Byte.x4e; Byte.x47] ann)
  ∧ (@services.VerifyOTPCode externals t0 r.2 "a@x.com"
       "JBSWY3DPEHPK3PXP").1 = true.
Proof.
  intros r. split; [reflexivity|].
  destruct (@Activate2FAOTP_stores_secret externals generated cfg
              registered "a@x.com" "pw1" ann
              {| services.Secret := "JBSWY3DPEHPK3PXP";
                 services.Image :=
                   Some [Byte.x89; Byte.x50; Byte.x4e; Byte.x47] |}
              [Byte.x89; Byte.x50; Byte.x4e; Byte.x47])
    as (_ & Hstored & _ & _ & Hverify); try reflexivity; [by vm_compute|].
  split; [exact Hstored|].
  by apply (Hverify t0 "JBSWY3DPEHPK3PXP").
Defined.

Lemma RemoveMember_keeps_admin_status_witness :
  db.membership_of ledger family ann = Some ann_membership
  ∧ (let r := db.RemoveMember ledger family ann in
     r.1 = None
     ∧ db.membership_of r.2 family ann
       = Some (GroupMembership.with_IsMember false ann_membership)
     ∧ db.IsAdmin r.2 family ann = db.IsAdmin ledger family ann).
Proof.
  split; [reflexivity|].
  destruct (RemoveMember_keeps_admin_status ledger family ann
              ann_membership)
    as (Hok & Hadmin & _ & _ & Hsame);
    [split; compute_done | reflexivity |].
  split; [exact Hok|]. split; [|exact Hsame].
  by apply Hadmin.
Defined.

Lemma CreateTransaction_log_entry_witness :
  let r :=
    db.CreateTransactionFromPaymentPlan 41%N 1767225700 ledger family
      false false ann bob "Pocket money" "" 200 uuid_zero in
  r.1 = None
  ∧ ∃ e, db.transaction_log_entries r.2
         = db.transaction_log_entries ledger ++ [e]
      ∧ TransactionLogEntry.BalanceDifferenceSender e = -200
      ∧ TransactionLogEntry.BalanceDifferenceReceiver e = 200
      ∧ TransactionLogEntry.SenderId e = User.Id ann
      ∧ (∃ b, db.prior_balance ledger family ann b
           ∧ TransactionLogEntry.NewBalanceSender e = Go.sub b 200)
      ∧ TransactionLogEntry.ReceiverId e = User.Id bob
      ∧ (∃ b, db.prior_balance ledger family bob b
           ∧ TransactionLogEntry.NewBalanceReceiver e = Go.add b 200).
Proof.
  intros r.
  destruct (CreateTransaction_log_entry 41%N 1767225700 ledger family
              false false ann bob "Pocket money" "" 200 uuid_zero)
    as (Hok & e & Hlog & _ & _ & _ & Hneg & Hpos & Hsender & Hreceiver & _).
  split; [exact Hok|]. exists e. split; [exact Hlog|].
  split; [apply Hneg; compute_done|]. split; [exact Hpos|].
  destruct (Hsender eq_refl) as (Hsid & b & Hb & Hnew & _).
  destruct (Hreceiver eq_refl) as (Hrid & b' & Hb' & Hnew' & _).
  split; [exact Hsid|]. split; [by exists b|].
  split; [exact Hrid|]. by exists b'.
Defined.

(** The same transfer, run: Ann had 500 and sends 200 to Bob, who had
    no entry. *)
Example CreateTransaction_pocket_money :
  last (db.transaction_log_entries
          (db.CreateTransaction 41%N 1767225700 ledger family false false
             ann bob "Pocket money" "" 200).2)
  = Some {| TransactionLogEntry.Id := 41%N;
            TransactionLogEntry.Created := 1767225700;
            TransactionLogEntry.Title := "Pocket money";
            TransactionLogEntry.Description := "";
            TransactionLogEntry.Amount := 200;
            TransactionLogEntry.GroupId := 7%N;
            TransactionLogEntry.SenderIsBank := false;
            TransactionLogEntry.SenderId := 1%N;
            TransactionLogEntry.NewBalanceSender := 300;
            TransactionLogEntry.BalanceDifferenceSender := -200;
            TransactionLogEntry.ReceiverIsBank := false;
            TransactionLogEntry.ReceiverId := 2%N;
            TransactionLogEntry.NewBalanceReceiver := 200;
            TransactionLogEntry.BalanceDifferenceReceiver := 200;
            TransactionLogEntry.PaymentPlanId := uuid_zero |}.
Proof. reflexivity. Qed.

(** *** Where the specification and the code part ways *)

(** C2.  The specification wants every stored credential to be a hash of
    the generated code.  Run on a request of Ann, [SendConfirmEmail]
    writes a code row that holds the very string that was generated and
    mailed, and [Login] writes a token row that holds the very string it
    returns: the store receives the plaintext, not a hash of it.  (The
    handlers, in contrast, compare a stored [CodeHash] with
    [services.HashToken] of what is presented.) *)
Theorem generated_codes_stored_in_plaintext :
  let r :=
    @services.SendConfirmEmail externals cfg (at_time t0) (constant 10)
      50%N 60%N registered "a@x.com" in
  let l :=
    @services.Login externals 1 (constant 11) t0 70%N registered "a@x.com"
      "pw1" in
  services.generateRandomString (constant 10) 0 6 = Ok "AAAAAA"
  ∧ r.1.1 = None
  ∧ Body <$> r.2 = ["Ann, der Code lautet: AAAAAA"]
  ∧ EmailCode.Code <$> services.email_codes r.1.2 = ["AAAAAA"]
  ∧ ¬ (∀ c, c ∈ services.email_codes r.1.2 → EmailCode.Code c ≠ "AAAAAA")
  ∧ ∃ token d', l = Some (token, None, d')
      ∧ LoginToken.Code <$> services.login_tokens d' = [token]
      ∧ ¬ (∀ t, t ∈ services.login_tokens d' → LoginToken.Code t ≠ token).
Proof.
  intros r l. do 4 (split; [reflexivity|]). split.
  - intros Hnot.
    assert ("AAAAAA" ∈ EmailCode.Code <$> services.email_codes r.1.2)
      as (c & Hc & Hin)%list_elem_of_fmap by (vm_compute; left).
    by apply (Hnot c).
  - eexists _, _. split; [reflexivity|]. split; [reflexivity|].
    intros Hnot. simpl in Hnot.
    eapply (Hnot _ (list_elem_of_here _ _)). reflexivity.
Qed.

(** C3, at a concrete request.  Ann registered without a secret and never
    verified a one-time code; after [Activate2FAOTP] alone her record
    holds the new secret while the two-factor flag is still false. *)
Lemma otp_secret_stored_before_verification :
  let r :=
    @services.Activate2FAOTP externals generated cfg registered "a@x.com"
      "pw1" in
  services.user_by_email registered "a@x.com" = Some ann
  ∧ User.OtpSecret ann = "" ∧ User.TwoFaOTPEnabled ann = false
  ∧ r.1 = ([Byte.x89; Byte.x50; Byte.x4e; Byte.x47], None)
  ∧ ∃ u, services.user_by_email r.2 "a@x.com" = Some u
      ∧ User.TwoFaOTPEnabled u = false
      ∧ User.OtpSecret u = "JBSWY3DPEHPK3PXP"
      ∧ User.OtpSecret u ≠ "".
Proof.
  intros r. do 4 (split; [reflexivity|]).
  eexists. split; [reflexivity|]. by repeat split.
Qed.

End Samples.

(** * Further properties of the code *)

(** ** More facts about the GORM statements *)

Section MoreTableFacts.
Context {T : Type} (pk : T → UUID).
Implicit Types (rows : list T) (cond : T → bool).

Lemma First_is_Some cond rows :
  is_Some (gorm.First pk cond rows) ↔ ∃ r, r ∈ rows ∧ cond r = true.
Proof.
  split.
  - intros [r Hr]. exists r. by apply First_Some in Hr.
  - intros (r & Hin & Hc).
    destruct (gorm.First pk cond rows) eqn:E; [by eexists|].
    rewrite First_None in E. specialize (E r Hin). congruence.
Qed.

Lemma First_snoc_miss cond rows x :
  cond x = false →
  gorm.First pk cond (rows ++ [x]) = gorm.First pk cond rows.
Proof.
  unfold gorm.First. intros Hx.
  induction rows as [|y rows IH]; simpl; [by rewrite Hx|]. by rewrite IH.
Qed.

(** A query that sees the same rows answers the same. *)
Lemma First_is_Some_equiv cond rows rows' :
  (∀ r, r ∈ rows ∧ cond r = true → ∃ r', r' ∈ rows' ∧ cond r' = true) →
  (∀ r, r ∈ rows' ∧ cond r = true → ∃ r', r' ∈ rows ∧ cond r' = true) →
  is_Some (gorm.First pk cond rows') ↔ is_Some (gorm.First pk cond rows).
Proof.
  intros H1 H2. rewrite !First_is_Some. split.
  - intros (r & Hr). by apply (H2 r).
  - intros (r & Hr). by apply (H1 r).
Qed.

Lemma Delete_elem_of id rows r :
  id ≠ uuid_zero →
  r ∈ gorm.Delete pk id rows ↔ r ∈ rows ∧ pk r ≠ id.
Proof.
  intros Hid. unfold gorm.Delete. rewrite decide_False by done.
  rewrite list_elem_of_filter. tauto.
Qed.

(** Under the primary key, [Updates] rewrites the one row it names. *)
Lemma Updates_elem_of id (set : T → T) rows r0 r :
  gorm.primary_key pk rows → r0 ∈ rows → pk r0 = id →
  r ∈ gorm.Updates pk id set rows ↔ r = set r0 ∨ (r ∈ rows ∧ r ≠ r0).
Proof.
  intros Hpk Hr0 Hid.
  assert (id ≠ uuid_zero) as Hnz
    by (rewrite <- Hid; by eapply primary_key_nonzero).
  unfold gorm.Updates. rewrite decide_False by done.
  rewrite list_elem_of_fmap. split.
  - intros (x & -> & Hx). case_decide as Hd.
    + left. f_equal. eapply primary_key_inj; [done..|]. congruence.
    + right. split; [done|]. intros ->. done.
  - intros [->|[Hr Hne]].
    + exists r0. by rewrite decide_True.
    + exists r. split; [|done]. rewrite decide_False; [done|].
      intros Heq. apply Hne. eapply primary_key_inj; [done..|]. congruence.
Qed.

Lemma filter_all (P : T → Prop) `{∀ r, Decision (P r)} rows :
  (∀ r, r ∈ rows → P r) → filter P rows = rows.
Proof.
  induction rows as [|x rows IH]; intros Hall; [done|].
  rewrite filter_cons_True by (apply Hall; constructor).
  f_equal. apply IH. intros r Hr. apply Hall. by constructor.
Qed.

(** Deleting the row just created gives the table back. *)
Lemma Delete_Create id x rows :
  pk x = id → gorm.fresh pk id rows →
  gorm.Delete pk id (gorm.Create x rows) = rows.
Proof.
  intros Hid [Hnz Hfresh]. unfold gorm.Create, gorm.Delete.
  rewrite decide_False by done.
  rewrite filter_app, filter_cons_False, filter_nil, app_nil_r by tauto.
  apply filter_all. intros r Hr Heq. apply Hfresh. rewrite <- Heq.
  by apply list_elem_of_fmap_2.
Qed.
End MoreTableFacts.

(** ** Membership in the group store *)

Section Membership.
Import db.

Lemma eta_query (q : bool * option error) (b : bool) :
  q.2 = None → (q.1 = true ↔ b = true) → q = (b, None).
Proof.
  destruct q as [b' e]. simpl. intros -> Hiff. f_equal.
  by apply Bool.eq_true_iff_eq.
Qed.

Lemma same_query (q q' : bool * option error) :
  q.2 = None → q'.2 = None → (q.1 = true ↔ q'.1 = true) → q = q'.
Proof.
  destruct q as [b e], q' as [b' e']. simpl. intros -> -> Hiff. f_equal.
  by apply Bool.eq_true_iff_eq.
Qed.

Lemma IsMember_true d group user :
  (IsMember d group user).1 = true
  ↔ ∃ m, m ∈ group_memberships d
      ∧ GroupMembership.GroupId m = Group.Id group
      ∧ GroupMembership.UserId m = User.Id user
      ∧ GroupMembership.IsMember m = true.
Proof.
  unfold IsMember.
  destruct (gorm.First _ _ _) as [m|] eqn:E; simpl.
  - split; [intros _|done]. apply First_Some in E as [Hin Hc].
    apply andb_true_iff in Hc as [[H1 H2]%andb_true_iff H3].
    apply bool_decide_eq_true in H1, H2, H3. by exists m.
  - split; [done|]. intros (m & Hin & H1 & H2 & H3).
    rewrite First_None in E. specialize (E m Hin).
    by rewrite !bool_decide_eq_true_2 in E.
Qed.

Lemma IsAdmin_true d group user :
  (IsAdmin d group user).1 = true
  ↔ ∃ m, m ∈ group_memberships d
      ∧ GroupMembership.GroupId m = Group.Id group
      ∧ GroupMembership.UserId m = User.Id user
      ∧ GroupMembership.IsAdmin m = true.
Proof.
  unfold IsAdmin.
  destruct (gorm.First _ _ _) as [m|] eqn:E; simpl.
  - split; [intros _|done]. apply First_Some in E as [Hin Hc].
    apply andb_true_iff in Hc as [[H1 H2]%andb_true_iff H3].
    apply bool_decide_eq_true in H1, H2, H3. by exists m.
  - split; [done|]. intros (m & Hin & H1 & H2 & H3).
    rewrite First_None in E. specialize (E m Hin).
    by rewrite !bool_decide_eq_true_2 in E.
Qed.

Lemma IsMember_no_error d group user : (IsMember d group user).2 = None.
Proof. unfold IsMember. by destruct (gorm.First _ _ _). Qed.

Lemma IsAdmin_no_error d group user : (IsAdmin d group user).2 = None.
Proof. unfold IsAdmin. by destruct (gorm.First _ _ _). Qed.

Lemma membership_of_None d group user :
  membership_of d group user = None →
  ∀ m, m ∈ group_memberships d →
    ¬ (GroupMembership.GroupId m = Group.Id group
       ∧ GroupMembership.UserId m = User.Id user).
Proof.
  intros E m Hin [H1 H2]. unfold membership_of in E.
  rewrite First_None in E. specialize (E m Hin).
  by rewrite !bool_decide_eq_true_2 in E.
Qed.

(** The record of the pair, under the guarantees of the table. *)
Lemma membership_of_unique d group user m x :
  memberships_ok d → membership_of d group user = Some m →
  x ∈ group_memberships d →
  GroupMembership.GroupId x = Group.Id group →
  GroupMembership.UserId x = User.Id user → x = m.
Proof.
  intros Hd (Hin & Hg & Hu)%membership_of_Some Hx Hxg Hxu.
  apply (memberships_one d Hd); congruence.
Qed.

Lemma updates_from_with_IsMember m :
  GroupMembership.updates_from (GroupMembership.with_IsMember true m) m
  = GroupMembership.with_IsMember true m.
Proof.
  unfold GroupMembership.updates_from, GroupMembership.with_IsMember.
  simpl. repeat case_decide; by destruct (GroupMembership.IsAdmin m).
Qed.

(** *** The rows after each of the four operations *)

Lemma row_eq_by_key d (x m : GroupMembership.t) :
  gorm.primary_key GroupMembership.Id (group_memberships d) →
  x ∈ group_memberships d → m ∈ group_memberships d →
  GroupMembership.Id x ≠ GroupMembership.Id m ↔ x ≠ m.
Proof.
  intros Hpk Hx Hm. split; [by intros Hne ->|].
  intros Hne Hid. apply Hne. by eapply primary_key_inj.
Qed.

Lemma AddMember_rows newId d group user :
  gorm.primary_key GroupMembership.Id (group_memberships d) →
  ∃ m1, GroupMembership.GroupId m1 = Group.Id group
    ∧ GroupMembership.UserId m1 = User.Id user
    ∧ GroupMembership.IsMember m1 = true
    ∧ GroupMembership.IsAdmin m1
      = from_option GroupMembership.IsAdmin false
          (membership_of d group user)
    ∧ GroupMembership.Id m1
      = from_option GroupMembership.Id newId (membership_of d group user)
    ∧ ∀ x, x ∈ group_memberships (AddMember newId d group user).2
        ↔ x = m1 ∨ (x ∈ group_memberships d
                    ∧ Some x ≠ membership_of d group user).
Proof.
  intros Hpk. unfold AddMember.
  destruct (membership_of d group user) as [m|] eqn:Hm; simpl.
  - pose proof Hm as (Hin & Hg & Hu)%membership_of_Some.
    exists (GroupMembership.with_IsMember true m).
    do 5 (split; [done|]). intros x.
    rewrite (Updates_elem_of GroupMembership.Id _ _ _ m) by done.
    rewrite updates_from_with_IsMember.
    split; (intros [->|[Hx Hne]]; [by left|right; split; [done|congruence]]).
  - exists {| GroupMembership.Id := newId;
              GroupMembership.GroupName := Group.Name group;
              GroupMembership.GroupId := Group.Id group;
              GroupMembership.UserName := User.Name user;
              GroupMembership.UserId := User.Id user;
              GroupMembership.IsMember := true;
              GroupMembership.IsAdmin := false |}.
    do 5 (split; [reflexivity|]). intros x.
    unfold gorm.Create. rewrite elem_of_app, list_elem_of_singleton.
    split; [intros [Hx| ->]; [by right|by left]
           |intros [->|[Hx _]]; [by right|by left]].
Qed.

Lemma AddAdmin_rows newId d group user :
  gorm.primary_key GroupMembership.Id (group_memberships d) →
  ∃ m1, GroupMembership.GroupId m1 = Group.Id group
    ∧ GroupMembership.UserId m1 = User.Id user
    ∧ GroupMembership.IsAdmin m1 = true
    ∧ GroupMembership.IsMember m1
      = from_option GroupMembership.IsMember false
          (membership_of d group user)
    ∧ GroupMembership.Id m1
      = from_option GroupMembership.Id newId (membership_of d group user)
    ∧ ∀ x, x ∈ group_memberships (AddAdmin newId d group user).2
        ↔ x = m1 ∨ (x ∈ group_memberships d
                    ∧ Some x ≠ membership_of d group user).
Proof.
  intros Hpk. unfold AddAdmin.
  destruct (membership_of d group user) as [m|] eqn:Hm; simpl.
  - pose proof Hm as (Hin & Hg & Hu)%membership_of_Some.
    exists (GroupMembership.with_IsAdmin true m).
    do 5 (split; [done|]). intros x.
    rewrite (Updates_elem_of GroupMembership.Id _ _ _ m) by done.
    split; (intros [->|[Hx Hne]]; [by left|right; split; [done|congruence]]).
  - exists {| GroupMembership.Id := newId;
              GroupMembership.GroupName := Group.Name group;
              GroupMembership.GroupId := Group.Id group;
              GroupMembership.UserName := User.Name user;
              GroupMembership.UserId := User.Id user;
              GroupMembership.IsMember := false;
              GroupMembership.IsAdmin := true |}.
    do 5 (split; [reflexivity|]). intros x.
    unfold gorm.Create. rewrite elem_of_app, list_elem_of_singleton.
    split; [intros [Hx| ->]; [by right|by left]
           |intros [->|[Hx _]]; [by right|by left]].
Qed.

Lemma RemoveMember_rows d group user m :
  gorm.primary_key GroupMembership.Id (group_memberships d) →
  membership_of d group user = Some m →
  ∀ x, x ∈ group_memberships (RemoveMember d group user).2
    ↔ (GroupMembership.IsAdmin m = true
       ∧ x = GroupMembership.with_IsMember false m)
      ∨ (x ∈ group_memberships d ∧ x ≠ m).
Proof.
  intros Hpk Hm x. pose proof Hm as (Hin & Hg & Hu)%membership_of_Some.
  assert (GroupMembership.Id m ≠ uuid_zero) as Hnz
    by by eapply primary_key_nonzero.
  unfold RemoveMember. rewrite Hm.
  destruct (GroupMembership.IsAdmin m) eqn:Ha; simpl.
  - rewrite (Updates_elem_of GroupMembership.Id _ _ _ m) by done.
    split; [intros [->|Hx]; [by left|by right]
           |intros [[_ ->]|Hx]; [by left|by right]].
  - rewrite Delete_elem_of by done. split.
    + intros [Hx Hne]. right. split; [done|]. by intros ->.
    + intros [[? _]|[Hx Hne]]; [done|]. split; [done|].
      by apply (row_eq_by_key d).
Qed.

Lemma RemoveAdmin_rows d group user m :
  gorm.primary_key GroupMembership.Id (group_memberships d) →
  membership_of d group user = Some m →
  ∀ x, x ∈ group_memberships (RemoveAdmin d group user).2
    ↔ (GroupMembership.IsMember m = true
       ∧ x = GroupMembership.with_IsAdmin false m)
      ∨ (x ∈ group_memberships d ∧ x ≠ m).
Proof.
  intros Hpk Hm x. pose proof Hm as (Hin & Hg & Hu)%membership_of_Some.
  assert (GroupMembership.Id m ≠ uuid_zero) as Hnz
    by by eapply primary_key_nonzero.
  unfold RemoveAdmin. rewrite Hm.
  destruct (GroupMembership.IsMember m) eqn:Ha; simpl.
  - rewrite (Updates_elem_of GroupMembership.Id _ _ _ m) by done.
    split; [intros [->|Hx]; [by left|by right]
           |intros [[_ ->]|Hx]; [by left|by right]].
  - rewrite Delete_elem_of by done. split.
    + intros [Hx Hne]. right. split; [done|]. by intros ->.
    + intros [[? _]|[Hx Hne]]; [done|]. split; [done|].
      by apply (row_eq_by_key d).
Qed.

End Membership.

(** closes the goals that are left once the rows are known *)
Ltac rows_done :=
  simpl in *; intuition (subst; simpl in *; eauto; congruence).

Section MembershipTheorems.
Import db.

Lemma IsMember_ext d d' group user :
  ((∃ m, m ∈ group_memberships d'
      ∧ GroupMembership.GroupId m = Group.Id group
      ∧ GroupMembership.UserId m = User.Id user
      ∧ GroupMembership.IsMember m = true)
   ↔ (∃ m, m ∈ group_memberships d
        ∧ GroupMembership.GroupId m = Group.Id group
        ∧ GroupMembership.UserId m = User.Id user
        ∧ GroupMembership.IsMember m = true)) →
  IsMember d' group user = IsMember d group user.
Proof.
  intros Hiff.
  apply same_query; [apply IsMember_no_error | apply IsMember_no_error |].
  by rewrite !IsMember_true.
Qed.

Lemma IsAdmin_ext d d' group user :
  ((∃ m, m ∈ group_memberships d'
      ∧ GroupMembership.GroupId m = Group.Id group
      ∧ GroupMembership.UserId m = User.Id user
      ∧ GroupMembership.IsAdmin m = true)
   ↔ (∃ m, m ∈ group_memberships d
        ∧ GroupMembership.GroupId m = Group.Id group
        ∧ GroupMembership.UserId m = User.Id user
        ∧ GroupMembership.IsAdmin m = true)) →
  IsAdmin d' group user = IsAdmin d group user.
Proof.
  intros Hiff.
  apply same_query; [apply IsAdmin_no_error | apply IsAdmin_no_error |].
  by rewrite !IsAdmin_true.
Qed.

(** X1.  [AddMember] makes the user a member of the group: [IsMember]
    answers true afterwards, whether the user had a record or not.  It
    does not change whether the user is an admin, nor what [IsMember] and
    [IsAdmin] answer for any other group or user, nor the payment plans
    and the transaction log. *)
Theorem AddMember_makes_member
    (newId : UUID) (d : DB) (group : Group.t) (user : User.t) :
  gorm.primary_key GroupMembership.Id (group_memberships d) →
  let r := AddMember newId d group user in
  r.1 = None
  ∧ IsMember r.2 group user = (true, None)
  ∧ IsAdmin r.2 group user = IsAdmin d group user
  ∧ (∀ group' user',
       Group.Id group' ≠ Group.Id group ∨ User.Id user' ≠ User.Id user →
       IsMember r.2 group' user' = IsMember d group' user'
       ∧ IsAdmin r.2 group' user' = IsAdmin d group' user')
  ∧ payment_plans r.2 = payment_plans d
  ∧ transaction_log_entries r.2 = transaction_log_entries d.
Proof.
  intros Hpk r.
  destruct (AddMember_rows newId d group user Hpk)
    as (m1 & Hg & Hu & Hmem & Hadm & _ & Hrows).
  fold r in Hrows.
  assert (∀ m, membership_of d group user = Some m →
            m ∈ group_memberships d
            ∧ GroupMembership.GroupId m = Group.Id group
            ∧ GroupMembership.UserId m = User.Id user) as Hof
    by (intros m; apply membership_of_Some).
  split; [subst r; unfold AddMember; by destruct (membership_of _ _ _)|].
  split; [|split; [|split; [|split]]].
  - apply eta_query; [apply IsMember_no_error|].
    rewrite IsMember_true. split; [done|]. intros _. exists m1.
    rewrite Hrows. rows_done.
  - apply IsAdmin_ext. split.
    + intros (x & [->|[Hx _]]%Hrows & Hxg & Hxu & Hxa); [|by exists x].
      destruct (membership_of d group user) as [m|]; [|simpl in *; congruence].
      destruct (Hof m eq_refl) as (? & ? & ?). exists m. simpl in *.
      repeat split; congruence.
    + intros (x & Hx & Hxg & Hxu & Hxa).
      destruct (decide (Some x = membership_of d group user)) as [Heq|Hne].
      * exists m1. rewrite Hrows, <- Heq in *. rows_done.
      * exists x. rewrite Hrows. rows_done.
  - intros group' user' Hother. split.
    + apply IsMember_ext. split.
      * intros (x & [->|[Hx _]]%Hrows & Hxg & Hxu & Hxa);
          [rows_done | by exists x].
      * intros (x & Hx & Hxg & Hxu & Hxa). exists x. rewrite Hrows.
        split; [|done]. right. split; [done|]. intros Heq.
        symmetry in Heq. apply Hof in Heq. rows_done.
    + apply IsAdmin_ext. split.
      * intros (x & [->|[Hx _]]%Hrows & Hxg & Hxu & Hxa);
          [rows_done | by exists x].
      * intros (x & Hx & Hxg & Hxu & Hxa). exists x. rewrite Hrows.
        split; [|done]. right. split; [done|]. intros Heq.
        symmetry in Heq. apply Hof in Heq. rows_done.
  - subst r. unfold AddMember. by destruct (membership_of _ _ _).
  - subst r. unfold AddMember. by destruct (membership_of _ _ _).
Qed.

(** X2.  [AddAdmin] makes the user an admin of the group: [IsAdmin]
    answers true afterwards, whether the user had a record or not.  It
    does not change whether the user is a member, nor what [IsMember] and
    [IsAdmin] answer for any other group or user, nor the payment plans
    and the transaction log. *)
Theorem AddAdmin_makes_admin
    (newId : UUID) (d : DB) (group : Group.t) (user : User.t) :
  gorm.primary_key GroupMembership.Id (group_memberships d) →
  let r := AddAdmin newId d group user in
  r.1 = None
  ∧ IsAdmin r.2 group user = (true, None)
  ∧ IsMember r.2 group user = IsMember d group user
  ∧ (∀ group' user',
       Group.Id group' ≠ Group.Id group ∨ User.Id user' ≠ User.Id user →
       IsMember r.2 group' user' = IsMember d group' user'
       ∧ IsAdmin r.2 group' user' = IsAdmin d group' user')
  ∧ payment_plans r.2 = payment_plans d
  ∧ transaction_log_entries r.2 = transaction_log_entries d.
Proof.
  intros Hpk r.
  destruct (AddAdmin_rows newId d group user Hpk)
    as (m1 & Hg & Hu & Hadm & Hmem & _ & Hrows).
  fold r in Hrows.
  assert (∀ m, membership_of d group user = Some m →
            m ∈ group_memberships d
            ∧ GroupMembership.GroupId m = Group.Id group
            ∧ GroupMembership.UserId m = User.Id user) as Hof
    by (intros m; apply membership_of_Some).
  split; [subst r; unfold AddAdmin; by destruct (membership_of _ _ _)|].
  split; [|split; [|split; [|split]]].
  - apply eta_query; [apply IsAdmin_no_error|].
    rewrite IsAdmin_true. split; [done|]. intros _. exists m1.
    rewrite Hrows. rows_done.
  - apply IsMember_ext. split.
    + intros (x & [->|[Hx _]]%Hrows & Hxg & Hxu & Hxa); [|by exists x].
      destruct (membership_of d group user) as [m|]; [|simpl in *; congruence].
      destruct (Hof m eq_refl) as (? & ? & ?). exists m. simpl in *.
      repeat split; congruence.
    + intros (x & Hx & Hxg & Hxu & Hxa).
      destruct (decide (Some x = membership_of d group user)) as [Heq|Hne].
      * exists m1. rewrite Hrows, <- Heq in *. rows_done.
      * exists x. rewrite Hrows. rows_done.
  - intros group' user' Hother. split.
    + apply IsMember_ext. split.
      * intros (x & [->|[Hx _]]%Hrows & Hxg & Hxu & Hxa);
          [rows_done | by exists x].
      * intros (x & Hx & Hxg & Hxu & Hxa). exists x. rewrite Hrows.
        split; [|done]. right. split; [done|]. intros Heq.
        symmetry in Heq. apply Hof in Heq. rows_done.
    + apply IsAdmin_ext. split.
      * intros (x & [->|[Hx _]]%Hrows & Hxg & Hxu & Hxa);
          [rows_done | by exists x].
      * intros (x & Hx & Hxg & Hxu & Hxa). exists x. rewrite Hrows.
        split; [|done]. right. split; [done|]. intros Heq.
        symmetry in Heq. apply Hof in Heq. rows_done.
  - subst r. unfold AddAdmin. by destruct (membership_of _ _ _).
  - subst r. unfold AddAdmin. by destruct (membership_of _ _ _).
Qed.

(** X3.  [RemoveAdmin] answers [ErrRecordNotFound] and changes nothing
    when the user has no record in the group.  Otherwise it succeeds and
    the user is no admin afterwards; whether the user is a member is not
    changed, the record of a user who is no member is deleted, and no
    other group or user, payment plan or log entry is touched. *)
Theorem RemoveAdmin_revokes_admin
    (d : DB) (group : Group.t) (user : User.t) :
  memberships_ok d →
  let r := RemoveAdmin d group user in
  (membership_of d group user = None → r = (Some ErrRecordNotFound, d))
  ∧ (∀ m, membership_of d group user = Some m →
       r.1 = None
       ∧ IsAdmin r.2 group user = (false, None)
       ∧ IsMember r.2 group user = IsMember d group user
       ∧ (GroupMembership.IsMember m = false →
          membership_of r.2 group user = None)
       ∧ (∀ group' user',
            Group.Id group' ≠ Group.Id group
            ∨ User.Id user' ≠ User.Id user →
            IsMember r.2 group' user' = IsMember d group' user'
            ∧ IsAdmin r.2 group' user' = IsAdmin d group' user')
       ∧ payment_plans r.2 = payment_plans d
       ∧ transaction_log_entries r.2 = transaction_log_entries d).
Proof.
  intros Hd r. split.
  { intros Hm. subst r. unfold RemoveAdmin. by rewrite Hm. }
  intros m Hm.
  pose proof (RemoveAdmin_rows d group user m (memberships_pk d Hd) Hm)
    as Hrows. fold r in Hrows.
  pose proof Hm as (Hin & Hg & Hu)%membership_of_Some.
  assert (∀ x, x ∈ group_memberships d →
            GroupMembership.GroupId x = Group.Id group →
            GroupMembership.UserId x = User.Id user → x = m) as Hone
    by (intros x; by apply membership_of_unique).
  split; [subst r; unfold RemoveAdmin; rewrite Hm;
          by destruct (GroupMembership.IsMember m)|].
  split; [|split; [|split; [|split; [|split]]]].
  - apply eta_query; [apply IsAdmin_no_error|].
    rewrite IsAdmin_true. split; [|done].
    intros (x & [[_ ->]|[Hx Hne]]%Hrows & Hxg & Hxu & Hxa); [done|].
    destruct Hne. by apply Hone.
  - apply IsMember_ext. split.
    + intros (x & [[Hmem ->]|[Hx Hne]]%Hrows & Hxg & Hxu & Hxa).
      * by exists m.
      * by exists x.
    + intros (x & Hx & Hxg & Hxu & Hxa).
      assert (x = m) as -> by by apply Hone.
      exists (GroupMembership.with_IsAdmin false m). rewrite Hrows.
      rows_done.
  - intros Hmem. unfold membership_of. apply First_None. intros x Hx.
    apply Hrows in Hx as [[? _]|[Hx Hne]]; [congruence|].
    apply andb_false_iff.
    destruct (decide (GroupMembership.GroupId x = Group.Id group));
      [|left; by apply bool_decide_eq_false_2].
    right. apply bool_decide_eq_false_2. intros Hxu. by apply Hne, Hone.
  - intros group' user' Hother. split.
    + apply IsMember_ext. split.
      * intros (x & [[Hmem ->]|[Hx Hne]]%Hrows & Hxg & Hxu & Hxa);
          [rows_done | by exists x].
      * intros (x & Hx & Hxg & Hxu & Hxa). exists x. rewrite Hrows.
        split; [|done]. right. split; [done|]. intros ->. rows_done.
    + apply IsAdmin_ext. split.
      * intros (x & [[Hmem ->]|[Hx Hne]]%Hrows & Hxg & Hxu & Hxa);
          [rows_done | by exists x].
      * intros (x & Hx & Hxg & Hxu & Hxa). exists x. rewrite Hrows.
        split; [|done]. right. split; [done|]. intros ->. rows_done.
  - subst r. unfold RemoveAdmin. rewrite Hm.
    by destruct (GroupMembership.IsMember m).
  - subst r. unfold RemoveAdmin. rewrite Hm.
    by destruct (GroupMembership.IsMember m).
Qed.

(** X4.  [RemoveMember] answers [ErrRecordNotFound] and changes nothing
    when the user has no record in the group.  Otherwise the user is no
    member afterwards, every payment plan of the group that the user sends
    or receives is deleted and no other plan is, the transaction log is
    kept, and what [IsMember] answers for any other group or user is not
    changed. *)
Theorem RemoveMember_revokes_membership
    (d : DB) (group : Group.t) (user : User.t) :
  memberships_ok d →
  let r := RemoveMember d group user in
  (membership_of d group user = None → r = (Some ErrRecordNotFound, d))
  ∧ (∀ m, membership_of d group user = Some m →
       IsMember r.2 group user = (false, None)
       ∧ (GroupMembership.IsAdmin m = false →
          membership_of r.2 group user = None)
       ∧ (∀ p, p ∈ payment_plans r.2
            ↔ p ∈ payment_plans d
              ∧ ¬ (PaymentPlan.GroupId p = Group.Id group
                   ∧ (PaymentPlan.SenderId p = User.Id user
                      ∨ PaymentPlan.ReceiverId p = User.Id user)))
       ∧ transaction_log_entries r.2 = transaction_log_entries d
       ∧ (∀ group' user',
            Group.Id group' ≠ Group.Id group
            ∨ User.Id user' ≠ User.Id user →
            IsMember r.2 group' user' = IsMember d group' user')).
Proof.
  intros Hd r. split.
  { intros Hm. subst r. unfold RemoveMember. by rewrite Hm. }
  intros m Hm.
  pose proof (RemoveMember_rows d group user m (memberships_pk d Hd) Hm)
    as Hrows. fold r in Hrows.
  pose proof Hm as (Hin & Hg & Hu)%membership_of_Some.
  assert (∀ x, x ∈ group_memberships d →
            GroupMembership.GroupId x = Group.Id group →
            GroupMembership.UserId x = User.Id user → x = m) as Hone
    by (intros x; by apply membership_of_unique).
  split; [|split; [|split; [|split]]].
  - apply eta_query; [apply IsMember_no_error|].
    rewrite IsMember_true. split; [|done].
    intros (x & [[_ ->]|[Hx Hne]]%Hrows & Hxg & Hxu & Hxa); [done|].
    destruct Hne. by apply Hone.
  - intros Hadm. unfold membership_of. apply First_None. intros x Hx.
    apply Hrows in Hx as [[? _]|[Hx Hne]]; [congruence|].
    apply andb_false_iff.
    destruct (decide (GroupMembership.GroupId x = Group.Id group));
      [|left; by apply bool_decide_eq_false_2].
    right. apply bool_decide_eq_false_2. intros Hxu. by apply Hne, Hone.
  - intros p.
    assert (payment_plans r.2
            = gorm.DeleteWhere
                (λ p, (bool_decide (PaymentPlan.GroupId p = Group.Id group)
                       && bool_decide (PaymentPlan.SenderId p = User.Id user))
                      || (bool_decide
                            (PaymentPlan.GroupId p = Group.Id group)
                          && bool_decide
                               (PaymentPlan.ReceiverId p = User.Id user)))
                (payment_plans d)) as ->.
    { subst r. unfold RemoveMember. rewrite Hm.
      by destruct (GroupMembership.IsAdmin m). }
    unfold gorm.DeleteWhere. rewrite list_elem_of_filter.
    rewrite orb_false_iff, !andb_false_iff, !bool_decide_eq_false.
    destruct (decide (PaymentPlan.GroupId p = Group.Id group)),
      (decide (PaymentPlan.SenderId p = User.Id user)),
      (decide (PaymentPlan.ReceiverId p = User.Id user)); tauto.
  - subst r. unfold RemoveMember. rewrite Hm.
    by destruct (GroupMembership.IsAdmin m).
  - intros group' user' Hother. apply IsMember_ext. split.
    + intros (x & [[Hmem ->]|[Hx Hne]]%Hrows & Hxg & Hxu & Hxa);
        [rows_done | by exists x].
    + intros (x & Hx & Hxg & Hxu & Hxa). exists x. rewrite Hrows.
      split; [|done]. right. split; [done|]. intros ->. rows_done.
Qed.

End MembershipTheorems.

Section MembershipInvariant.
Import db.

Lemma memberships_ok_rows d d' (m1 : GroupMembership.t)
    (gone : GroupMembership.t → Prop) :
  memberships_ok d →
  gorm.primary_key GroupMembership.Id (group_memberships d') →
  (∀ x, x ∈ group_memberships d'
     ↔ x = m1 ∨ (x ∈ group_memberships d ∧ ¬ gone x)) →
  (∀ x, x ∈ group_memberships d →
     GroupMembership.GroupId x = GroupMembership.GroupId m1 →
     GroupMembership.UserId x = GroupMembership.UserId m1 → gone x) →
  GroupMembership.IsMember m1 || GroupMembership.IsAdmin m1 = true →
  memberships_ok d'.
Proof.
  intros Hd Hpk Hrows Hgone Hrole. split; [done| |].
  - intros x y [->|[Hx Hnx]]%Hrows [->|[Hy Hny]]%Hrows Hg Hu; [done| | |].
    + destruct Hny. by apply Hgone.
    + destruct Hnx. by apply Hgone.
    + by apply (memberships_one d Hd).
  - intros x [->|[Hx _]]%Hrows; [done|]. by apply (memberships_role d Hd).
Qed.

Lemma memberships_ok_subset d d' :
  memberships_ok d →
  gorm.primary_key GroupMembership.Id (group_memberships d') →
  (∀ x, x ∈ group_memberships d' → x ∈ group_memberships d) →
  memberships_ok d'.
Proof.
  intros Hd Hpk Hsub. split; [done| |].
  - intros x y Hx%Hsub Hy%Hsub. by apply (memberships_one d Hd).
  - intros x Hx%Hsub. by apply (memberships_role d Hd).
Qed.

(** X5.  The four operations on memberships keep the guarantees of the
    table: the primary key, at most one record per group and user, and no
    record that is neither member nor admin. *)
Theorem membership_guarantees_kept
    (newId : UUID) (d : DB) (group : Group.t) (user : User.t) :
  memberships_ok d →
  gorm.fresh GroupMembership.Id newId (group_memberships d) →
  memberships_ok (AddMember newId d group user).2
  ∧ memberships_ok (AddAdmin newId d group user).2
  ∧ memberships_ok (RemoveMember d group user).2
  ∧ memberships_ok (RemoveAdmin d group user).2.
Proof.
  intros Hd Hfresh. pose proof (memberships_pk d Hd) as Hpk.
  assert (∀ m x, membership_of d group user = Some m →
            x ∈ group_memberships d →
            GroupMembership.GroupId x = Group.Id group →
            GroupMembership.UserId x = User.Id user → x = m) as Hone
    by (intros m x Hm; by apply membership_of_unique).
  split; [|split; [|split]].
  - destruct (AddMember_rows newId d group user Hpk)
      as (m1 & Hg & Hu & Hmem & _ & _ & Hrows).
    apply (memberships_ok_rows d _ m1
             (λ x, Some x = membership_of d group user) Hd).
    + unfold AddMember.
      destruct (membership_of d group user) as [m|]; simpl.
      * by apply primary_key_Updates.
      * by apply primary_key_Create.
    + intros x. rewrite Hrows. rows_done.
    + intros x Hx Hxg Hxu.
      destruct (membership_of d group user) as [m|] eqn:Hm.
      * f_equal. apply (Hone m); congruence.
      * destruct (membership_of_None d group user Hm x Hx). split; congruence.
    + by rewrite Hmem.
  - destruct (AddAdmin_rows newId d group user Hpk)
      as (m1 & Hg & Hu & Hadm & _ & _ & Hrows).
    apply (memberships_ok_rows d _ m1
             (λ x, Some x = membership_of d group user) Hd).
    + unfold AddAdmin.
      destruct (membership_of d group user) as [m|]; simpl.
      * by apply primary_key_Updates.
      * by apply primary_key_Create.
    + intros x. rewrite Hrows. rows_done.
    + intros x Hx Hxg Hxu.
      destruct (membership_of d group user) as [m|] eqn:Hm.
      * f_equal. apply (Hone m); congruence.
      * destruct (membership_of_None d group user Hm x Hx). split; congruence.
    + rewrite Hadm. apply orb_true_r.
  - destruct (membership_of d group user) as [m|] eqn:Hm.
    2:{ unfold RemoveMember. by rewrite Hm. }
    pose proof (RemoveMember_rows d group user m Hpk Hm) as Hrows.
    pose proof Hm as (Hin & Hg & Hu)%membership_of_Some.
    assert (gorm.primary_key GroupMembership.Id
              (group_memberships (RemoveMember d group user).2)) as Hpk'.
    { unfold RemoveMember. rewrite Hm.
      destruct (GroupMembership.IsAdmin m); simpl.
      - by apply primary_key_Updates.
      - by apply primary_key_Delete. }
    destruct (GroupMembership.IsAdmin m) eqn:Ha.
    + apply (memberships_ok_rows d _ (GroupMembership.with_IsMember false m)
               (λ x, x = m) Hd Hpk').
      * intros x. rewrite Hrows. rows_done.
      * simpl. intros x Hx Hxg Hxu. apply (Hone m); congruence.
      * simpl. by rewrite Ha.
    + apply (memberships_ok_subset d _ Hd Hpk').
      intros x [[? _]|[Hx _]]%Hrows; [congruence | done].
  - destruct (membership_of d group user) as [m|] eqn:Hm.
    2:{ unfold RemoveAdmin. by rewrite Hm. }
    pose proof (RemoveAdmin_rows d group user m Hpk Hm) as Hrows.
    pose proof Hm as (Hin & Hg & Hu)%membership_of_Some.
    assert (gorm.primary_key GroupMembership.Id
              (group_memberships (RemoveAdmin d group user).2)) as Hpk'.
    { unfold RemoveAdmin. rewrite Hm.
      destruct (GroupMembership.IsMember m); simpl.
      - by apply primary_key_Updates.
      - by apply primary_key_Delete. }
    destruct (GroupMembership.IsMember m) eqn:Ha.
    + apply (memberships_ok_rows d _ (GroupMembership.with_IsAdmin false m)
               (λ x, x = m) Hd Hpk').
      * intros x. rewrite Hrows. rows_done.
      * simpl. intros x Hx Hxg Hxu. apply (Hone m); congruence.
      * simpl. by rewrite Ha.
    + apply (memberships_ok_subset d _ Hd Hpk').
      intros x [[? _]|[Hx _]]%Hrows; [congruence | done].
Qed.

(** X6.  [IsInGroup] answers true exactly when [IsMember] or [IsAdmin]
    does; under the guarantees of the table that is exactly when the user
    has a record in the group. *)
Theorem IsInGroup_member_or_admin
    (d : DB) (group : Group.t) (user : User.t) :
  IsInGroup d group user
  = ((IsMember d group user).1 || (IsAdmin d group user).1, None)
  ∧ (memberships_ok d →
     ((IsInGroup d group user).1 = true
      ↔ is_Some (membership_of d group user))).
Proof.
  assert ((IsInGroup d group user).2 = None) as Hnone
    by (unfold IsInGroup; by destruct (gorm.First _ _ _)).
  assert ((IsInGroup d group user).1 = true
          ↔ ∃ m, m ∈ group_memberships d ∧ in_group group user m = true)
    as Htrue.
  { rewrite <- (First_is_Some GroupMembership.Id). unfold IsInGroup.
    destruct (gorm.First _ _ _); simpl.
    - split; [by eexists | done].
    - split; [done | by intros [? ?]]. }
  split.
  - apply eta_query; [done|]. rewrite Htrue, orb_true_iff.
    rewrite IsMember_true, IsAdmin_true. unfold in_group. split.
    + intros (m & Hin & [Hc|Hc]%orb_true_iff);
        apply andb_true_iff in Hc as [[H1 H2]%andb_true_iff H3];
        apply bool_decide_eq_true in H1, H2, H3;
        [left|right]; by exists m.
    + intros [(m & Hin & H1 & H2 & H3)|(m & Hin & H1 & H2 & H3)];
        exists m; (split; [done|]); apply orb_true_iff; [left|right];
        by rewrite !bool_decide_eq_true_2.
  - intros Hd. rewrite Htrue. unfold membership_of.
    rewrite (First_is_Some GroupMembership.Id). unfold in_group. split.
    + intros (m & Hin & [Hc|Hc]%orb_true_iff);
        apply andb_true_iff in Hc as [Hc _]; by exists m.
    + intros (m & Hin & [H1 H2]%andb_true_iff). exists m. split; [done|].
      rewrite H1, H2. simpl.
      pose proof (memberships_role d Hd m Hin) as Hrole.
      by destruct (GroupMembership.IsMember m), (GroupMembership.IsAdmin m).
Qed.

End MembershipInvariant.

Section Counting.
Context {T : Type} (pk : T → UUID).
Context (P : T → Prop) `{∀ r, Decision (P r)}.

Lemma count_Updates id (set : T → T) (rows : list T) :
  (∀ r, r ∈ rows → pk r = id → (P (set r) ↔ P r)) →
  length (filter P (gorm.Updates pk id set rows)) = length (filter P rows).
Proof.
  unfold gorm.Updates. case_decide; [done|]. intros Hset.
  induction rows as [|x rows IH]; [done|]. csimpl.
  rewrite !filter_cons.
  assert (P (if decide (pk x = id) then set x else x) ↔ P x) as Hx.
  { case_decide; [|done]. apply Hset; [constructor | done]. }
  specialize (IH (λ r Hr, Hset r (list_elem_of_further _ _ _ Hr))).
  destruct (decide (P x)), (decide (P (if decide (pk x = id) then set x
                                       else x))); simpl; rewrite ?IH;
    tauto || done.
Qed.

Lemma count_Delete (rows : list T) m :
  gorm.primary_key pk rows → m ∈ rows →
  length (filter P rows)
  = (length (filter P (gorm.Delete pk (pk m) rows))
     + (if decide (P m) then 1 else 0))%nat.
Proof.
  intros Hpk Hm.
  assert (pk m ≠ uuid_zero) as Hnz by by eapply primary_key_nonzero.
  unfold gorm.Delete. rewrite decide_False by done.
  destruct Hpk as [Hnd _]. clear Hnz.
  induction rows as [|x rows IH]; [by apply elem_of_nil in Hm|].
  csimpl in Hnd. pose proof (NoDup_cons_1_1 _ _ Hnd) as Hx.
  apply NoDup_cons_1_2 in Hnd.
  set (Q := λ r : T, pk r ≠ pk m).
  apply elem_of_cons in Hm as [<-|Hm].
  - rewrite (filter_cons_False Q) by (intros Hne; by apply Hne).
    assert (filter Q rows = rows) as ->.
    { clear IH Hnd. induction rows as [|y rows IH]; [done|].
      csimpl in Hx. apply not_elem_of_cons in Hx as [Hne Hx].
      rewrite (filter_cons_True Q) by (by intros ?). f_equal. by apply IH. }
    rewrite filter_cons. destruct (decide (P m)); simpl; lia.
  - rewrite (filter_cons_True Q).
    2:{ intros Heq. apply Hx. rewrite Heq. by apply list_elem_of_fmap_2. }
    rewrite !filter_cons. specialize (IH Hnd Hm). fold Q in IH.
    destruct (decide (P x)); simpl; lia.
Qed.

Lemma count_Create (rows : list T) x :
  length (filter P (gorm.Create x rows))
  = (length (filter P rows) + (if decide (P x) then 1 else 0))%nat.
Proof.
  unfold gorm.Create. rewrite filter_app, length_app, filter_cons.
  by destruct (decide (P x)).
Qed.
End Counting.

Section UserCount.
Import db.

Lemma GetUserCount_counted d group :
  (GetUserCount d group).1
  = Z.of_nat (length (filter (counted group) (group_memberships d))).
Proof.
  reflexivity.
Qed.

Lemma counted_iff group m :
  counted group m
  ↔ GroupMembership.GroupId m = Group.Id group
    ∧ GroupMembership.IsMember m || GroupMembership.IsAdmin m = true.
Proof.
  unfold counted.
  rewrite orb_true_iff, !andb_true_iff, !bool_decide_eq_true.
  destruct (GroupMembership.IsMember m), (GroupMembership.IsAdmin m);
    simpl; intuition congruence.
Qed.

(** X7.  [GetUserCount] follows the four operations on memberships: it
    grows by one when [AddMember] or [AddAdmin] gives a record to a user
    who had none in the group and stays as it is when the user had one;
    it shrinks by one when [RemoveMember] or [RemoveAdmin] takes the last
    role of the user and stays as it is when the other role remains. *)
Theorem GetUserCount_follows_memberships
    (newId : UUID) (d : DB) (group : Group.t) (user : User.t) :
  memberships_ok d →
  (GetUserCount (AddMember newId d group user).2 group).1
  = (GetUserCount d group).1
    + (if membership_of d group user is Some _ then 0 else 1)
  ∧ (GetUserCount (AddAdmin newId d group user).2 group).1
    = (GetUserCount d group).1
      + (if membership_of d group user is Some _ then 0 else 1)
  ∧ ∀ m, membership_of d group user = Some m →
      (GetUserCount (RemoveMember d group user).2 group).1
      = (GetUserCount d group).1
        - (if GroupMembership.IsAdmin m then 0 else 1)
      ∧ (GetUserCount (RemoveAdmin d group user).2 group).1
        = (GetUserCount d group).1
          - (if GroupMembership.IsMember m then 0 else 1).
Proof.
  intros Hd. pose proof (memberships_pk d Hd) as Hpk.
  assert (∀ m, membership_of d group user = Some m →
            m ∈ group_memberships d
            ∧ (GroupMembership.GroupId m = Group.Id group
               ∧ GroupMembership.IsMember m || GroupMembership.IsAdmin m
                 = true)
            ∧ ∀ r, r ∈ group_memberships d →
                GroupMembership.Id r = GroupMembership.Id m → r = m)
    as Hfound.
  { intros m Hm. pose proof Hm as (Hin & Hg & Hu)%membership_of_Some.
    split; [done|]. split.
    - split; [done|]. by apply (memberships_role d Hd).
    - intros r Hr Hid. by eapply primary_key_inj. }
  rewrite !GetUserCount_counted. split; [|split].
  - unfold AddMember.
    destruct (membership_of d group user) as [m|] eqn:Hm; simpl.
    + destruct (Hfound m eq_refl) as (Hin & Hc & Hinj).
      rewrite count_Updates; [lia|]. intros r Hr Hid.
      apply Hinj in Hid as ->; [|done].
      rewrite updates_from_with_IsMember, !counted_iff.
      simpl. tauto.
    + rewrite count_Create, decide_True; [lia|].
      apply counted_iff. by simpl.
  - unfold AddAdmin.
    destruct (membership_of d group user) as [m|] eqn:Hm; simpl.
    + destruct (Hfound m eq_refl) as (Hin & Hc & Hinj).
      rewrite count_Updates; [lia|]. intros r Hr Hid.
      apply Hinj in Hid as ->; [|done].
      rewrite !counted_iff. simpl.
      rewrite orb_true_r. tauto.
    + rewrite count_Create, decide_True; [lia|].
      apply counted_iff. simpl. split; [done|by rewrite ?orb_true_r].
  - intros m Hm. destruct (Hfound m Hm) as (Hin & Hc & Hinj).
    assert (GroupMembership.Id m ≠ uuid_zero) as Hnz
      by by eapply primary_key_nonzero.
    split.
    + unfold RemoveMember. rewrite Hm.
      destruct (GroupMembership.IsAdmin m) eqn:Ha; simpl.
      * rewrite count_Updates; [lia|]. intros r Hr Hid.
        apply Hinj in Hid as ->; [|done].
        rewrite !counted_iff. simpl.
        rewrite Ha. tauto.
      * rewrite (count_Delete GroupMembership.Id _ (group_memberships d) m)
          by done.
        rewrite decide_True by (apply counted_iff; by rewrite Ha). lia.
    + unfold RemoveAdmin. rewrite Hm.
      destruct (GroupMembership.IsMember m) eqn:Ha; simpl.
      * rewrite count_Updates; [lia|]. intros r Hr Hid.
        apply Hinj in Hid as ->; [|done].
        rewrite !counted_iff. simpl.
        rewrite Ha. tauto.
      * rewrite (count_Delete GroupMembership.Id _ (group_memberships d) m)
          by done.
        rewrite decide_True by (apply counted_iff; by rewrite Ha). lia.
Qed.

End UserCount.

(** ** Balances after a transaction *)

Section LastRow.
Context {T : Type}.

(** [ORDER BY ... LIMIT 1] after an insert: the new row is compared with
    the row that was first before. *)
Lemma first_by_snoc (before : T → T → bool) cond rows x :
  (∀ a b c, before a b = true → before b c = true → before a c = true) →
  (∀ a b c, before a b = false → before b c = false → before a c = false) →
  gorm.first_by before cond (rows ++ [x])
  = if cond x then
      match gorm.first_by before cond rows with
      | Some l => if before x l then Some x else Some l
      | None => Some x
      end
    else gorm.first_by before cond rows.
Proof.
  intros Htrans Hneg. induction rows as [|r rows IH]; simpl.
  { by destruct (cond x). }
  rewrite IH. destruct (cond x) eqn:Hx; [|done].
  destruct (cond r) eqn:Hr; [|done].
  destruct (gorm.first_by before cond rows) as [m|]; [|done].
  destruct (before x m) eqn:Hxm, (before m r) eqn:Hmr;
    rewrite ?Hxm; try done.
  - by rewrite (Htrans x m r).
  - by rewrite (Hneg x m r).
Qed.
End LastRow.

Section Balances.
Import db.

Lemma created_desc_trans a b c :
  created_desc a b = true → created_desc b c = true →
  created_desc a c = true.
Proof.
  unfold created_desc.
  rewrite !orb_true_iff, !andb_true_iff, !Z.ltb_lt, !Z.eqb_eq, !N.ltb_lt.
  lia.
Qed.

Lemma created_desc_negtrans a b c :
  created_desc a b = false → created_desc b c = false →
  created_desc a c = false.
Proof.
  unfold created_desc.
  rewrite !orb_false_iff, !andb_false_iff, !Z.ltb_ge, !Z.eqb_neq, !N.ltb_ge.
  lia.
Qed.

(** The entry that [CreateTransactionFromPaymentPlan] writes. *)
Lemma CreateTransaction_entries newId created d group senderIsBank
    receiverIsBank sender receiver title description amount paymentPlanId :
  ∃ e,
    transaction_log_entries
      (CreateTransactionFromPaymentPlan newId created d group senderIsBank
         receiverIsBank sender receiver title description amount
         paymentPlanId).2
    = transaction_log_entries d ++ [e]
    ∧ group_memberships
        (CreateTransactionFromPaymentPlan newId created d group senderIsBank
           receiverIsBank sender receiver title description amount
           paymentPlanId).2 = group_memberships d
    ∧ payment_plans
        (CreateTransactionFromPaymentPlan newId created d group senderIsBank
           receiverIsBank sender receiver title description amount
           paymentPlanId).2 = payment_plans d
    ∧ TransactionLogEntry.Id e = newId
    ∧ TransactionLogEntry.Created e = created
    ∧ TransactionLogEntry.GroupId e = Group.Id group
    ∧ TransactionLogEntry.SenderId e
      = (if senderIsBank then uuid_zero else User.Id sender)
    ∧ TransactionLogEntry.ReceiverId e
      = (if receiverIsBank then uuid_zero else User.Id receiver)
    ∧ TransactionLogEntry.NewBalanceSender e
      = (if senderIsBank then 0
         else Go.sub (GetUserBalance d group sender) amount)
    ∧ TransactionLogEntry.NewBalanceReceiver e
      = (if receiverIsBank then 0
         else Go.add (GetUserBalance d group receiver) amount)
    ∧ TransactionLogEntry.PaymentPlanId e = paymentPlanId.
Proof.
  unfold CreateTransactionFromPaymentPlan. simpl. eexists.
  split; [reflexivity|]. simpl.
  by destruct senderIsBank, receiverIsBank.
Qed.

(** The last entry of a user once a row has been appended to the log. *)
Lemma GetLastTransactionLogEntry_snoc d d' e group user :
  transaction_log_entries d' = transaction_log_entries d ++ [e] →
  GetLastTransactionLogEntry d' group user
  = if entry_of group user e then
      match GetLastTransactionLogEntry d group user with
      | Some l => if created_desc e l then Some e else Some l
      | None => Some e
      end
    else GetLastTransactionLogEntry d group user.
Proof.
  intros Hrows. unfold GetLastTransactionLogEntry. rewrite Hrows.
  apply first_by_snoc; [apply created_desc_trans|apply created_desc_negtrans].
Qed.

(** The new entry comes first when it is newer than every entry of the
    log. *)
Lemma GetLastTransactionLogEntry_newest d d' e group user :
  transaction_log_entries d' = transaction_log_entries d ++ [e] →
  (∀ l, l ∈ transaction_log_entries d →
     TransactionLogEntry.Created l < TransactionLogEntry.Created e) →
  entry_of group user e = true →
  GetLastTransactionLogEntry d' group user = Some e.
Proof.
  intros Hrows Hnew He.
  rewrite (GetLastTransactionLogEntry_snoc d d' e) by done. rewrite He.
  destruct (GetLastTransactionLogEntry d group user) as [l|] eqn:Hl;
    [|done].
  apply first_by_Some in Hl as [Hl _]. apply Hnew in Hl.
  unfold created_desc. by rewrite (proj2 (Z.ltb_lt _ _) Hl).
Qed.

Lemma entry_of_iff group user e :
  entry_of group user e = true
  ↔ TransactionLogEntry.GroupId e = Group.Id group
    ∧ (TransactionLogEntry.SenderId e = User.Id user
       ∨ TransactionLogEntry.ReceiverId e = User.Id user).
Proof.
  unfold entry_of.
  rewrite orb_true_iff, !andb_true_iff, !bool_decide_eq_true. tauto.
Qed.

(** X8.  A transaction that is newer than every entry of the log moves
    the balances: afterwards [GetUserBalance] gives a sender that is not
    the bank the earlier balance minus the amount, and a receiver that is
    not the bank and not the sender the earlier balance plus the amount,
    both in Go's [int] arithmetic.  A participant who sends to their own
    account ends with the balance minus the amount. *)
Theorem CreateTransaction_moves_balances
    (newId : UUID) (created : Z) (d : DB) (group : Group.t)
    (senderIsBank receiverIsBank : bool) (sender receiver : User.t)
    (title description : string) (amount : Z) (paymentPlanId : UUID) :
  (∀ l, l ∈ transaction_log_entries d →
     TransactionLogEntry.Created l < created) →
  let d' :=
    (CreateTransactionFromPaymentPlan newId created d group senderIsBank
       receiverIsBank sender receiver title description amount
       paymentPlanId).2 in
  (senderIsBank = false →
   GetUserBalance d' group sender
   = Go.sub (GetUserBalance d group sender) amount)
  ∧ (receiverIsBank = false →
     User.Id receiver ≠ (if senderIsBank then uuid_zero else User.Id sender) →
     GetUserBalance d' group receiver
     = Go.add (GetUserBalance d group receiver) amount).
Proof.
  intros Hnew d'.
  destruct (CreateTransaction_entries newId created d group senderIsBank
              receiverIsBank sender receiver title description amount
              paymentPlanId)
    as (e & Hrows & _ & _ & _ & Hc & Hg & Hs & Hr & Hbs & Hbr & _).
  fold d' in Hrows. rewrite <- Hc in Hnew. split.
  - intros ->. unfold GetUserBalance at 1.
    rewrite (GetLastTransactionLogEntry_newest d d' e) by
      (try done; apply entry_of_iff; auto).
    by rewrite Hs, bool_decide_true.
  - intros -> Hne. unfold GetUserBalance at 1.
    rewrite (GetLastTransactionLogEntry_newest d d' e) by
      (try done; apply entry_of_iff; auto).
    rewrite Hs, bool_decide_false by done. done.
Qed.

(** X9.  A transaction leaves every other balance alone: [GetUserBalance]
    is unchanged for a user of another group and for a user who is
    neither the sender nor the receiver written to the entry. *)
Theorem CreateTransaction_other_balances
    (newId : UUID) (created : Z) (d : DB) (group : Group.t)
    (senderIsBank receiverIsBank : bool) (sender receiver : User.t)
    (title description : string) (amount : Z) (paymentPlanId : UUID)
    (group' : Group.t) (user : User.t) :
  Group.Id group' ≠ Group.Id group
  ∨ (User.Id user ≠ (if senderIsBank then uuid_zero else User.Id sender)
     ∧ User.Id user
       ≠ (if receiverIsBank then uuid_zero else User.Id receiver)) →
  GetUserBalance
    (CreateTransactionFromPaymentPlan newId created d group senderIsBank
       receiverIsBank sender receiver title description amount
       paymentPlanId).2 group' user
  = GetUserBalance d group' user.
Proof.
  intros Hother.
  destruct (CreateTransaction_entries newId created d group senderIsBank
              receiverIsBank sender receiver title description amount
              paymentPlanId)
    as (e & Hrows & _ & _ & _ & Hc & Hg & Hs & Hr & _).
  unfold GetUserBalance.
  rewrite (GetLastTransactionLogEntry_snoc d _ e) by done.
  destruct (entry_of group' user e) eqn:He; [|done].
  apply entry_of_iff in He. rewrite Hg, Hs, Hr in He.
  exfalso. intuition congruence.
Qed.

(** X10.  The balance is read from the entry with the latest [Created],
    not from the entry written last: a transaction stamped earlier than
    an entry a user already has in the group leaves that user's balance
    as it was, although the new entry is in the log. *)
Theorem CreateTransaction_backdated
    (newId : UUID) (created : Z) (d : DB) (group : Group.t)
    (senderIsBank receiverIsBank : bool) (sender receiver : User.t)
    (title description : string) (amount : Z) (paymentPlanId : UUID)
    (user : User.t) (l : TransactionLogEntry.t) :
  l ∈ transaction_log_entries d →
  entry_of group user l = true →
  created < TransactionLogEntry.Created l →
  let d' :=
    (CreateTransactionFromPaymentPlan newId created d group senderIsBank
       receiverIsBank sender receiver title description amount
       paymentPlanId).2 in
  GetUserBalance d' group user = GetUserBalance d group user
  ∧ length (transaction_log_entries d')
    = S (length (transaction_log_entries d)).
Proof.
  intros Hl Hel Hlt d'.
  destruct (CreateTransaction_entries newId created d group senderIsBank
              receiverIsBank sender receiver title description amount
              paymentPlanId)
    as (e & Hrows & _ & _ & _ & Hc & _).
  fold d' in Hrows. split.
  - unfold GetUserBalance.
    rewrite (GetLastTransactionLogEntry_snoc d d' e) by done.
    destruct (entry_of group user e); [|done].
    destruct (GetLastTransactionLogEntry d group user) as [m|] eqn:Hm.
    + assert (TransactionLogEntry.Created l ≤ TransactionLogEntry.Created m)
        as Hle.
      { eapply (first_by_greatest TransactionLogEntry.Created);
          [apply created_desc_true | apply created_desc_false | done..]. }
      destruct (created_desc e m) eqn:Hem; [|done].
      apply created_desc_true in Hem. lia.
    + eapply first_by_None in Hm; [|done]. congruence.
  - rewrite Hrows, length_app. simpl. lia.
Qed.

(** X11.  The entry a transaction writes can be read back by its key
    through its own group, and through no other group; every other key
    reads as before. *)
Theorem CreateTransaction_entry_by_id
    (newId : UUID) (created : Z) (d : DB) (group : Group.t)
    (senderIsBank receiverIsBank : bool) (sender receiver : User.t)
    (title description : string) (amount : Z) (paymentPlanId : UUID) :
  gorm.fresh TransactionLogEntry.Id newId (transaction_log_entries d) →
  let d' :=
    (CreateTransactionFromPaymentPlan newId created d group senderIsBank
       receiverIsBank sender receiver title description amount
       paymentPlanId).2 in
  (∃ e, GetTransactionLogEntryById d' group newId = (Some e, None)
        ∧ last (transaction_log_entries d') = Some e
        ∧ TransactionLogEntry.Id e = newId
        ∧ TransactionLogEntry.Amount e = amount
        ∧ TransactionLogEntry.PaymentPlanId e = paymentPlanId)
  ∧ (∀ group', Group.Id group' ≠ Group.Id group →
       GetTransactionLogEntryById d' group' newId = (None, None))
  ∧ (∀ group' id, id ≠ newId →
       GetTransactionLogEntryById d' group' id
       = GetTransactionLogEntryById d group' id).
Proof.
  intros [_ Hfresh] d'. subst d'.
  unfold CreateTransactionFromPaymentPlan, GetTransactionLogEntryById.
  simpl. unfold gorm.Create.
  assert (∀ group',
            gorm.First TransactionLogEntry.Id
              (λ e, bool_decide (TransactionLogEntry.GroupId e
                                 = Group.Id group')
                    && bool_decide (TransactionLogEntry.Id e = newId))
              (transaction_log_entries d) = None) as Hnone.
  { intros group'. apply First_None. intros r Hr.
    apply andb_false_iff. right. apply bool_decide_eq_false.
    intros Heq. apply Hfresh. rewrite <- Heq.
    by apply list_elem_of_fmap_2. }
  split; [|split].
  - eexists. split; [|split; [apply last_snoc|done]].
    f_equal. apply First_snoc_hit; [apply Hnone|].
    simpl. by rewrite !bool_decide_true.
  - intros group' Hne. f_equal.
    rewrite First_snoc_miss; [apply Hnone|].
    simpl. by rewrite bool_decide_false.
  - intros group' id Hne. f_equal. apply First_snoc_miss. simpl.
    rewrite (bool_decide_false (newId = id)) by done. apply andb_false_r.
Qed.

End Balances.

(** ** Payment plans *)

Section PaymentPlans.
Import db.

(** X12.  [DeletePaymentPlan] removes the plan and detaches its
    transactions: afterwards the plan is found in no group and no log
    entry names it, while every other plan is found as before, the log
    keeps its length and every balance is unchanged. *)
Theorem DeletePaymentPlan_detaches
    (d : DB) (paymentPlan : PaymentPlan.t) :
  PaymentPlan.Id paymentPlan ≠ uuid_zero →
  let r := DeletePaymentPlan d paymentPlan in
  r.1 = None
  ∧ (∀ group,
       GetPaymentPlanById r.2 group (PaymentPlan.Id paymentPlan)
       = (None, None))
  ∧ (∀ group id, id ≠ PaymentPlan.Id paymentPlan →
       GetPaymentPlanById r.2 group id = GetPaymentPlanById d group id)
  ∧ (∀ e, e ∈ transaction_log_entries r.2 →
       TransactionLogEntry.PaymentPlanId e ≠ PaymentPlan.Id paymentPlan)
  ∧ length (transaction_log_entries r.2)
    = length (transaction_log_entries d)
  ∧ (∀ group user,
       GetUserBalance r.2 group user = GetUserBalance d group user)
  ∧ group_memberships r.2 = group_memberships d.
Proof.
  intros Hnz r. subst r. unfold DeletePaymentPlan. simpl.
  split; [done|]. split; [|split; [|split; [|split; [|split]]]].
  - intros group. unfold GetPaymentPlanById. simpl. f_equal.
    apply First_Delete_None; [done|]. intros p _ Hc.
    apply andb_true_iff in Hc as [_ Hc]. by apply bool_decide_eq_true in Hc.
  - intros group id Hne. unfold GetPaymentPlanById. simpl. f_equal.
    apply First_Delete_other. intros p _ Hc.
    apply andb_true_iff in Hc as [_ Hc].
    apply bool_decide_eq_true in Hc. congruence.
  - intros e (x & -> & Hx)%list_elem_of_fmap.
    case_decide; [simpl; congruence | done].
  - by rewrite length_fmap.
  - intros group user. unfold GetUserBalance, GetLastTransactionLogEntry.
    simpl. rewrite first_by_fmap.
    + destruct (gorm.first_by _ _ _) as [l|]; simpl; [|done].
      by case_decide.
    + intros e _. by case_decide.
    + intros a b _ _. by repeat case_decide.
  - done.
Qed.

(** X13.  A plan made by [CreatePaymentPlan] is found by its key in its
    group with the values given, a side that is the bank carrying the
    zero UUID; it is due from [firstPayment] on:
    [GetPaymentPlansThatNeedToBeExecuted] lists it after the plans that
    were due before exactly when [firstPayment] is not after the clock.
    [DeletePaymentPlan] on the plan then leaves the plans as they were
    before it was made. *)
Theorem CreatePaymentPlan_round_trip
    (newId : UUID) (d : DB) (group : Group.t)
    (senderIsBank receiverIsBank : bool) (sender receiver : User.t)
    (name description : string) (amount paymentCount schedule : Z)
    (scheduleUnit : string) (firstPayment now : Z) :
  gorm.fresh PaymentPlan.Id newId (payment_plans d) →
  let r :=
    CreatePaymentPlan newId d group senderIsBank receiverIsBank sender
      receiver name description amount paymentCount schedule scheduleUnit
      firstPayment in
  r.1 = None
  ∧ ∃ p,
      GetPaymentPlanById r.2 group newId = (Some p, None)
      ∧ PaymentPlan.Id p = newId
      ∧ PaymentPlan.GroupId p = Group.Id group
      ∧ PaymentPlan.Amount p = amount
      ∧ PaymentPlan.NextExecute p = firstPayment
      ∧ PaymentPlan.SenderId p
        = (if senderIsBank then uuid_zero else User.Id sender)
      ∧ PaymentPlan.ReceiverId p
        = (if receiverIsBank then uuid_zero else User.Id receiver)
      ∧ fst (GetPaymentPlansThatNeedToBeExecuted now r.2)
        = fst (GetPaymentPlansThatNeedToBeExecuted now d)
          ++ (if decide (firstPayment ≤ now) then [p] else [])
      ∧ payment_plans (DeletePaymentPlan r.2 p).2 = payment_plans d.
Proof.
  intros [Hnz Hfresh] r. subst r. unfold CreatePaymentPlan. simpl.
  split; [done|].
  exists
    {| PaymentPlan.Id := newId;
       PaymentPlan.Name := name;
       PaymentPlan.Description := description;
       PaymentPlan.Amount := amount;
       PaymentPlan.PaymentCount := paymentCount;
       PaymentPlan.NextExecute := firstPayment;
       PaymentPlan.Schedule := schedule;
       PaymentPlan.ScheduleUnit := scheduleUnit;
       PaymentPlan.SenderIsBank := senderIsBank;
       PaymentPlan.SenderId :=
         if negb senderIsBank then User.Id sender else uuid_zero;
       PaymentPlan.ReceiverIsBank := receiverIsBank;
       PaymentPlan.ReceiverId :=
         if negb receiverIsBank then User.Id receiver else uuid_zero;
       PaymentPlan.GroupId := Group.Id group |}.
  split; [|split; [reflexivity|]].
  { unfold GetPaymentPlanById. simpl. f_equal. unfold gorm.Create.
    apply First_snoc_hit.
    - apply First_None. intros p Hp. apply andb_false_iff. right.
      apply bool_decide_eq_false. intros Heq. apply Hfresh.
      rewrite <- Heq. by apply list_elem_of_fmap_2.
    - simpl. by rewrite !bool_decide_true. }
  simpl. do 3 (split; [done|]).
  split; [by destruct senderIsBank|].
  split; [by destruct receiverIsBank|]. split.
  - unfold gorm.Create. rewrite filter_app, filter_cons. simpl.
    by case_decide.
  - by apply (Delete_Create PaymentPlan.Id newId).
Qed.

End PaymentPlans.

(** ** Random strings *)

Section RandomStrings.
Import services.

(** [letters[num.Int64()]] never indexes out of range. *)
Lemma letter_in_range raw :
  String.get (N.to_nat (raw `mod` 62)) letters
  = Some (letter (raw `mod` 62))
  ∧ letter (raw `mod` 62) ∈ String.list_ascii_of_string letters.
Proof.
  assert (raw `mod` 62 < 62)%N as Hlt by (apply N.mod_lt; lia).
  unfold letter. generalize dependent (raw `mod` 62)%N. intros i Hi.
  assert (N.to_nat i < 62)%nat as Hn by lia.
  generalize dependent (N.to_nat i). clear. intros n Hn.
  do 62 (destruct n as [|n]; [compute_done|]). lia.
Qed.

Lemma generateRandomString_Ok rnd pos n code :
  generateRandomString rnd pos n = Ok code →
  (∀ k, (k < n)%nat → is_Some (rnd (pos + k)%nat)) ∧ from_letters code.
Proof.
  revert pos code. induction n as [|n IH]; intros pos code; simpl.
  - intros [= <-]. split; [lia | constructor].
  - unfold rand_Int. destruct (rnd pos) as [raw|] eqn:Hraw; [|done].
    destruct (generateRandomString rnd (S pos) n) as [ret|] eqn:E; [|done].
    intros [= <-]. destruct (IH _ _ E) as [Hdraws Hret]. split.
    + intros [|k] Hk.
      * rewrite Nat.add_0_r, Hraw. by eexists.
      * replace (pos + S k)%nat with (S pos + k)%nat by lia.
        apply Hdraws. lia.
    + constructor; [|done]. apply (letter_in_range raw).
Qed.

Lemma generateRandomString_fails rnd pos n e :
  generateRandomString rnd pos n = Err e →
  ∃ k, (k < n)%nat ∧ rnd (pos + k)%nat = None.
Proof.
  revert pos e. induction n as [|n IH]; intros pos e; simpl; [done|].
  unfold rand_Int. destruct (rnd pos) as [raw|] eqn:Hraw.
  - destruct (generateRandomString rnd (S pos) n) as [ret|] eqn:E; [done|].
    intros _. destruct (IH _ _ E) as (k & Hk & Hnone).
    exists (S k). split; [lia|].
    by replace (pos + S k)%nat with (S pos + k)%nat by lia.
  - intros _. exists 0%nat. split; [lia|]. by rewrite Nat.add_0_r.
Qed.

(** X14.  [generateRandomString(length)] returns a string exactly when
    the reader delivers all [length] numbers it asks for; the string then
    has [length] characters, each one of the 62 letters and digits (the
    index into [letters] is always in range).  Otherwise it returns the
    error of the reader. *)
Theorem generateRandomString_outcome
    (rnd : Entropy) (pos : nat) (length : nat) :
  match generateRandomString rnd pos length with
  | Ok code =>
      (∀ k, (k < length)%nat → is_Some (rnd (pos + k)%nat))
      ∧ String.length code = length ∧ from_letters code
  | Err e =>
      e = ErrRandRead ∧ ∃ k, (k < length)%nat ∧ rnd (pos + k)%nat = None
  end.
Proof.
  destruct (generateRandomString rnd pos length) as [code|e] eqn:E.
  - destruct (generateRandomString_Ok _ _ _ _ E). split; [done|].
    split; [by eapply generateRandomString_length | done].
  - split; [by eapply generateRandomString_Err
           | by eapply generateRandomString_fails].
Qed.

End RandomStrings.

(** ** The life of a confirmation code *)

Section ConfirmationCode.
Import services.
Context `{Externals}.

(** The marker block touches the marker table only. *)
Lemma mark_last_sent_frame clk markerId d email d' :
  mark_last_sent clk markerId d email = Ok d' →
  users d' = users d ∧ email_codes d' = email_codes d
  ∧ login_tokens d' = login_tokens d.
Proof.
  unfold mark_last_sent.
  destruct (last_sent_by_email d email); [|by intros [= <-]].
  destruct (_ <? _); [done|]. by intros [= <-].
Qed.

(** After [Replace] with a fresh key, the join finds the new row. *)
Lemma email_code_row_replace d user code rows :
  gorm.fresh EmailCode.Id (EmailCode.Id code) rows →
  email_code_row (with_email_codes (replace_EmailCode user code rows) d) user
  = Some (EmailCode.with_UserId (Some (User.Id user)) code).
Proof.
  intros [_ Hfresh]. unfold email_code_row, replace_EmailCode. simpl.
  apply First_snoc_hit; [|simpl; by apply bool_decide_eq_true_2].
  apply First_None.
  intros c' (c & -> & Hc)%list_elem_of_fmap.
  apply bool_decide_eq_false_2.
  case_decide as Hd; simpl; [done|]. intros Hu. apply Hd. split; [done|].
  intros Heq. apply Hfresh. rewrite <- Heq. by apply list_elem_of_fmap_2.
Qed.

(** What a successful [SendConfirmEmail] leaves behind. *)
Lemma SendConfirmEmail_issued cfg clk rnd markerId codeId d email d' mails :
  gorm.fresh EmailCode.Id codeId (email_codes d) →
  SendConfirmEmail cfg clk rnd markerId codeId d email = (None, d', mails) →
  ∃ code u,
    generateRandomString rnd 0 6 = Ok code
    ∧ user_by_email d email = Some u
    ∧ User.EmailConfirmed u = false
    ∧ users d' = users d
    ∧ email_code_row d' u
      = Some {| EmailCode.Id := codeId;
                EmailCode.Code := code;
                EmailCode.ExpirationTime :=
                  Go.add (t_issue clk) emailCodeLifetime;
                EmailCode.UserId := Some (User.Id u) |}.
Proof.
  intros Hfresh. unfold SendConfirmEmail.
  destruct (mark_last_sent clk markerId d email) as [d1|e] eqn:Hm; [|done].
  apply mark_last_sent_frame in Hm as (Husers & Hcodes & _).
  assert (user_by_email d1 email = user_by_email d email) as ->
    by (unfold user_by_email; by rewrite Husers).
  destruct (user_by_email d email) as [u|]; [|done].
  destruct (User.EmailConfirmed u) eqn:Hconf; [done|]. cbn [negb].
  destruct (generateRandomString rnd 0 6) as [code|]; [|done].
  set (rows := gorm.Delete EmailCode.Id _ (email_codes d1)).
  set (new := {| EmailCode.Id := codeId; EmailCode.Code := code;
                 EmailCode.ExpirationTime := _; EmailCode.UserId := _ |}).
  assert (gorm.fresh EmailCode.Id (EmailCode.Id new) rows) as Hnew.
  { destruct Hfresh as [Hnz Hnew]. split; [done|]. simpl.
    intros (c & Hc & Hin%Delete_subseteq)%list_elem_of_fmap.
    apply Hnew. rewrite <- Hcodes, Hc. by apply list_elem_of_fmap_2. }
  destruct (EmailEnabled cfg);
    [destruct (ParseEmailTemplate _ _ _); [|done]|];
    intros [= <- _]; exists code, u; do 3 (split; [done|]);
    (split; [done|]); simpl; by rewrite email_code_row_replace.
Qed.

(** X15.  The code a successful [SendConfirmEmail] issues is the one
    that confirms the address, and only for five minutes:
    [VerifyConfirmEmailCode] answers [true] for the address exactly when
    it is given the generated string and its clock reads less than
    [t_issue + 5 min]. *)
Theorem SendConfirmEmail_then_Verify
    (cfg : Config) (clk : Clock) (rnd : Entropy) (markerId codeId : UUID)
    (d d' : DB) (email : string) (mails : list Mail) :
  gorm.fresh EmailCode.Id codeId (email_codes d) →
  Go.is_int64 (t_issue clk + emailCodeLifetime) →
  SendConfirmEmail cfg clk rnd markerId codeId d email = (None, d', mails) →
  ∃ code,
    generateRandomString rnd 0 6 = Ok code
    ∧ ∀ now code',
        fst (VerifyConfirmEmailCode now d' email code') = true
        ↔ code' = code ∧ now < t_issue clk + emailCodeLifetime.
Proof.
  intros Hfresh Hfit Hsend.
  destruct (SendConfirmEmail_issued _ _ _ _ _ _ _ _ _ Hfresh Hsend)
    as (code & u & Hgen & Hu & _ & Husers & Hrow).
  exists code. split; [done|]. intros now code'.
  unfold VerifyConfirmEmailCode.
  assert (user_by_email d' email = Some u) as ->
    by (unfold user_by_email in *; by rewrite Husers).
  unfold joined_EmailCode. rewrite Hrow. simpl.
  unfold Go.add. rewrite wrap64_id by done.
  case_bool_decide as Hcode.
  - destruct (_ >? now) eqn:E; simpl.
    + apply Z.gtb_gt in E. split; [intros _; split; [done|lia] | done].
    + split; [done|]. intros [_ Hlt].
      assert (t_issue clk + emailCodeLifetime > now) as Hgt by lia.
      apply Z.gtb_gt in Hgt. congruence.
  - simpl. split; [done|]. intros [Heq _]. by destruct Hcode.
Qed.

(** X16.  A confirmed address gets no further code: once
    [VerifyConfirmEmailCode] has answered [true], the account is marked
    confirmed, and [SendConfirmEmail] for the address answers
    [ErrEmailAlreadyConfirmed], or [ErrTimeout] within the rate limit,
    sends no mail and leaves users and codes as they are. *)
Theorem confirmed_address_gets_no_code
    (d : DB) (now : Z) (email code : string) :
  consistent d →
  fst (VerifyConfirmEmailCode now d email code) = true →
  let d1 := snd (VerifyConfirmEmailCode now d email code) in
  (∃ u, user_by_email d1 email = Some u ∧ User.EmailConfirmed u = true)
  ∧ ∀ cfg clk rnd markerId codeId,
      let r := SendConfirmEmail cfg clk rnd markerId codeId d1 email in
      (r.1.1 = Some ErrEmailAlreadyConfirmed ∨ r.1.1 = Some ErrTimeout)
      ∧ r.2 = [] ∧ users r.1.2 = users d1
      ∧ email_codes r.1.2 = email_codes d1.
Proof.
  intros Hd Htrue d1.
  assert (∃ u, user_by_email d1 email = Some u
               ∧ User.EmailConfirmed u = true) as (u & Hu & Hconf).
  { subst d1. revert Htrue. unfold VerifyConfirmEmailCode.
    destruct (user_by_email d email) as [u|] eqn:Hu; [|done].
    case_bool_decide; [|done].
    destruct (_ >? now); [|done]. intros _. simpl.
    exists (User.with_EmailConfirmed true u). split; [|done].
    apply (user_by_email_Updates d); [|done..].
    apply user_by_email_Some in Hu as [Hin _].
    eapply primary_key_nonzero; [apply Hd | done]. }
  split; [by exists u|].
  intros cfg clk rnd markerId codeId r. subst r. unfold SendConfirmEmail.
  destruct (mark_last_sent clk markerId d1 email) as [d2|e] eqn:Hm.
  - apply mark_last_sent_frame in Hm as (Husers & Hcodes & _).
    assert (user_by_email d2 email = Some u) as ->
      by (unfold user_by_email in *; by rewrite Husers).
    rewrite Hconf. simpl. auto.
  - apply mark_last_sent_Err in Hm as [-> _]. simpl. auto.
Qed.

End ConfirmationCode.

(** ** The services as a whole *)

Section ServicesTheorems.
Import services.
Context `{Externals}.

(** X17.  Every service leaves the database consistent: the primary
    keys of the four tables and the has-one association between a user
    and its email code survive [SendConfirmEmail],
    [VerifyConfirmEmailCode], [Activate2FAOTP], [VerifyOTPCode] and
    [Login], whatever they answer, given fresh keys for the rows they
    create. *)
Theorem services_keep_consistent (d : DB) :
  consistent d →
  (∀ cfg clk rnd markerId codeId email,
     gorm.fresh ConfirmEmailLastSent.Id markerId
       (confirm_email_last_sents d) →
     gorm.fresh EmailCode.Id codeId (email_codes d) →
     consistent (SendConfirmEmail cfg clk rnd markerId codeId d email).1.2)
  ∧ (∀ now email code,
       consistent (VerifyConfirmEmailCode now d email code).2)
  ∧ (∀ generated cfg email password,
       consistent (Activate2FAOTP generated cfg d email password).2)
  ∧ (∀ now email code, consistent (VerifyOTPCode now d email code).2)
  ∧ (∀ fuel rnd now tokenId email password token err d',
       gorm.fresh LoginToken.Id tokenId (login_tokens d) →
       Login fuel rnd now tokenId d email password
       = Some (token, err, d') →
       consistent d').
Proof.
  intros Hd. split; [|split; [|split; [|split]]].
  - intros. by apply SendConfirmEmail_consistent.
  - intros. by apply VerifyConfirmEmailCode_consistent.
  - intros. by apply Activate2FAOTP_consistent.
  - intros. by apply VerifyOTPCode_consistent.
  - intros. by eapply Login_consistent.
Qed.

(** The loop of [Login] ends with the string it was started with or
    with one it generated. *)
Lemma login_code_Ok fuel rnd pos d code existing c :
  login_code fuel rnd pos d code existing = Some (Ok c) →
  (c = code ∧ code ≠ "")
  ∨ (String.length c = 64%nat ∧ from_letters c).
Proof.
  revert pos code existing.
  induction fuel as [|fuel IH]; intros pos code existing;
    cbn [login_code].
  - case_bool_decide; [done|].
    destruct (login_token_by_code d existing code); [done|].
    intros [= <-]. by left.
  - case_bool_decide.
    + destruct (generateRandomString rnd pos 64) as [code'|] eqn:Hgen;
        [|done].
      intros [[-> _]|Hc]%IH; [|by right]. right.
      split; [by eapply generateRandomString_length|].
      by eapply generateRandomString_Ok.
    + destruct (login_token_by_code d existing code) as [t|].
      * destruct (generateRandomString rnd pos 64) as [code'|] eqn:Hgen;
          [|done].
        intros [[-> _]|Hc]%IH; [|by right]. right.
        split; [by eapply generateRandomString_length|].
        by eapply generateRandomString_Ok.
      * intros [= <-]. by left.
Qed.

Lemma login_code_Err fuel rnd pos d code existing e :
  login_code fuel rnd pos d code existing = Some (Err e) → e = ErrRandRead.
Proof.
  revert pos code existing.
  induction fuel as [|fuel IH]; intros pos code existing;
    cbn [login_code].
  - case_bool_decide; [done|].
    by destruct (login_token_by_code d existing code).
  - destruct (if bool_decide (code = "") then _ else _); [|done].
    destruct (generateRandomString rnd pos 64) as [code'|e'] eqn:Hgen.
    + apply IH.
    + intros [= <-]. by eapply generateRandomString_Err.
Qed.

(** X18.  What [Login] answers.  With an error it returns the empty
    token and leaves the database as it is, and the error is
    [ErrInvalidCredentials] or the error of the random reader.  Without
    an error the address has an account whose stored hash the password
    verifies against, the token has 64 characters, letters and digits
    only, and the database differs at most by the one row appended to the
    login tokens, which carries the token, the user's key and the
    expiration time five minutes after [now]. *)
Theorem Login_outcome
    (fuel : nat) (rnd : Entropy) (now : Z) (tokenId : UUID) (d : DB)
    (email password token : string) (err : option error) (d' : DB) :
  Login fuel rnd now tokenId d email password = Some (token, err, d') →
  match err with
  | Some e =>
      token = "" ∧ d' = d ∧ (e = ErrInvalidCredentials ∨ e = ErrRandRead)
  | None =>
      String.length token = 64%nat ∧ from_letters token
      ∧ users d' = users d ∧ email_codes d' = email_codes d
      ∧ confirm_email_last_sents d' = confirm_email_last_sents d
      ∧ ∃ u, user_by_email d email = Some u
          ∧ bcrypt_CompareHashAndPassword (User.PasswordHash u)
              (String.list_byte_of_string password) = true
          ∧ (login_tokens d' = login_tokens d
             ∨ login_tokens d'
               = login_tokens d
                 ++ [ {| LoginToken.Id := tokenId;
                         LoginToken.Code := token;
                         LoginToken.ExpirationTime :=
                           Go.add now loginTokenLifetime;
                         LoginToken.UserId := User.Id u |} ])
  end.
Proof.
  unfold Login.
  destruct (user_by_email d email) as [u|] eqn:Hu;
    [|intros [= <- <- <-]; auto].
  destruct (bcrypt_CompareHashAndPassword _ _) eqn:Hpw; cbn [negb];
    [|intros [= <- <- <-]; auto].
  destruct (login_code fuel rnd 0 d "" LoginToken.zero) as [[code|e]|]
    eqn:Hloop; [| |done].
  - intros [= <- <- <-].
    apply login_code_Ok in Hloop as [[_ Hne]|[Hlen Hletters]]; [done|].
    do 2 (split; [done|]). unfold save_LoginToken.
    case_decide; simpl; (do 3 (split; [done|])); exists u; auto.
  - intros [= <- <- <-]. apply login_code_Err in Hloop. auto.
Qed.

(** X19.  Enrolment in two-factor authentication, start to end: for a
    user without it, [Activate2FAOTP] with the right password hands out
    the QR image of a new secret; a [VerifyOTPCode] whose code validates
    against that secret switches the user's two-factor state on; from
    then on [Activate2FAOTP] returns that same image, whatever
    [totp.Generate] would produce, and changes nothing. *)
Theorem two_factor_enrolment
    (generated generated' : string → string → option OtpKey)
    (cfg : Config) (d : DB) (email password : string) (u : User.t)
    (key : OtpKey) (qr : list Byte.byte) (now : Z) (code : string) :
  gorm.primary_key User.Id (users d) →
  user_by_email d email = Some u →
  User.TwoFaOTPEnabled u = false →
  bcrypt_CompareHashAndPassword (User.PasswordHash u)
    (String.list_byte_of_string password) = true →
  generated (DomainName cfg) (User.Email u) = Some key →
  Image key = Some qr →
  totp_Validate now code (Secret key) = true →
  let a := Activate2FAOTP generated cfg d email password in
  let v := VerifyOTPCode now a.2 email code in
  a.1 = (qr, None) ∧ v.1 = true
  ∧ user_by_email v.2 email
    = Some (User.with_otp true (Secret key) qr u)
  ∧ Activate2FAOTP generated' cfg v.2 email password = (qr, None, v.2).
Proof.
  intros Hpk Hu Hen Hpw Hgen Himg Hvalid a v.
  assert (User.Id u ≠ uuid_zero) as Hnz.
  { apply user_by_email_Some in Hu as [Hin _].
    by eapply primary_key_nonzero. }
  set (stored := User.with_otp false (Secret key) qr u).
  assert (a = (qr, None,
               with_users (gorm.Updates User.Id (User.Id u)
                             (User.with_otp false (Secret key) qr)
                             (users d)) d)) as Ha.
  { subst a. unfold Activate2FAOTP. by rewrite Hu, Hpw, Hen, Hgen, Himg. }
  assert (user_by_email a.2 email = Some stored) as Hstored
    by (rewrite Ha; by apply user_by_email_Updates).
  assert (v = (true,
               with_users (gorm.Updates User.Id (User.Id u)
                             (User.with_TwoFaOTPEnabled true)
                             (users a.2)) a.2)) as Hv.
  { subst v. unfold VerifyOTPCode. rewrite Hstored. simpl.
    by rewrite Hvalid. }
  assert (user_by_email v.2 email
          = Some (User.with_otp true (Secret key) qr u)) as Hfinal.
  { rewrite Hv.
    exact (user_by_email_Updates a.2 email stored
             (User.with_TwoFaOTPEnabled true) Hnz Hstored
             (λ _, eq_refl) (λ _, eq_refl)). }
  split; [by rewrite Ha|]. split; [by rewrite Hv|]. split; [done|].
  unfold Activate2FAOTP. rewrite Hfinal. simpl. by rewrite Hpw.
Qed.

End ServicesTheorems.

(** ** The account handlers *)

Section HandlersTheorems.
Import handlers.
Context `{Externals}.

(** X20.  What [DeleteUser] never does.  It answers 200 only to a
    request whose user exists, whose body binds, whose password verifies
    against the stored hash and whose 2FA token is one of the user's
    stored tokens and has not expired; on every other answer the users
    are untouched.  The tokens change only once the password has
    verified and the token matched.  No user and no token is ever added,
    and no user other than the caller is removed. *)
Theorem DeleteUser_guard
    (now : Z) (s : Store) (userId : UUID) (bound : option DeleteUserBody) :
  let r := DeleteUser now s userId bound in
  (status r.1 = StatusOK ∨ users r.2 ≠ users s →
   ∃ user body t,
     GetById s userId = Some user ∧ bound = Some body
     ∧ bcrypt_CompareHashAndPassword (User.PasswordHash user)
         (String.list_byte_of_string (Password body)) = true
     ∧ GetTwoFATokenByCode s user (TwoFAToken body) = Some t
     ∧ now ≤ TwoFAToken.ExpirationTime t
     ∧ r.1 = JSON StatusOK (New true "Successfully deleted account"))
  ∧ (two_fa_tokens r.2 ≠ two_fa_tokens s →
     ∃ user body t,
       GetById s userId = Some user ∧ bound = Some body
       ∧ bcrypt_CompareHashAndPassword (User.PasswordHash user)
           (String.list_byte_of_string (Password body)) = true
       ∧ GetTwoFATokenByCode s user (TwoFAToken body) = Some t)
  ∧ (∀ u, u ∈ users r.2 → u ∈ users s)
  ∧ (∀ t, t ∈ two_fa_tokens r.2 → t ∈ two_fa_tokens s)
  ∧ (∀ u, u ∈ users s → User.Id u ≠ userId → u ∈ users r.2).
Proof.
  intros r. subst r. unfold DeleteUser.
  destruct (GetById s userId) as [user|] eqn:Hu.
  2:{ simpl. unfold StatusUnauthorized, StatusOK.
      repeat split; try done; intros [?|?]; done. }
  destruct bound as [body|].
  2:{ simpl. unfold StatusBadRequest, StatusOK.
      repeat split; try done; intros [?|?]; done. }
  destruct (bcrypt_CompareHashAndPassword _ _) eqn:Hpw; cbn [negb].
  2:{ simpl. unfold StatusForbidden, StatusOK.
      repeat split; try done; intros [?|?]; done. }
  destruct (GetTwoFATokenByCode s user (TwoFAToken body)) as [t|] eqn:Ht.
  2:{ simpl. unfold StatusForbidden, StatusOK.
      repeat split; try done; intros [?|?]; done. }
  assert (User.Id user = userId) as Hid.
  { apply First_Some in Hu as [_ Hc]. by apply bool_decide_eq_true in Hc. }
  destruct (TwoFAToken.ExpirationTime t <? now) eqn:Hexp; simpl.
  - unfold StatusForbidden, StatusOK.
    split; [intros [?|?]; done|].
    split; [intros _; by exists user, body, t|].
    split; [done|]. split; [|done]. intros t'. apply Delete_subseteq.
  - apply Z.ltb_ge in Hexp.
    split; [intros _; by exists user, body, t|].
    split; [intros _; by exists user, body, t|].
    split; [intros u; apply Delete_subseteq|].
    split; [intros t'; apply Delete_subseteq|].
    intros u Hin Hne. unfold gorm.Delete. case_decide; [done|].
    apply list_elem_of_filter. split; [congruence | done].
Qed.

(** X21.  After [DeleteUser] has answered 200 the account is gone: the
    user is no longer found by its id, the token that was presented is
    no longer stored, and the same request again is answered 401 with
    "user no longer exists" and changes nothing. *)
Theorem DeleteUser_then_gone
    (now : Z) (s : Store) (userId : UUID) (bound : option DeleteUserBody) :
  gorm.primary_key User.Id (users s) →
  consistent s →
  status (DeleteUser now s userId bound).1 = StatusOK →
  let s' := (DeleteUser now s userId bound).2 in
  GetById s' userId = None
  ∧ (∀ u, u ∈ users s' → User.Id u ≠ userId)
  ∧ (∀ user body, GetById s userId = Some user → bound = Some body →
       GetTwoFATokenByCode s' user (TwoFAToken body) = None)
  ∧ ∀ later bound',
      DeleteUser later s' userId bound'
      = (JSON StatusUnauthorized NewUserNoLongerExists, s').
Proof.
  intros Hpk Hs. unfold DeleteUser.
  destruct (GetById s userId) as [user|] eqn:Hu; [|done].
  destruct bound as [body|]; [|done].
  destruct (bcrypt_CompareHashAndPassword _ _) eqn:Hpw; cbn [negb]; [|done].
  destruct (GetTwoFATokenByCode s user (TwoFAToken body)) as [t|] eqn:Ht;
    [|done].
  destruct (TwoFAToken.ExpirationTime t <? now) eqn:Hexp; [done|].
  intros _. cbn [fst snd].
  pose proof Hu as [Hin Hc]%First_Some. apply bool_decide_eq_true in Hc.
  assert (User.Id user ≠ uuid_zero) as Hnz by by eapply primary_key_nonzero.
  assert (GetById (Delete (DeleteTwoFAToken s t) user) userId = None)
    as Hgone.
  { unfold GetById, Delete. simpl. apply First_Delete_None; [done|].
    intros u _ Hcu. apply bool_decide_eq_true in Hcu. congruence. }
  split; [done|]. split; [|split].
  - intros u Hu'%Delete_gone; [congruence | done].
  - intros user' body' [= <-] [= <-].
    exact (GetTwoFATokenByCode_deleted s user _ t Hs Ht).
  - intros later bound'. by rewrite Hgone.
Qed.

End HandlersTheorems.

(** ** Registration *)

Section Registration.
Import services.
Context `{Externals}.

Lemma generateRecoveryCodes_loop_Ok rnd pos n codes :
  generateRecoveryCodes_loop rnd pos n = Ok codes →
  length codes = n
  ∧ Forall (λ c, String.length (RecoveryCode.Code c) = 64%nat
                 ∧ from_letters (RecoveryCode.Code c)) codes
  ∧ ∀ k, (k < 64 * n)%nat → is_Some (rnd (pos + k)%nat).
Proof.
  revert pos codes. induction n as [|n IH]; intros pos codes;
    cbn [generateRecoveryCodes_loop].
  - intros [= <-]. split; [done|]. split; [constructor | lia].
  - destruct (generateRandomString rnd pos 64) as [code|] eqn:Hgen; [|done].
    destruct (generateRecoveryCodes_loop rnd (pos + 64) n) as [rest|]
      eqn:Hrest; [|done].
    intros [= <-]. destruct (IH _ _ Hrest) as (Hlen & Hall & Hdraws).
    destruct (generateRandomString_Ok _ _ _ _ Hgen) as [Hhead Hletters].
    split; [simpl; by rewrite Hlen|]. split.
    + constructor; [|done]. simpl.
      split; [by eapply generateRandomString_length | done].
    + intros k Hk. destruct (decide (k < 64)%nat) as [Hlt|Hge].
      * by apply Hhead.
      * replace (pos + k)%nat with (pos + 64 + (k - 64))%nat by lia.
        apply Hdraws. lia.
Qed.

Lemma generateRecoveryCodes_loop_Err rnd pos n e :
  generateRecoveryCodes_loop rnd pos n = Err e →
  e = errors_New "Couldn't generate recovery codes"
  ∧ ∃ k, (k < 64 * n)%nat ∧ rnd (pos + k)%nat = None.
Proof.
  revert pos. induction n as [|n IH]; intros pos;
    cbn [generateRecoveryCodes_loop]; [done|].
  destruct (generateRandomString rnd pos 64) as [code|e'] eqn:Hgen.
  - destruct (generateRecoveryCodes_loop rnd (pos + 64) n) as [rest|e']
      eqn:Hrest; [done|].
    intros [= <-]. destruct (IH _ Hrest) as (-> & k & Hk & Hnone).
    split; [done|]. exists (64 + k)%nat. split; [lia|].
    by replace (pos + (64 + k))%nat with (pos + 64 + k)%nat by lia.
  - intros [= <-]. split; [done|].
    destruct (generateRandomString_fails _ _ _ _ Hgen) as (k & Hk & Hnone).
    exists k. split; [lia | done].
Qed.

(** X22.  [generateRecoveryCodes] returns ten codes of 64 letters and
    digits each, reading 640 numbers from the reader; when the reader
    fails at one of them it returns no code and the error
    "Couldn't generate recovery codes" in place of the reader's. *)
Theorem generateRecoveryCodes_outcome (rnd : Entropy) :
  match generateRecoveryCodes rnd with
  | Ok codes =>
      length codes = 10%nat
      ∧ Forall (λ c, String.length (RecoveryCode.Code c) = 64%nat
                     ∧ from_letters (RecoveryCode.Code c)) codes
      ∧ ∀ k, (k < 640)%nat → is_Some (rnd k)
  | Err e =>
      e = errors_New "Couldn't generate recovery codes"
      ∧ ∃ k, (k < 640)%nat ∧ rnd k = None
  end.
Proof.
  unfold generateRecoveryCodes.
  destruct (generateRecoveryCodes_loop rnd 0 10) as [codes|e] eqn:E.
  - by apply generateRecoveryCodes_loop_Ok in E.
  - by apply generateRecoveryCodes_loop_Err in E.
Qed.

Lemma saved_RecoveryCodes_spec codeId userId codes :
  length (saved_RecoveryCodes codeId userId codes) = length codes
  ∧ Forall (λ c, RecoveryCode.UserId c = userId)
      (saved_RecoveryCodes codeId userId codes)
  ∧ RecoveryCode.Code <$> saved_RecoveryCodes codeId userId codes
    = RecoveryCode.Code <$> codes.
Proof.
  unfold saved_RecoveryCodes. split; [apply length_imap|]. split.
  - apply Forall_forall. by intros c (i & c' & -> & _)%elem_of_lookup_imap.
  - by rewrite fmap_imap, <- (imap_const RecoveryCode.Code).
Qed.

(** X23.  A successful [Register] creates the account it was asked for:
    it returns the key of the new user, who is found by the address
    with the name given, the hash [bcrypt.GenerateFromPassword] made of
    the password, the address unconfirmed and two-factor authentication
    off; the other addresses are found as before; ten recovery codes of
    the user are stored.  The address is then taken: every further
    [Register] for it fails with [ErrEmailExists] and changes nothing. *)
Theorem Register_creates_account
    (generate : list Byte.byte → Z → option (list Byte.byte))
    (rnd : Entropy) (userId profilePictureId : UUID) (codeId : nat → UUID)
    (d : DB) (recovery_codes : list RecoveryCode.t)
    (email name password : string) (id : UUID) (d' : DB)
    (recovery_codes' : list RecoveryCode.t) :
  Register generate rnd userId profilePictureId codeId d recovery_codes
    email name password = (id, None, (d', recovery_codes')) →
  id = userId
  ∧ user_by_email d email = None
  ∧ (∃ passwordHash,
       generate (String.list_byte_of_string password) bcryptCost
       = Some passwordHash
       ∧ user_by_email d' email
         = Some {| User.Id := userId;
                   User.Name := name;
                   User.Email := email;
                   User.PasswordHash := passwordHash;
                   User.ProfilePictureId := profilePictureId;
                   User.EmailConfirmed := false;
                   User.TwoFaOTPEnabled := false;
                   User.OtpSecret := "";
                   User.OtpQrCode := [] |})
  ∧ (∀ email', email' ≠ email →
       user_by_email d' email' = user_by_email d email')
  ∧ (∃ new, recovery_codes' = recovery_codes ++ new
       ∧ length new = 10%nat
       ∧ Forall (λ c, RecoveryCode.UserId c = userId) new)
  ∧ ∀ generate' rnd' userId' profilePictureId' codeId' name' password',
      Register generate' rnd' userId' profilePictureId' codeId' d'
        recovery_codes' email name' password'
      = (uuid_zero, Some ErrEmailExists, (d', recovery_codes')).
Proof.
  unfold Register.
  destruct (user_by_email d email) as [u|] eqn:Hu; [done|].
  destruct (generate _ _) as [passwordHash|]; [|done].
  destruct (generateRecoveryCodes rnd) as [codes|] eqn:Hcodes; [|done].
  cbn [User.Id]. intros [= <- <- <-]. split; [done|]. split; [done|].
  set (user := {| User.Id := userId; User.Name := name |}).
  assert (user_by_email (with_users (gorm.Create user (users d)) d) email
          = Some user) as Hnew.
  { unfold user_by_email, gorm.Create. simpl.
    apply First_snoc_hit; [done|]. by apply bool_decide_eq_true_2. }
  split; [by exists passwordHash|]. split; [|split].
  - intros email' Hne. unfold user_by_email, gorm.Create. simpl.
    apply First_snoc_miss. by apply bool_decide_eq_false_2.
  - exists (saved_RecoveryCodes codeId userId codes). split; [done|].
    destruct (saved_RecoveryCodes_spec codeId userId codes)
      as (-> & Hall & _).
    by apply generateRecoveryCodes_loop_Ok in Hcodes as (-> & _).
  - intros. by rewrite Hnew.
Qed.

(** X24.  [Register] keeps the guarantees of the database, whatever it
    answers: given a fresh key for the user, the tables stay consistent
    and no two accounts share an address. *)
Theorem Register_keeps_emails_unique
    (generate : list Byte.byte → Z → option (list Byte.byte))
    (rnd : Entropy) (userId profilePictureId : UUID) (codeId : nat → UUID)
    (d : DB) (recovery_codes : list RecoveryCode.t)
    (email name password : string) :
  consistent d → emails_unique d →
  gorm.fresh User.Id userId (users d) →
  let d' :=
    fst (snd (Register generate rnd userId profilePictureId codeId d
                recovery_codes email name password)) in
  consistent d' ∧ emails_unique d'.
Proof.
  intros Hd Huniq Hfresh. unfold Register.
  destruct (user_by_email d email) as [u|] eqn:Hu; [done|].
  destruct (generate _ _) as [passwordHash|]; [|done].
  destruct (generateRecoveryCodes rnd) as [codes|]; [|done].
  cbn [fst snd User.Id]. split.
  - destruct Hd. split; simpl; try done. by apply primary_key_Create.
  - intros u1 u2. unfold gorm.Create. simpl.
    assert (∀ u, u ∈ users d → User.Email u ≠ email) as Hfree.
    { intros u Hin Heq. apply First_None with (r := u) in Hu; [|done].
      by apply bool_decide_eq_false in Hu. }
    intros [H1| ->%list_elem_of_singleton]%elem_of_app
           [H2| ->%list_elem_of_singleton]%elem_of_app Heq; simpl in Heq.
    + by apply Huniq.
    + by destruct (Hfree u1 H1).
    + by destruct (Hfree u2 H2).
    + done.
Qed.

(** X25.  An account made by [Register] can log in.  When
    [bcrypt.CompareHashAndPassword] accepts the hash
    [bcrypt.GenerateFromPassword] made of the password, [Login] with the
    address and the password returns the first string the reader
    delivers that no stored token has, and stores a token of the new
    user for it; with a password the stored hash does not verify against
    it fails with [ErrInvalidCredentials]. *)
Theorem Register_then_Login
    (generate : list Byte.byte → Z → option (list Byte.byte))
    (rnd : Entropy) (userId profilePictureId : UUID) (codeId : nat → UUID)
    (d : DB) (recovery_codes : list RecoveryCode.t)
    (email name password : string) (d' : DB)
    (recovery_codes' : list RecoveryCode.t) :
  userId ≠ uuid_zero →
  (∀ passwordHash,
     generate (String.list_byte_of_string password) bcryptCost
     = Some passwordHash →
     bcrypt_CompareHashAndPassword passwordHash
       (String.list_byte_of_string password) = true) →
  Register generate rnd userId profilePictureId codeId d recovery_codes
    email name password = (userId, None, (d', recovery_codes')) →
  (∀ fuel rnd' now tokenId code,
     generateRandomString rnd' 0 64 = Ok code →
     (∀ t, t ∈ login_tokens d → LoginToken.Code t ≠ code) →
     Login (S fuel) rnd' now tokenId d' email password
     = Some (code, None,
             with_login_tokens
               (login_tokens d
                ++ [ {| LoginToken.Id := tokenId;
                        LoginToken.Code := code;
                        LoginToken.ExpirationTime :=
                          Go.add now loginTokenLifetime;
                        LoginToken.UserId := userId |} ]) d'))
  ∧ (∀ fuel rnd' now tokenId password' passwordHash,
       generate (String.list_byte_of_string password) bcryptCost
       = Some passwordHash →
       bcrypt_CompareHashAndPassword passwordHash
         (String.list_byte_of_string password') = false →
       Login fuel rnd' now tokenId d' email password'
       = Some ("", Some ErrInvalidCredentials, d')).
Proof.
  intros Hnz Hbcrypt. unfold Register.
  destruct (user_by_email d email) as [u|] eqn:Hu; [done|].
  destruct (generate _ _) as [passwordHash|] eqn:Hgen; [|done].
  destruct (generateRecoveryCodes rnd) as [codes|]; [|done].
  cbn [User.Id]. intros [= <- <-].
  set (user := {| User.Id := userId; User.Name := name |}).
  assert (user_by_email (with_users (gorm.Create user (users d)) d) email
          = Some user) as Hnew.
  { unfold user_by_email, gorm.Create. simpl.
    apply First_snoc_hit; [done|]. by apply bool_decide_eq_true_2. }
  split.
  - intros fuel rnd' now tokenId code Hcode Hunused.
    unfold Login. rewrite Hnew. cbn [User.PasswordHash user].
    rewrite (Hbcrypt passwordHash eq_refl). cbn [negb].
    rewrite login_code_start, Hcode.
    rewrite login_code_fresh;
      [| by eapply generateRandomString_nonempty | done].
    unfold save_LoginToken. cbn [User.Id user].
    by rewrite decide_False.
  - intros fuel rnd' now tokenId password' hash' [= <-] Hwrong.
    unfold Login. rewrite Hnew. cbn [User.PasswordHash user].
    by rewrite Hwrong.
Qed.

End Registration.

(** ** Adding and removing again *)

Section RoundTrips.
Import db.

Lemma membership_of_Create d group user m :
  membership_of d group user = None →
  GroupMembership.GroupId m = Group.Id group →
  GroupMembership.UserId m = User.Id user →
  membership_of
    (with_group_memberships (gorm.Create m (group_memberships d)) d)
    group user = Some m.
Proof.
  intros Hnone Hg Hu. unfold membership_of, gorm.Create. simpl.
  apply First_snoc_hit; [done|]. by rewrite !bool_decide_eq_true_2.
Qed.

(** X26.  For a user without a record in the group, [AddAdmin] followed
    by [RemoveAdmin] gives the database back as it was, and [AddMember]
    followed by [RemoveMember] gives the memberships and the log back
    while the payment plans of the group that name the user are
    deleted. *)
Theorem add_then_remove
    (newId : UUID) (d : DB) (group : Group.t) (user : User.t) :
  gorm.fresh GroupMembership.Id newId (group_memberships d) →
  membership_of d group user = None →
  RemoveAdmin (AddAdmin newId d group user).2 group user = (None, d)
  ∧ (let r := RemoveMember (AddMember newId d group user).2 group user in
     r.1 = None
     ∧ group_memberships r.2 = group_memberships d
     ∧ transaction_log_entries r.2 = transaction_log_entries d
     ∧ ∀ p, p ∈ payment_plans r.2
         ↔ p ∈ payment_plans d
           ∧ ¬ (PaymentPlan.GroupId p = Group.Id group
                ∧ (PaymentPlan.SenderId p = User.Id user
                   ∨ PaymentPlan.ReceiverId p = User.Id user))).
Proof.
  intros Hfresh Hnone. split.
  - unfold AddAdmin. rewrite Hnone. cbn [snd]. unfold RemoveAdmin.
    rewrite membership_of_Create by done. cbn [GroupMembership.IsMember].
    cbn [GroupMembership.Id with_group_memberships group_memberships].
    rewrite (Delete_Create GroupMembership.Id newId) by done.
    by destruct d.
  - unfold AddMember. rewrite Hnone. cbn [snd]. unfold RemoveMember.
    rewrite membership_of_Create by done. cbn [GroupMembership.IsAdmin].
    cbn [fst snd GroupMembership.Id with_group_memberships
         with_payment_plans group_memberships payment_plans
         transaction_log_entries].
    rewrite (Delete_Create GroupMembership.Id newId) by done.
    do 3 (split; [done|]). intros p. unfold gorm.DeleteWhere.
    rewrite list_elem_of_filter, orb_false_iff, !andb_false_iff,
      !bool_decide_eq_false.
    destruct (decide (PaymentPlan.GroupId p = Group.Id group)),
      (decide (PaymentPlan.SenderId p = User.Id user)),
      (decide (PaymentPlan.ReceiverId p = User.Id user)); tauto.
Qed.

End RoundTrips.

(** ** The further properties at work on the sample data *)

Section MoreSamples.
Import sample.

Lemma ledger_ok : db.memberships_ok ledger.
Proof.
  split; [split; compute_done | |].
  - intros m1 m2 H1 H2. simpl in H1, H2.
    apply elem_of_cons in H1 as [->|H1%list_elem_of_singleton];
      apply elem_of_cons in H2 as [->|H2%list_elem_of_singleton];
      subst; done.
  - intros m Hm. simpl in Hm.
    apply elem_of_cons in Hm as [->|Hm%list_elem_of_singleton];
      subst; done.
Qed.

Lemma planned_ok : db.memberships_ok planned.
Proof. destruct ledger_ok. by split. Qed.

Lemma ledger_fresh :
  gorm.fresh GroupMembership.Id 32%N (db.group_memberships ledger).
Proof. split; compute_done. Qed.

Lemma registered_consistent : services.consistent registered.
Proof.
  split; try (split; compute_done). by intros c1 c2 uid ?%elem_of_nil.
Qed.

Lemma AddMember_makes_member_witness :
  gorm.primary_key GroupMembership.Id (db.group_memberships ledger)
  ∧ db.IsMember (db.AddMember 32%N ledger family carl).2 family carl
    = (true, None).
Proof.
  split; [split; compute_done|].
  destruct (AddMember_makes_member 32%N ledger family carl)
    as (_ & Hmember & _); [split; compute_done | exact Hmember].
Defined.

Lemma AddAdmin_makes_admin_witness :
  gorm.primary_key GroupMembership.Id (db.group_memberships ledger)
  ∧ db.IsAdmin (db.AddAdmin 32%N ledger family bob).2 family bob
    = (true, None).
Proof.
  split; [split; compute_done|].
  destruct (AddAdmin_makes_admin 32%N ledger family bob)
    as (_ & Hadmin & _); [split; compute_done | exact Hadmin].
Defined.

Lemma RemoveAdmin_revokes_admin_witness :
  db.memberships_ok ledger
  ∧ db.membership_of ledger family ann = Some ann_membership
  ∧ db.IsAdmin (db.RemoveAdmin ledger family ann).2 family ann
    = (false, None).
Proof.
  split; [exact ledger_ok|]. split; [reflexivity|].
  destruct (RemoveAdmin_revokes_admin ledger family ann ledger_ok)
    as [_ Hfound].
  by destruct (Hfound ann_membership eq_refl) as (_ & Hadmin & _).
Defined.

Lemma RemoveMember_revokes_membership_witness :
  db.memberships_ok planned
  ∧ db.membership_of planned family bob = Some bob_membership
  ∧ db.IsMember (db.RemoveMember planned family bob).2 family bob
    = (false, None)
  ∧ db.membership_of (db.RemoveMember planned family bob).2 family bob
    = None.
Proof.
  split; [exact planned_ok|]. split; [reflexivity|].
  destruct (RemoveMember_revokes_membership planned family bob planned_ok)
    as [_ Hfound].
  destruct (Hfound bob_membership eq_refl) as (Hmember & Hgone & _).
  split; [exact Hmember | by apply Hgone].
Defined.

Lemma membership_guarantees_kept_witness :
  db.memberships_ok ledger
  ∧ gorm.fresh GroupMembership.Id 32%N (db.group_memberships ledger)
  ∧ db.memberships_ok (db.AddMember 32%N ledger family carl).2
  ∧ db.memberships_ok (db.RemoveMember ledger family bob).2.
Proof.
  split; [exact ledger_ok|]. split; [exact ledger_fresh|].
  split.
  - by destruct (membership_guarantees_kept 32%N ledger family carl
                   ledger_ok ledger_fresh) as (Hadd & _).
  - by destruct (membership_guarantees_kept 32%N ledger family bob
                   ledger_ok ledger_fresh) as (_ & _ & Hrem & _).
Defined.

Lemma GetUserCount_follows_memberships_witness :
  db.memberships_ok ledger
  ∧ fst (db.GetUserCount (db.AddMember 32%N ledger family carl).2 family)
    = fst (db.GetUserCount ledger family) + 1.
Proof.
  split; [exact ledger_ok|].
  by destruct (GetUserCount_follows_memberships 32%N ledger family carl
                 ledger_ok) as (Hadd & _).
Defined.

Lemma CreateTransaction_moves_balances_witness :
  (∀ l, l ∈ db.transaction_log_entries ledger →
     TransactionLogEntry.Created l < 1767225700)
  ∧ (let d' :=
       (db.CreateTransactionFromPaymentPlan 41%N 1767225700 ledger family
          false false ann bob "Pocket money" "" 200 uuid_zero).2 in
     db.GetUserBalance d' family ann
     = Go.sub (db.GetUserBalance ledger family ann) 200
     ∧ db.GetUserBalance d' family bob
       = Go.add (db.GetUserBalance ledger family bob) 200).
Proof.
  assert (∀ l, l ∈ db.transaction_log_entries ledger →
            TransactionLogEntry.Created l < 1767225700) as Hnew.
  { intros l Hl. simpl in Hl. apply list_elem_of_singleton in Hl as ->.
    compute_done. }
  split; [exact Hnew|].
  destruct (CreateTransaction_moves_balances 41%N 1767225700 ledger family
              false false ann bob "Pocket money" "" 200 uuid_zero Hnew)
    as [Hsender Hreceiver].
  split; [by apply Hsender | by apply Hreceiver].
Defined.

Lemma CreateTransaction_other_balances_witness :
  (Group.Id family ≠ Group.Id family
   ∨ (User.Id carl ≠ User.Id ann ∧ User.Id carl ≠ User.Id bob))
  ∧ db.GetUserBalance
      (db.CreateTransactionFromPaymentPlan 41%N 1767225700 ledger family
         false false ann bob "Pocket money" "" 200 uuid_zero).2
      family carl
    = db.GetUserBalance ledger family carl.
Proof.
  assert (Group.Id family ≠ Group.Id family
          ∨ (User.Id carl ≠ User.Id ann ∧ User.Id carl ≠ User.Id bob))
    as Hother by (right; split; compute_done).
  split; [exact Hother|].
  exact (CreateTransaction_other_balances 41%N 1767225700 ledger family
           false false ann bob "Pocket money" "" 200 uuid_zero family carl
           Hother).
Defined.

Lemma CreateTransaction_backdated_witness :
  allowance ∈ db.transaction_log_entries ledger
  ∧ db.entry_of family ann allowance = true
  ∧ 1767225500 < TransactionLogEntry.Created allowance
  ∧ db.GetUserBalance
      (db.CreateTransactionFromPaymentPlan 41%N 1767225500 ledger family
         false false ann bob "Pocket money" "" 200 uuid_zero).2
      family ann
    = db.GetUserBalance ledger family ann.
Proof.
  assert (allowance ∈ db.transaction_log_entries ledger) as Hin
    by (simpl; apply list_elem_of_here).
  assert (1767225500 < TransactionLogEntry.Created allowance) as Hlt
    by compute_done.
  split; [exact Hin|]. split; [reflexivity|]. split; [exact Hlt|].
  by destruct (CreateTransaction_backdated 41%N 1767225500 ledger family
                 false false ann bob "Pocket money" "" 200 uuid_zero ann
                 allowance Hin eq_refl Hlt) as [Hsame _].
Defined.

Lemma CreateTransaction_entry_by_id_witness :
  gorm.fresh TransactionLogEntry.Id 41%N (db.transaction_log_entries ledger)
  ∧ ∃ e,
      db.GetTransactionLogEntryById
        (db.CreateTransactionFromPaymentPlan 41%N 1767225700 ledger family
           false false ann bob "Pocket money" "" 200 uuid_zero).2
        family 41%N = (Some e, None)
      ∧ TransactionLogEntry.Amount e = 200.
Proof.
  assert (gorm.fresh TransactionLogEntry.Id 41%N
            (db.transaction_log_entries ledger)) as Hfresh
    by (split; compute_done).
  split; [exact Hfresh|].
  destruct (CreateTransaction_entry_by_id 41%N 1767225700 ledger family
              false false ann bob "Pocket money" "" 200 uuid_zero Hfresh)
    as ((e & Hget & _ & _ & Hamount & _) & _).
  by exists e.
Defined.

Lemma DeletePaymentPlan_detaches_witness :
  PaymentPlan.Id weekly ≠ uuid_zero
  ∧ (let r := db.DeletePaymentPlan planned weekly in
     db.GetPaymentPlanById r.2 family 90%N = (None, None)
     ∧ db.GetUserBalance r.2 family bob
       = db.GetUserBalance planned family bob).
Proof.
  assert (PaymentPlan.Id weekly ≠ uuid_zero) as Hnz by compute_done.
  split; [exact Hnz|].
  destruct (DeletePaymentPlan_detaches planned weekly Hnz)
    as (_ & Hgone & _ & _ & _ & Hbalance & _).
  split; [apply Hgone | apply Hbalance].
Defined.

Lemma CreatePaymentPlan_round_trip_witness :
  gorm.fresh PaymentPlan.Id 91%N (db.payment_plans planned)
  ∧ (let r :=
       db.CreatePaymentPlan 91%N planned family true false ann bob
         "Pocket money" "" 20 5 1 "month" 1767312000 in
     ∃ p, db.GetPaymentPlanById r.2 family 91%N = (Some p, None)
       ∧ PaymentPlan.SenderId p = uuid_zero
       ∧ PaymentPlan.ReceiverId p = User.Id bob
       ∧ db.payment_plans (db.DeletePaymentPlan r.2 p).2
         = db.payment_plans planned).
Proof.
  assert (gorm.fresh PaymentPlan.Id 91%N (db.payment_plans planned))
    as Hfresh by (split; compute_done).
  split; [exact Hfresh|].
  destruct (CreatePaymentPlan_round_trip 91%N planned family true false ann
              bob "Pocket money" "" 20 5 1 "month" 1767312000 1767225600
              Hfresh)
    as (_ & p & Hget & _ & _ & _ & _ & Hs & Hr & _ & Hdel).
  exists p. split; [exact Hget|]. split; [exact Hs|].
  split; [exact Hr | exact Hdel].
Defined.

Lemma add_then_remove_witness :
  gorm.fresh GroupMembership.Id 32%N (db.group_memberships ledger)
  ∧ db.membership_of ledger family carl = None
  ∧ db.RemoveAdmin (db.AddAdmin 32%N ledger family carl).2 family carl
    = (None, ledger).
Proof.
  split; [exact ledger_fresh|]. split; [reflexivity|].
  by destruct (add_then_remove 32%N ledger family carl ledger_fresh
                 eq_refl) as [Hadmin _].
Defined.

Lemma SendConfirmEmail_then_Verify_witness :
  let r :=
    @services.SendConfirmEmail externals cfg (at_time t0) (constant 10)
      50%N 60%N registered "a@x.com" in
  gorm.fresh EmailCode.Id 60%N (services.email_codes registered)
  ∧ Go.is_int64 (t0 + services.emailCodeLifetime)
  ∧ r.1.1 = None
  ∧ fst (services.VerifyConfirmEmailCode (t0 + 1) r.1.2
           "a@x.com" "AAAAAA") = true
  ∧ fst (services.VerifyConfirmEmailCode (t0 + 1) r.1.2
           "a@x.com" "AAAAAB") ≠ true.
Proof.
  intros r.
  assert (gorm.fresh EmailCode.Id 60%N (services.email_codes registered))
    as Hfresh by (split; compute_done).
  assert (Go.is_int64 (t0 + services.emailCodeLifetime)) as Hfit
    by compute_done.
  split; [exact Hfresh|]. split; [exact Hfit|]. split; [reflexivity|].
  destruct (@SendConfirmEmail_then_Verify externals cfg (at_time t0)
              (constant 10) 50%N 60%N registered r.1.2 "a@x.com" r.2
              Hfresh Hfit eq_refl)
    as (code & Hcode & Hverify).
  assert (code = "AAAAAA") as -> by (vm_compute in Hcode; congruence).
  split.
  - apply Hverify. split; [reflexivity | compute_done].
  - intros Htrue. apply Hverify in Htrue as [Heq _]. discriminate Heq.
Defined.

Lemma confirmed_address_gets_no_code_witness :
  services.consistent pending
  ∧ fst (services.VerifyConfirmEmailCode (t0 + 1) pending
           "a@x.com" "AAAAAA") = true
  ∧ (let d1 :=
       snd (services.VerifyConfirmEmailCode (t0 + 1) pending
              "a@x.com" "AAAAAA") in
     let r :=
       @services.SendConfirmEmail externals cfg (at_time (t0 + 120000))
         (constant 10) 51%N 61%N d1 "a@x.com" in
     (r.1.1 = Some ErrEmailAlreadyConfirmed ∨ r.1.1 = Some ErrTimeout)
     ∧ r.2 = []).
Proof.
  split; [exact pending_consistent|]. split; [reflexivity|].
  destruct (@confirmed_address_gets_no_code externals pending (t0 + 1)
              "a@x.com" "AAAAAA" pending_consistent eq_refl)
    as [_ Hsend].
  destruct (Hsend cfg (at_time (t0 + 120000)) (constant 10) 51%N 61%N)
    as (Herr & Hmail & _).
  split; [exact Herr | exact Hmail].
Defined.

Lemma services_keep_consistent_witness :
  services.consistent pending
  ∧ services.consistent
      (services.VerifyConfirmEmailCode (t0 + 1) pending
         "a@x.com" "AAAAAA").2.
Proof.
  split; [exact pending_consistent|].
  destruct (@services_keep_consistent externals pending pending_consistent)
    as (_ & Hverify & _).
  apply Hverify.
Defined.

Lemma Login_outcome_witness :
  ∃ token d',
    @services.Login externals 1 (constant 11) t0 70%N registered "a@x.com"
      "pw1" = Some (token, None, d')
    ∧ String.length token = 64%nat
    ∧ services.users d' = services.users registered.
Proof.
  eexists _, _. split; [reflexivity|].
  destruct (@Login_outcome externals 1 (constant 11) t0 70%N registered
              "a@x.com" "pw1" _ None _ eq_refl)
    as (Hlen & _ & Husers & _).
  split; [exact Hlen | exact Husers].
Defined.

Lemma two_factor_enrolment_witness :
  gorm.primary_key User.Id (services.users registered)
  ∧ services.user_by_email registered "a@x.com" = Some ann
  ∧ (let a :=
       @services.Activate2FAOTP externals generated cfg registered
         "a@x.com" "pw1" in
     let v :=
       @services.VerifyOTPCode externals t0 a.2 "a@x.com"
         "JBSWY3DPEHPK3PXP" in
     v.1 = true
     ∧ @services.Activate2FAOTP externals (λ _ _, None) cfg v.2 "a@x.com"
         "pw1"
       = ([Byte.x89; Byte.x50; Byte.x4e; Byte.x47], None, v.2)).
Proof.
  assert (gorm.primary_key User.Id (services.users registered)) as Hpk
    by (split; compute_done).
  split; [exact Hpk|]. split; [reflexivity|].
  destruct (@two_factor_enrolment externals generated (λ _ _, None) cfg
              registered "a@x.com" "pw1" ann
              {| services.Secret := "JBSWY3DPEHPK3PXP";
                 services.Image :=
                   Some [Byte.x89; Byte.x50; Byte.x4e; Byte.x47] |}
              [Byte.x89; Byte.x50; Byte.x4e; Byte.x47] t0
              "JBSWY3DPEHPK3PXP" Hpk eq_refl eq_refl eq_refl eq_refl
              eq_refl eq_refl)
    as (_ & Hv & _ & Hagain).
  split; [exact Hv | exact Hagain].
Defined.

Lemma DeleteUser_then_gone_witness :
  gorm.primary_key User.Id (handlers.users store)
  ∧ handlers.consistent store
  ∧ handlers.status
      (@handlers.DeleteUser externals 1767225600 store 1%N
         (Some delete_body)).1 = handlers.StatusOK
  ∧ (let s' :=
       (@handlers.DeleteUser externals 1767225600 store 1%N
          (Some delete_body)).2 in
     @handlers.DeleteUser externals 1767225601 s' 1%N (Some delete_body)
     = (handlers.JSON handlers.StatusUnauthorized
          handlers.NewUserNoLongerExists, s')).
Proof.
  assert (gorm.primary_key User.Id (handlers.users store)) as Hpk
    by (split; compute_done).
  split; [exact Hpk|]. split; [exact store_consistent|].
  split; [reflexivity|].
  destruct (@DeleteUser_then_gone externals 1767225600 store 1%N
              (Some delete_body) Hpk store_consistent eq_refl)
    as (_ & _ & _ & Hagain).
  apply Hagain.
Defined.

Lemma Register_creates_account_witness :
  let r :=
    services.Register hash_as_bytes (constant 10) 2%N 101%N recovery_key
      registered [] "b@x.com" "Bob" "pw2" in
  r.1 = (2%N, None)
  ∧ (∃ u, services.user_by_email r.2.1 "b@x.com" = Some u
       ∧ User.Name u = "Bob" ∧ User.EmailConfirmed u = false)
  ∧ services.user_by_email r.2.1 "a@x.com"
    = services.user_by_email registered "a@x.com"
  ∧ services.Register hash_as_bytes (constant 12) 4%N 104%N recovery_key
      r.2.1 r.2.2 "b@x.com" "Robert" "pw4"
    = (uuid_zero, Some services.ErrEmailExists, (r.2.1, r.2.2)).
Proof.
  intros r. split; [reflexivity|].
  destruct (Register_creates_account hash_as_bytes (constant 10) 2%N 101%N
              recovery_key registered [] "b@x.com" "Bob" "pw2" 2%N r.2.1
              r.2.2 eq_refl)
    as (_ & _ & (hash & _ & Hnew) & Hothers & _ & Htaken).
  split; [by eexists|]. split; [by apply Hothers | apply Htaken].
Defined.

Lemma registered_emails_unique : services.emails_unique registered.
Proof.
  intros u1 u2 H1%list_elem_of_singleton H2%list_elem_of_singleton.
  by subst.
Qed.

Lemma Register_keeps_emails_unique_witness :
  services.consistent registered
  ∧ services.emails_unique registered
  ∧ gorm.fresh User.Id 2%N (services.users registered)
  ∧ (let d' :=
       fst (snd (services.Register hash_as_bytes (constant 10) 2%N 101%N
                   recovery_key registered [] "b@x.com" "Bob" "pw2")) in
     services.consistent d' ∧ services.emails_unique d').
Proof.
  assert (gorm.fresh User.Id 2%N (services.users registered)) as Hfresh
    by (split; compute_done).
  split; [exact registered_consistent|].
  split; [exact registered_emails_unique|]. split; [exact Hfresh|].
  exact (Register_keeps_emails_unique hash_as_bytes (constant 10) 2%N
           101%N recovery_key registered [] "b@x.com" "Bob" "pw2"
           registered_consistent registered_emails_unique Hfresh).
Defined.

Lemma Register_then_Login_witness :
  let r :=
    services.Register hash_as_bytes (constant 10) 2%N 101%N recovery_key
      registered [] "b@x.com" "Bob" "pw2" in
  r.1 = (2%N, None)
  ∧ (∃ token d'',
       @services.Login externals 1 (constant 11) t0 70%N r.2.1 "b@x.com"
         "pw2" = Some (token, None, d''))
  ∧ @services.Login externals 1 (constant 11) t0 70%N r.2.1 "b@x.com"
      "guess" = Some ("", Some ErrInvalidCredentials, r.2.1).
Proof.
  intros r. split; [reflexivity|].
  assert (∀ passwordHash,
            hash_as_bytes (String.list_byte_of_string "pw2")
              services.bcryptCost = Some passwordHash →
            @bcrypt_CompareHashAndPassword externals passwordHash
              (String.list_byte_of_string "pw2") = true) as Hbcrypt.
  { intros passwordHash [= <-]. reflexivity. }
  destruct (@Register_then_Login externals hash_as_bytes (constant 10) 2%N
              101%N recovery_key registered [] "b@x.com" "Bob" "pw2" r.2.1
              r.2.2 ltac:(compute_done) Hbcrypt eq_refl)
    as [Hright Hwrong].
  split.
  - destruct (services.generateRandomString (constant 11) 0 64)
      as [code|] eqn:Hcode; [|discriminate Hcode].
    eexists _, _. apply (Hright 0%nat (constant 11) t0 70%N code Hcode).
    by intros t ?%elem_of_nil.
  - by apply (Hwrong 1%nat (constant 11) t0 70%N "guess"
                (String.list_byte_of_string "pw2")).
Defined.

Lemma IsInGroup_member_or_admin_witness :
  db.memberships_ok ledger
  ∧ is_Some (db.membership_of ledger family ann)
  ∧ fst (db.IsInGroup ledger family ann) = true
  ∧ db.IsInGroup ledger family carl
    = (fst (db.IsMember ledger family carl)
       || fst (db.IsAdmin ledger family carl), None).
Proof.
  assert (is_Some (db.membership_of ledger family ann)) as Hsome
    by (by eexists).
  split; [exact ledger_ok|]. split; [exact Hsome|]. split.
  - destruct (IsInGroup_member_or_admin ledger family ann) as [_ Hiff].
    by apply (Hiff ledger_ok).
  - by destruct (IsInGroup_member_or_admin ledger family carl) as [Heq _].
Defined.

Lemma generateRandomString_outcome_witness :
  ∃ code,
    services.generateRandomString (constant 10) 0 6 = Ok code
    ∧ String.length code = 6%nat ∧ services.from_letters code.
Proof.
  pose proof (generateRandomString_outcome (constant 10) 0 6) as Hout.
  destruct (services.generateRandomString (constant 10) 0 6) as [code|e].
  - exists code. by destruct Hout as (_ & Hlen & Hletters).
  - by destruct Hout as (_ & k & _ & Hnone).
Defined.

Lemma generateRecoveryCodes_outcome_witness :
  ∃ codes,
    services.generateRecoveryCodes (constant 10) = Ok codes
    ∧ length codes = 10%nat.
Proof.
  pose proof (generateRecoveryCodes_outcome (constant 10)) as Hout.
  destruct (services.generateRecoveryCodes (constant 10)) as [codes|e].
  - exists codes. by destruct Hout as (Hlen & _).
  - by destruct Hout as (_ & k & _ & Hnone).
Defined.

Lemma DeleteUser_guard_witness :
  let r :=
    @handlers.DeleteUser externals 1767225600 store 1%N (Some delete_body)
  in
  handlers.status r.1 = handlers.StatusOK
  ∧ ∃ user t,
      handlers.GetById store 1%N = Some user
      ∧ @handlers.GetTwoFATokenByCode externals store user "tok" = Some t
      ∧ 1767225600 ≤ TwoFAToken.ExpirationTime t.
Proof.
  intros r. split; [reflexivity|].
  destruct (@DeleteUser_guard externals 1767225600 store 1%N
              (Some delete_body)) as [Hok _].
  destruct Hok as (user & body & t & Hu & [= <-] & _ & Ht & Hexp & _);
    [left; reflexivity|].
  by exists user, t.
Defined.

End MoreSamples.
